(** * ExerciseDB MCP server: a shallow embedding of [server.py]

    The development follows the layout of the Python module:

    - [Py]: the few [str] and [list] operations the module uses
      ([lower], [title], [strip], [in], [replace], slices, [join]);
    - the data model: exercise records, JSON payloads, HTTP outcomes;
    - the three formatting helpers;
    - the process state (response cache, request counter, standard output)
      and [make_api_request];
    - the selection steps the workout builders share (equipment filter,
      slice, deduplication loop), the five builders and
      [get_exercise_by_id];
    - the listing tools, the search, the alternatives and the
      modifications;
    - the two halves of a call of [make_api_request], before and after its
      [await], and the server that interleaves the calls in flight;
    - the properties of section 8 of the specification, and further
      properties of the code.

    Text is modelled by its UTF-8 encoding: a byte string, whose characters
    are counted and cut as Python does ([str_len], [str_take]).  Case mapping
    acts on the ASCII letters, which is what [str.lower] and [str.title]
    do on ASCII text; a property that needs the case mapping of a name is
    stated for names in ASCII.
    Python integers are [Z].  An exercise record is the upstream JSON object:
    its ten documented keys, every one of them optional since the module
    reads each key through [dict.get], with values of the documented types
    (text, or a list of texts), and the names of whatever other keys the
    object carries, which the module never reads. *)

From Stdlib Require Import Ascii.
From stdpp Require Import base strings gmap list sorting pretty.

Local Open Scope Z_scope.

(** ** Python text and sequence operations *)

Module Py.

Definition is_upper (c : ascii) : bool :=
  let n := N_of_ascii c in ((65 <=? n) && (n <=? 90))%N.

Definition is_lower (c : ascii) : bool :=
  let n := N_of_ascii c in ((97 <=? n) && (n <=? 122))%N.

Definition lower_char (c : ascii) : ascii :=
  if is_upper c then ascii_of_N (N_of_ascii c + 32) else c.

Definition upper_char (c : ascii) : ascii :=
  if is_lower c then ascii_of_N (N_of_ascii c - 32) else c.

(** [s.lower()] *)
Fixpoint lower (s : string) : string :=
  match s with
  | EmptyString => EmptyString
  | String c s' => String (lower_char c) (lower s')
  end.

(** [s.title()]: a letter that follows a letter is lowered, any other
    letter is raised. *)
Fixpoint title_go (previous_is_cased : bool) (s : string) : string :=
  match s with
  | EmptyString => EmptyString
  | String c s' =>
      String (if previous_is_cased then lower_char c else upper_char c)
             (title_go (is_upper c || is_lower c) s')
  end.

Definition title (s : string) : string := title_go false s.

(** [sub in s] on strings *)
Fixpoint contains (sub s : string) : bool :=
  String.prefix sub s ||
  match s with
  | EmptyString => false
  | String _ s' => contains sub s'
  end.

(** [s.replace(old, new)] for a one-character [old] *)
Fixpoint replace (old : ascii) (new : string) (s : string) : string :=
  match s with
  | EmptyString => EmptyString
  | String c s' =>
      if decide (c = old) then new +:+ replace old new s'
      else String c (replace old new s')
  end.

(** the characters [str.strip()] removes: tab to carriage return, the
    four separators 0x1c-0x1f, and the space *)
Definition is_space (c : ascii) : bool :=
  let n := N_of_ascii c in
  (((9 <=? n) && (n <=? 13)) || ((28 <=? n) && (n <=? 32)))%N.

Fixpoint lstrip (s : string) : string :=
  match s with
  | EmptyString => EmptyString
  | String c s' => if is_space c then lstrip s' else s
  end.

Fixpoint rstrip (s : string) : string :=
  match s with
  | EmptyString => EmptyString
  | String c s' =>
      match rstrip s' with
      | EmptyString => if is_space c then EmptyString else String c EmptyString
      | kept => String c kept
      end
  end.

(** [s.strip()] *)
Definition strip (s : string) : string := rstrip (lstrip s).

(** A byte that continues a character of a UTF-8 text (10xxxxxx). *)
Definition is_continuation (c : ascii) : bool :=
  let n := N_of_ascii c in ((128 <=? n) && (n <=? 191))%N.

(** [len(s)] on a text: the number of its characters, which are the bytes
    of its UTF-8 encoding that continue none *)
Fixpoint str_len (s : string) : nat :=
  match s with
  | EmptyString => O
  | String c s' => if is_continuation c then str_len s' else S (str_len s')
  end.

(** [s[:n]] for a natural [n]: the first [n] characters, each with the
    bytes that continue it *)
Fixpoint str_take (n : nat) (s : string) : string :=
  match s with
  | EmptyString => EmptyString
  | String c s' =>
      if is_continuation c then String c (str_take n s')
      else match n with
           | O => EmptyString
           | S n' => String c (str_take n' s')
           end
  end.

(** [s.isascii()] *)
Fixpoint isascii (s : string) : bool :=
  match s with
  | EmptyString => true
  | String c s' => (N_of_ascii c <? 128)%N && isascii s'
  end.

(** [l[:n]]: a negative bound counts from the end of the list *)
Definition slice_to {A} (n : Z) (l : list A) : list A :=
  if decide (n < 0)
  then take (length l - Z.to_nat (- n))%nat l
  else take (Z.to_nat n) l.

(** [sep.join(l)] *)
Definition join (sep : string) (l : list string) : string :=
  String.concat sep l.

(** [enumerate(l, start)] *)
Definition enumerate {A} (start : Z) (l : list A) : list (Z * A) :=
  imap (λ i x, (start + Z.of_nat i, x)) l.

(** [len(l)] *)
Definition len {A} (l : list A) : Z := Z.of_nat (length l).

(** [str(n)] for an integer *)
Definition str (n : Z) : string := pretty n.

(** [d.get(key, default)] on a key that may be absent *)
Definition get {A} (field : option A) (default : A) : A :=
  from_option id default field.

End Py.

(** ** Data model *)

(** One upstream exercise record.  [None] is an absent key; [ex_others]
    lists the keys of the object that are none of the ten. *)
Record exercise := Exercise {
  ex_id : option string;
  ex_name : option string;
  ex_bodyPart : option string;
  ex_target : option string;
  ex_secondaryMuscles : option (list string);
  ex_equipment : option string;
  ex_instructions : option (list string);
  ex_category : option string;
  ex_difficulty : option string;
  ex_gifUrl : option string;
  ex_others : list string
}.

Global Instance exercise_eq_dec : EqDecision exercise.
Proof. solve_decision. Defined.

(** The record without any key: the JSON object [{}]. *)
Definition empty_record : exercise :=
  Exercise None None None None None None None None None None [].

(** What [make_api_request] returns, after its annotation
    [Union[Dict, List[Dict], None]]: [PNone] is Python's [None] (also the
    value of a JSON [null] body). *)
Inductive payload :=
  | PNone
  | PDict (record : exercise)
  | PList (records : list exercise).

Global Instance payload_eq_dec : EqDecision payload.
Proof. solve_decision. Defined.

(** Truth value of a Python object: [None], the empty object, list and string are false. *)
Definition truthy_str (s : string) : bool :=
  if decide (s = EmptyString) then false else true.

Definition truthy_list {A} (l : list A) : bool :=
  match l with [] => false | _ => true end.

Definition truthy_opt_str (o : option string) : bool :=
  from_option truthy_str false o.

Definition truthy_record (r : exercise) : bool :=
  if decide (r = empty_record) then false else true.

Definition truthy (p : payload) : bool :=
  match p with
  | PNone => false
  | PDict r => truthy_record r
  | PList l => truthy_list l
  end.

(** ** Formatting helpers *)

(** The [Instructions] cell of [format_exercise_list]: the first
    instruction, cut to 100 characters and followed by an ellipsis when it
    is longer. *)
Definition instructions_cell (exercise : exercise) : string :=
  match ex_instructions exercise with
  | Some (first :: _) =>
      if decide (100 < Z.of_nat (Py.str_len first))
      then Py.str_take 100 first +:+ "..."
      else first
  | _ => "No instructions available"
  end.

(** One iteration of the loop of [format_exercise_list]: the entry that is
    appended to [formatted_exercises]. *)
Definition format_exercise_entry (show_gif : bool) (i : Z) (exercise : exercise)
  : string :=
  let gif_section :=
    if show_gif && truthy_opt_str (ex_gifUrl exercise)
    then "
- **Visual Guide (GIF):** " +:+ Py.get (ex_gifUrl exercise) EmptyString
    else EmptyString in
  let formatted := "
**" +:+ Py.str i +:+ ". " +:+ Py.get (ex_name exercise) "Unknown Exercise" +:+ "**
- **ID:** " +:+ Py.get (ex_id exercise) "N/A" +:+ "
- **Body Part:** " +:+ Py.title (Py.get (ex_bodyPart exercise) "N/A") +:+ "
- **Target Muscle:** " +:+ Py.title (Py.get (ex_target exercise) "N/A") +:+ "
- **Equipment:** " +:+ Py.title (Py.get (ex_equipment exercise) "N/A") +:+ "
- **Instructions:** " +:+ instructions_cell exercise +:+ gif_section +:+ "
" in
  Py.strip formatted.

(** The list [formatted_exercises] at the end of the loop. *)
Definition formatted_exercises (exercises : list exercise) (limit : Z)
    (show_gif : bool) : list string :=
  let display_exercises := Py.slice_to limit exercises in
  (λ '(i, exercise), format_exercise_entry show_gif i exercise)
    <$> Py.enumerate 1 display_exercises.

(** The sentence appended when the list is longer than [limit]. *)
Definition more_available (exercises : list exercise) (limit : Z) : string :=
  if decide (limit < Py.len exercises)
  then "

... and " +:+ Py.str (Py.len exercises - limit) +:+
       " more exercises available. Use specific filters to narrow down results."
  else EmptyString.

Definition format_exercise_list (exercises : list exercise) (limit : Z)
    (show_gif : bool) : string :=
  if negb (truthy_list exercises) then "No exercises found."
  else
    let result := Py.join "

" (formatted_exercises exercises limit show_gif) in
    result +:+ more_available exercises limit.


Definition format_exercise_detail (exercise : exercise) : string :=
  if negb (truthy_record exercise) then "Exercise not found."
  else
    let instructions := Py.get (ex_instructions exercise) [] in
    let instructions_text := Py.join "
" ((λ '(i, instruction), Py.str (i + 1) +:+ ". " +:+ instruction)
       <$> Py.enumerate 0 instructions) in
    let secondary_muscles := Py.get (ex_secondaryMuscles exercise) [] in
    let secondary_text :=
      if truthy_list secondary_muscles
      then Py.join ", " (Py.title <$> secondary_muscles)
      else "None" in
    let gif_section :=
      if truthy_opt_str (ex_gifUrl exercise)
      then "
**🎬 Exercise Demonstration (GIF):** " +:+ Py.get (ex_gifUrl exercise) EmptyString
      else EmptyString in
    "
**" +:+ Py.get (ex_name exercise) "Unknown Exercise" +:+ "**

**📋 Basic Information:**
- **ID:** " +:+ Py.get (ex_id exercise) "N/A" +:+ "
- **Body Part:** " +:+ Py.title (Py.get (ex_bodyPart exercise) "N/A") +:+ "
- **Primary Target:** " +:+ Py.title (Py.get (ex_target exercise) "N/A") +:+ "
- **Secondary Muscles:** " +:+ secondary_text +:+ "
- **Equipment:** " +:+ Py.title (Py.get (ex_equipment exercise) "N/A") +:+ "

**📝 Step-by-Step Instructions:**
" +:+ (if truthy_str instructions_text then instructions_text
       else "No detailed instructions available") +:+ "
" +:+ gif_section +:+ "

**ℹ️ Additional Information:**
- **Category:** " +:+ Py.get (ex_category exercise) "N/A" +:+ "
- **Difficulty:** " +:+ Py.get (ex_difficulty exercise) "N/A" +:+ "
".

(** The first instruction of a record, or the caller's stock sentence. *)
Definition main_instruction (exercise : exercise) (stock : string) : string :=
  match Py.get (ex_instructions exercise) [] with
  | first :: _ => first
  | [] => stock
  end.

(** The optional line that carries the demonstration URL. *)
Definition gif_line (label : string) (exercise : exercise) : string :=
  if truthy_opt_str (ex_gifUrl exercise)
  then "
- **🎬 " +:+ label +:+ ":** " +:+ Py.get (ex_gifUrl exercise) EmptyString
  else EmptyString.

(** One iteration of the loop of [format_workout_plan]: the block added to
    [workout_plan]. *)
Definition workout_plan_block (i : Z) (exercise : exercise) : string :=
  let main_instruction :=
    main_instruction exercise "Follow proper form and controlled movement" in
  let sets_reps :=
    if Py.contains "cardio" (Py.lower (Py.get (ex_bodyPart exercise) EmptyString))
    then "3 sets of 30-45 seconds"
    else if Py.contains "abs" (Py.lower (Py.get (ex_target exercise) EmptyString))
         || Py.contains "core" (Py.lower (Py.get (ex_target exercise) EmptyString))
    then "3 sets of 12-20 reps"
    else "3 sets of 8-12 reps" in
  let gif_section := gif_line "Exercise Demo" exercise in
  "
### Exercise " +:+ Py.str i +:+ ": " +:+ Py.get (ex_name exercise) "Unknown Exercise" +:+ "
- **🎯 Target:** " +:+ Py.title (Py.get (ex_target exercise) "N/A") +:+ "
- **🛠️ Equipment:** " +:+ Py.title (Py.get (ex_equipment exercise) "N/A") +:+ "
- **📝 Key Instruction:** " +:+ main_instruction +:+ "
- **📊 Sets/Reps:** " +:+ sets_reps +:+ "
- **⏰ Rest:** 60-90 seconds between sets" +:+ gif_section +:+ "

".

Definition format_workout_plan (exercises : list exercise) (workout_type : string)
    (equipment : string) (duration : Z) : string :=
  if negb (truthy_list exercises) then "No exercises found for this workout plan."
  else
    let workout_plan := "
# 🏋️ " +:+ Py.title workout_type +:+ " Workout Plan

**⏱️ Duration:** ~" +:+ Py.str duration +:+ " minutes
**🛠️ Equipment:** " +:+ Py.title equipment +:+ "
**💪 Total Exercises:** " +:+ Py.str (Py.len exercises) +:+ "

## 🎯 Workout Structure

" in
    let workout_plan :=
      foldl (λ plan '(i, exercise), plan +:+ workout_plan_block i exercise)
            workout_plan (Py.enumerate 1 exercises) in
    workout_plan +:+ "
## 💡 Workout Guidelines:
- **Warm-up:** 5-10 minutes of light cardio and dynamic stretching
- **Form Focus:** Quality over quantity - maintain proper form throughout
- **Progressive Overload:** Gradually increase intensity as you get stronger
- **Rest Periods:** Allow adequate rest between exercises and sets
- **Cool-down:** 5-10 minutes of stretching and breathing exercises
- **Hydration:** Keep water nearby and stay hydrated
- **Listen to Your Body:** Stop if you feel pain or excessive fatigue

## 🎬 Visual Guides:
All exercises include animated GIF demonstrations to help you maintain proper form and technique.
".

(** ** The process: response cache, upstream, standard output *)

(** What one GET request comes to: a response with its status code and
    body, or an exception of the transport (timeout, refused connection),
    with the text [print] shows for it. *)
Inductive body :=
  | Json (data : payload)
  | NotJson (error : string).

Inductive outcome :=
  | Response (status_code : Z) (content : body)
  | TransportError (error : string).

(** The state of the server process: the module-level dictionary [_cache],
    the number of GET requests issued so far, and the lines printed. *)
Record process := Process {
  _cache : gmap string payload;
  requests : nat;
  stdout : list string
}.

(** A fresh process: [_cache = {}]. *)
Definition start : process := Process ∅ 0 [].

(** The exceptions a tool can let escape: [.get] called on a [str], and a
    slice taken of a [dict] (a [TypeError] before Python 3.12, a [KeyError]
    from then on). *)
Inductive exn :=
  | AttributeError
  | DictSliceError.

Inductive result (A : Type) :=
  | Returned (a : A)
  | Raised (e : exn).
Global Arguments Returned {A} a.
Global Arguments Raised {A} e.

Global Instance result_ret : MRet result := λ A a, Returned a.
Global Instance result_bind : MBind result := λ A B f r,
  match r with
  | Returned a => f a
  | Raised e => Raised e
  end.

(** Computations of the process: state passing, with escaping exceptions.
    A computation is an invocation run with no other call of the process
    in between. *)
Definition M (A : Type) : Type := process → result A * process.

Global Instance M_ret : MRet M := λ A a st, (Returned a, st).
Global Instance M_bind : MBind M := λ A B f m st,
  match m st with
  | (Returned a, st') => f a st'
  | (Raised e, st') => (Raised e, st')
  end.

(** A pure step that may raise. *)
Definition lift {A} (r : result A) : M A := λ st, (r, st).

(** [print(line)] *)
Definition print (line : string) (st : process) : process :=
  Process (_cache st) (requests st) (stdout st ++ [line]).

(** [_cache[cache_key] = data] *)
Definition store (cache_key : string) (data : payload) (st : process) : process :=
  Process (<[cache_key := data]> (_cache st)) (requests st) (stdout st).

(** One more GET request has been issued. *)
Definition issued (st : process) : process :=
  Process (_cache st) (S (requests st)) (stdout st).

Definition EXERCISEDB_API_HOST : string := "exercisedb.p.rapidapi.com".
Definition API_BASE_URL : string := "https://" +:+ EXERCISEDB_API_HOST.

(** [response.raise_for_status()] of httpx lets the 2xx codes pass. *)
Definition is_success (status_code : Z) : bool :=
  bool_decide (200 ≤ status_code ≤ 299).

(** ** Sample records and upstreams

    Concrete data for the examples at the end of the file. *)

Definition push_up : exercise :=
  Exercise (Some "0662") (Some "push-up") (Some "chest") (Some "pectorals")
    (Some ["triceps"; "delts"]) (Some "body weight")
    (Some ["Start in a high plank position."; "Lower your chest to the floor."])
    None None (Some "https://v2.exercisedb.io/image/push-up") [].

Definition dumbbell_fly : exercise :=
  Exercise (Some "0308") (Some "dumbbell fly") (Some "chest") (Some "pectorals")
    None (Some "Dumbbell") (Some ["Lie on a flat bench."]) None None None [].

Definition bench_press : exercise :=
  Exercise (Some "0025") (Some "barbell bench press") (Some "chest")
    (Some "pectorals") None (Some "barbell") None None None None [].

(** Two records the upstream sent without an identifier. *)
Definition stretch_a : exercise :=
  Exercise None (Some "side stretch") None None None None None None None None [].

Definition stretch_b : exercise :=
  Exercise None (Some "neck stretch") None None None None None None None None [].

(** What an upstream may send in place of a record: an object with none
    of the ten keys.  It is not empty, so Python takes it for true. *)
Definition error_object : exercise :=
  Exercise None None None None None None None None None None ["message"].

(** A record without an [equipment] key. *)
Definition plank : exercise :=
  Exercise (Some "0463") (Some "plank") (Some "waist") (Some "abs")
    None None None None None None [].

Definition double_quote : ascii := ascii_of_N 34.

(** [json.dumps(d, sort_keys=True)] on dictionaries of plain text (no
    quote, backslash, control or non-ASCII character to escape). *)
Definition json_dumps_plain (d : gmap string string) : string :=
  let quoted s := String double_quote s +:+ String double_quote EmptyString in
  "{" +:+
  Py.join ", " ((λ '(k, v), quoted k +:+ ": " +:+ quoted v)
                  <$> merge_sort (λ a b, String.le a.1 b.1) (map_to_list d))
  +:+ "}".

(** The first request times out, the later ones are answered. *)
Definition flaky : nat → string → gmap string string → outcome :=
  λ n _ _,
    match n with
    | O => TransportError "timed out"
    | S _ => Response 200 (Json (PList [push_up]))
    end.

(** Every request is answered with the JSON body [null]. *)
Definition null_body : nat → string → gmap string string → outcome :=
  λ _ _ _, Response 200 (Json PNone).

(** Every request is refused for a bad key. *)
Definition unauthorized : nat → string → gmap string string → outcome :=
  λ _ _ _, Response 401 (NotJson "Expecting value: line 1 column 1 (char 0)").

(** A small catalogue: three chest records; every other path is unknown. *)
Definition catalogue : nat → string → gmap string string → outcome :=
  λ _ url _,
    if decide (url = API_BASE_URL +:+ "/exercises/bodyPart/chest")
    then Response 200 (Json (PList [push_up; dumbbell_fly; bench_press]))
    else Response 404 (NotJson "Expecting value: line 1 column 1 (char 0)").

(** No chest record, and an equipment listing that carries a record
    without an [equipment] key. *)
Definition loose_listing : nat → string → gmap string string → outcome :=
  λ _ url _,
    if decide (url = API_BASE_URL +:+ "/exercises/equipment/dumbbell")
    then Response 200 (Json (PList [plank]))
    else Response 200 (Json (PList [])).

(** The first request is answered with one list, the later ones with
    another. *)
Definition changing : nat → string → gmap string string → outcome :=
  λ n _ _,
    match n with
    | O => Response 200 (Json (PList [push_up]))
    | S _ => Response 200 (Json (PList [dumbbell_fly]))
    end.

(** Chest records without [dumbbell], and a listing for [dumbbell] that
    carries a record without an [equipment] key. *)
Definition mislabelled : nat → string → gmap string string → outcome :=
  λ _ url _,
    if decide (url = API_BASE_URL +:+ "/exercises/bodyPart/chest")
    then Response 200 (Json (PList [push_up; bench_press]))
    else if decide (url = API_BASE_URL +:+ "/exercises/equipment/dumbbell")
    then Response 200 (Json (PList [plank]))
    else Response 404 (NotJson "Expecting value: line 1 column 1 (char 0)").

(** No chest record, and a listing for [dumbbell] that repeats its first
    record. *)
Definition repeating : nat → string → gmap string string → outcome :=
  λ _ url _,
    if decide (url = API_BASE_URL +:+ "/exercises/equipment/dumbbell")
    then Response 200
           (Json (PList [dumbbell_fly; dumbbell_fly; push_up; bench_press]))
    else Response 200 (Json (PList [])).

Section server.

(** [json.dumps(·, sort_keys=True)] of the standard library, and the
    upstream API: what the [n]-th GET request of the process, to a URL with
    query parameters, comes to.  The development is parametric in both. *)
Variable json_dumps : gmap string string → string.
Variable upstream : nat → string → gmap string string → outcome.

(** [params or {}] *)
Definition params_or_empty (params : option (gmap string string))
  : gmap string string := default ∅ params.

Definition cache_key_of (endpoint : string) (params : option (gmap string string))
  : string :=
  endpoint +:+ "_" +:+ json_dumps (params_or_empty params).

(** The [try] block of [make_api_request]: the request, the status check,
    the parse, and the three ways out. *)
Definition fetch (cache_key url : string) (params : gmap string string)
    (use_cache : bool) (st : process) : payload * process :=
  match upstream (requests st) url params with
  | Response status_code content =>
      let st := issued st in
      if is_success status_code then
        match content with
        | Json data => (data, if use_cache then store cache_key data st else st)
        | NotJson e => (PNone, print ("An error occurred: " +:+ e) st)
        end
      else
        let st := print ("HTTP error occurred: " +:+ Py.str status_code) st in
        let st :=
          if decide (status_code = 401)
          then print "Authentication failed. Please check your RapidAPI key." st
          else st in
        (PNone, st)
  | TransportError e =>
      (PNone, print ("An error occurred: " +:+ e) (issued st))
  end.

(** A call of [make_api_request] run from its test of the cache to its
    return with no other call of the process in between. *)
Definition make_api_request (endpoint : string)
    (params : option (gmap string string)) (use_cache : bool)
    (st : process) : payload * process :=
  let cache_key := cache_key_of endpoint params in
  match (if use_cache then _cache st !! cache_key else None) with
  | Some data => (data, st)
  | None =>
      let url := API_BASE_URL +:+ endpoint in
      fetch cache_key url (params_or_empty params) use_cache st
  end.

(** [await make_api_request(endpoint)] inside a tool. *)
Definition request (endpoint : string) : M payload := λ st,
  let '(data, st') := make_api_request endpoint None true st in
  (Returned data, st').

(** ** Calls that overlap

    [make_api_request] above is a call run from its test of the cache to
    its return with no other call of the process in between.  The source
    suspends at [await client.get], between the test and the store, and
    other calls of the process may run there.  Here are the two halves of
    a call and the server that interleaves the calls in flight. *)

(** A call suspended at [await client.get]: its cache key, its
    [use_cache] flag, and what its request comes to. *)
Record suspended := Suspended {
  s_key : string;
  s_use_cache : bool;
  s_outcome : outcome
}.

(** The first half of a call: the test of the cache and, on a miss, the
    request issued. *)
Definition begin_call (endpoint : string)
    (params : option (gmap string string)) (use_cache : bool)
    (st : process) : (payload + suspended) * process :=
  let cache_key := cache_key_of endpoint params in
  match (if use_cache then _cache st !! cache_key else None) with
  | Some data => (inl data, st)
  | None =>
      let url := API_BASE_URL +:+ endpoint in
      (inr (Suspended cache_key use_cache
              (upstream (requests st) url (params_or_empty params))),
       issued st)
  end.

(** The second half: the rest of the [try] block, run when the response
    is there. *)
Definition resume_call (call : suspended) (st : process) : payload * process :=
  match s_outcome call with
  | Response status_code content =>
      if is_success status_code then
        match content with
        | Json data =>
            (data, if s_use_cache call then store (s_key call) data st else st)
        | NotJson e => (PNone, print ("An error occurred: " +:+ e) st)
        end
      else
        let st := print ("HTTP error occurred: " +:+ Py.str status_code) st in
        let st :=
          if decide (status_code = 401)
          then print "Authentication failed. Please check your RapidAPI key." st
          else st in
        (PNone, st)
  | TransportError e => (PNone, print ("An error occurred: " +:+ e) st)
  end.

(** The server: the process and the calls in flight, oldest first. *)
Record server := Server {
  proc : process;
  in_flight : list suspended
}.

(** What the event loop runs next: the first half of a new call, or the
    second half of the call in flight at position [i]. *)
Inductive event :=
  | Begin (endpoint : string) (params : option (gmap string string))
          (use_cache : bool)
  | Resume (i : nat).

(** One step of the event loop, with the payload of the call that returns
    at this step, if one does. *)
Definition step (ev : event) (sv : server) : option payload * server :=
  match ev with
  | Begin endpoint params use_cache =>
      match begin_call endpoint params use_cache (proc sv) with
      | (inl data, st) => (Some data, Server st (in_flight sv))
      | (inr call, st) => (None, Server st (in_flight sv ++ [call]))
      end
  | Resume i =>
      match in_flight sv !! i with
      | Some call =>
          let '(data, st) := resume_call call (proc sv) in
          (Some data, Server st (delete i (in_flight sv)))
      | None => (None, sv)
      end
  end.

Definition run_events (events : list event) (sv : server) : server :=
  foldl (λ sv ev, (step ev sv).2) sv events.

(** Calls that run one after the other: each returns before the next
    begins. *)
Definition one_by_one
    (calls : list (string * option (gmap string string) * bool))
  : list event :=
  calls ≫= λ '(endpoint, params, use_cache),
              [Begin endpoint params use_cache; Resume 0].

(** ** Selection steps shared by the workout builders *)

(** What a [for] loop or a comprehension over a payload meets: the records
    of a list, or the keys (strings) of a dictionary. *)
Inductive item :=
  | IRecord (r : exercise)
  | IStr (s : string).

Definition present {A} (key : string) (field : option A) : list string :=
  match field with Some _ => [key] | None => [] end.

Definition keys (r : exercise) : list string :=
  present "id" (ex_id r) ++ present "name" (ex_name r) ++
  present "bodyPart" (ex_bodyPart r) ++ present "target" (ex_target r) ++
  present "secondaryMuscles" (ex_secondaryMuscles r) ++
  present "equipment" (ex_equipment r) ++
  present "instructions" (ex_instructions r) ++
  present "category" (ex_category r) ++
  present "difficulty" (ex_difficulty r) ++ present "gifUrl" (ex_gifUrl r) ++
  ex_others r.

Definition iterate (data : payload) : list item :=
  match data with
  | PNone => []
  | PDict r => IStr <$> keys r
  | PList l => IRecord <$> l
  end.

(** [data[:n]] on a payload that passed the truth test. *)
Definition slice_payload (n : Z) (data : payload) : result (list item) :=
  match data with
  | PList l => Returned (IRecord <$> Py.slice_to n l)
  | _ => Raised DictSliceError
  end.

(** [equipment.lower() not in ["any", "all"]] *)
Definition specific (equipment : string) : bool :=
  negb (bool_decide (Py.lower equipment ∈ ["any"; "all"])).

(** [equipment.lower() in ex.get('equipment', '').lower()] *)
Definition has_equipment (equipment : string) (ex : exercise) : bool :=
  Py.contains (Py.lower equipment)
              (Py.lower (Py.get (ex_equipment ex) EmptyString)).

(** [[ex for ex in data if equipment.lower() in ex.get('equipment', '').lower()]] *)
Fixpoint equipment_filter (equipment : string) (data : list item)
  : result (list item) :=
  match data with
  | [] => Returned []
  | IStr _ :: _ => Raised AttributeError
  | IRecord ex :: rest =>
      kept ← equipment_filter equipment rest;
      Returned (if has_equipment equipment ex then IRecord ex :: kept else kept)
  end.

(** The body of [if part_data:] in every builder: the filter when a
    specific equipment is asked for, then the slice; the result is what
    [exercises.extend] receives. *)
Definition filter_and_slice (equipment : string) (n : Z) (data : payload)
  : result (list item) :=
  if specific equipment then
    kept ← equipment_filter equipment (iterate data);
    Returned (Py.slice_to n kept)
  else slice_payload n data.

(** One body-part query of a builder:
    [part_data = await make_api_request(f"/exercises/bodyPart/{body_part}")]
    and the [if part_data:] block, extending [exercises]. *)
Definition extend_from_body_part (body_part equipment : string) (n : Z)
    (exercises : list item) : M (list item) :=
  part_data ← request ("/exercises/bodyPart/" +:+ body_part);
  if truthy part_data then
    selected ← lift (filter_and_slice equipment n part_data);
    mret (exercises ++ selected)
  else mret exercises.

(** [for body_part in body_parts: ...] *)
Fixpoint extend_from_body_parts (body_parts : list string) (equipment : string)
    (n : Z) (exercises : list item) : M (list item) :=
  match body_parts with
  | [] => mret exercises
  | body_part :: rest =>
      exercises ← extend_from_body_part body_part equipment n exercises;
      extend_from_body_parts rest equipment n exercises
  end.

(** The deduplication loop.  [bound] is the count at which the loop breaks;
    [get_beginner_workout_plan] has no [break]. *)
Fixpoint remove_duplicates (bound : option Z) (exercises : list item)
    (seen_ids : gset (option string)) (unique_exercises : list exercise)
  : result (list exercise) :=
  match exercises with
  | [] => Returned unique_exercises
  | IStr _ :: _ => Raised AttributeError
  | IRecord exercise :: rest =>
      if decide (ex_id exercise ∈ seen_ids)
      then remove_duplicates bound rest seen_ids unique_exercises
      else
        let seen_ids := seen_ids ∪ {[ex_id exercise]} in
        let unique_exercises := unique_exercises ++ [exercise] in
        match bound with
        | Some count =>
            if decide (count ≤ Py.len unique_exercises)
            then Returned unique_exercises
            else remove_duplicates bound rest seen_ids unique_exercises
        | None => remove_duplicates bound rest seen_ids unique_exercises
        end
  end.

Definition unique_by_id (bound : option Z) (exercises : list item)
  : result (list exercise) :=
  remove_duplicates bound exercises ∅ [].

(** ** [create_personalized_workout] *)

Definition personalized_exercise_count (duration_minutes : Z)
    (fitness_level : string) : Z :=
  let exercise_count :=
    if decide (duration_minutes ≤ 20) then 4
    else if decide (duration_minutes ≤ 40) then 6
    else 8 in
  if decide (Py.lower fitness_level = "beginner")
  then Z.max 3 (exercise_count - 1)
  else if decide (Py.lower fitness_level = "advanced")
  then Z.min 12 (exercise_count + 2)
  else exercise_count.

(** The [leg] branch: both leg queries, then one filter and one slice over
    their concatenation. *)
Definition extend_from_legs (equipment : string) (exercise_count : Z)
    (exercises : list item) : M (list item) :=
  upper_legs ← request "/exercises/bodyPart/upper legs";
  lower_legs ← request "/exercises/bodyPart/lower legs";
  let combined_data := [] in
  let combined_data :=
    if truthy upper_legs then combined_data ++ iterate upper_legs
    else combined_data in
  let combined_data :=
    if truthy lower_legs then combined_data ++ iterate lower_legs
    else combined_data in
  if truthy_list combined_data then
    combined_data ← lift (if specific equipment
                          then equipment_filter equipment combined_data
                          else Returned combined_data);
    mret (exercises ++ Py.slice_to exercise_count combined_data)
  else mret exercises.

(** The chain of [if]/[elif] over [workout_type.lower()]. *)
Definition personalized_by_type (workout_type equipment : string)
    (exercise_count : Z) (exercises : list item) : M (list item) :=
  let wt := Py.lower workout_type in
  if Py.contains "chest" wt then
    extend_from_body_part "chest" equipment exercise_count exercises
  else if Py.contains "full body" wt || Py.contains "full-body" wt then
    let body_parts :=
      ["chest"; "back"; "upper legs"; "shoulders"; "upper arms"; "waist"] in
    let exercises_per_part := Z.max 1 (exercise_count `div` Py.len body_parts) in
    extend_from_body_parts body_parts equipment exercises_per_part exercises
  else if Py.contains "leg" wt || Py.contains "lower body" wt then
    extend_from_legs equipment exercise_count exercises
  else if Py.contains "upper body" wt then
    let upper_parts := ["chest"; "back"; "shoulders"; "upper arms"] in
    let exercises_per_part := Z.max 1 (exercise_count `div` Py.len upper_parts) in
    extend_from_body_parts upper_parts equipment exercises_per_part exercises
  else if Py.contains "cardio" wt || Py.contains "hiit" wt then
    extend_from_body_part "cardio" equipment exercise_count exercises
  else
    extend_from_body_part wt equipment exercise_count exercises.

(** [if not exercises and equipment.lower() not in ["any", "all"]]: the
    search by equipment. *)
Definition equipment_fallback (equipment : string) (exercise_count : Z)
    (exercises : list item) : M (list item) :=
  if negb (truthy_list exercises) && specific equipment then
    equipment_data ←
      request ("/exercises/equipment/" +:+
               Py.replace " "%char "%20" (Py.lower equipment));
    if truthy equipment_data then
      selected ← lift (slice_payload exercise_count equipment_data);
      mret (exercises ++ selected)
    else mret exercises
  else mret exercises.

(** The list [exercises] when the deduplication loop starts. *)
Definition personalized_exercises (workout_type equipment : string)
    (exercise_count : Z) : M (list item) :=
  exercises ← personalized_by_type workout_type equipment exercise_count [];
  equipment_fallback equipment exercise_count exercises.

(** The list [unique_exercises] the plan is rendered from. *)
Definition personalized_unique_exercises (workout_type equipment : string)
    (exercise_count : Z) : M (list exercise) :=
  exercises ← personalized_exercises workout_type equipment exercise_count;
  lift (unique_by_id (Some exercise_count) exercises).

Definition create_personalized_workout (workout_type equipment : string)
    (duration_minutes : Z) (fitness_level focus_areas : string) : M string :=
  let exercise_count :=
    personalized_exercise_count duration_minutes fitness_level in
  unique_exercises ←
    personalized_unique_exercises workout_type equipment exercise_count;
  if negb (truthy_list unique_exercises) then
    mret ("❌ Unable to create workout plan for '" +:+ workout_type +:+
          "' with '" +:+ equipment +:+ "' equipment. Try different parameters.")
  else
    mret (format_workout_plan unique_exercises workout_type equipment
                              duration_minutes).

(** ** [create_circuit_training] *)

Definition circuit_exercises (target_areas equipment : string)
    (exercises_per_round : Z) : M (list item) :=
  let ta := Py.lower target_areas in
    (if Py.contains "full body" ta then
       let body_parts :=
         ["chest"; "back"; "upper legs"; "shoulders"; "upper arms"; "waist"] in
       let exercises_per_part :=
         Z.max 1 (exercises_per_round `div` Py.len body_parts) in
       extend_from_body_parts body_parts equipment exercises_per_part []
     else if Py.contains "upper body" ta then
       let upper_parts := ["chest"; "back"; "shoulders"; "upper arms"] in
       let exercises_per_part :=
         Z.max 1 (exercises_per_round `div` Py.len upper_parts) in
       extend_from_body_parts upper_parts equipment exercises_per_part []
     else if Py.contains "lower body" ta then
       let lower_parts := ["upper legs"; "lower legs"] in
       let exercises_per_part :=
         Z.max 1 (exercises_per_round `div` Py.len lower_parts) in
       extend_from_body_parts lower_parts equipment exercises_per_part []
     else if Py.contains "core" ta || Py.contains "abs" ta then
       extend_from_body_part "waist" equipment exercises_per_round []
     else if Py.contains "cardio" ta then
       extend_from_body_part "cardio" equipment exercises_per_round []
     else mret []).

Definition circuit_unique_exercises (target_areas equipment : string)
    (exercises_per_round : Z) : M (list exercise) :=
  exercises ← circuit_exercises target_areas equipment exercises_per_round;
  lift (unique_by_id (Some exercises_per_round) exercises).

(** One exercise of one round. *)
Definition circuit_block (work_time rest_time : Z) (i : Z) (exercise : exercise)
  : string :=
  let main_instruction :=
    main_instruction exercise "Maintain proper form throughout" in
  let gif_section := gif_line "Form Guide" exercise in
  "
**Exercise " +:+ Py.str i +:+ ": " +:+ Py.get (ex_name exercise) "Unknown Exercise" +:+ "**
- **🎯 Target:** " +:+ Py.title (Py.get (ex_target exercise) "N/A") +:+ "
- **🛠️ Equipment:** " +:+ Py.title (Py.get (ex_equipment exercise) "N/A") +:+ "
- **📝 Focus:** " +:+ main_instruction +:+ "
- **⏰ Duration:** " +:+ Py.str work_time +:+ " seconds work, " +:+ Py.str rest_time +:+ " seconds rest" +:+ gif_section +:+ "

".

(** [for round_num in range(1, rounds + 1)], with the loop over the
    exercises inside and [between] added after every round but the last. *)
Definition rounds_loop (block : Z → exercise → string) (between : string)
    (rounds : Z) (unique_exercises : list exercise) (plan : string) : string :=
  foldl (λ plan round_num,
           let plan := plan +:+ "### Round " +:+ Py.str round_num +:+ "

" in
           let plan :=
             foldl (λ plan '(i, exercise), plan +:+ block i exercise)
                   plan (Py.enumerate 1 unique_exercises) in
           if decide (round_num < rounds) then plan +:+ between else plan)
        plan (seqZ 1 rounds).

Definition create_circuit_training (target_areas equipment : string)
    (rounds exercises_per_round work_time rest_time : Z) : M string :=
  unique_exercises ←
    circuit_unique_exercises target_areas equipment exercises_per_round;
  if negb (truthy_list unique_exercises) then
    mret ("❌ Unable to create circuit workout for '" +:+ target_areas +:+
          "' with '" +:+ equipment +:+ "' equipment.")
  else
    let total_time :=
      rounds * (exercises_per_round * work_time
                + (exercises_per_round - 1) * rest_time + 120) in
    let circuit_plan := "
# 🔥 " +:+ Py.title target_areas +:+ " Circuit Training

**⏱️ Total Duration:** ~" +:+ Py.str (total_time `div` 60) +:+ " minutes
**🛠️ Equipment:** " +:+ Py.title equipment +:+ "
**🔄 Rounds:** " +:+ Py.str rounds +:+ "
**💪 Exercises per Round:** " +:+ Py.str (Py.len unique_exercises) +:+ "
**⏰ Work Time:** " +:+ Py.str work_time +:+ " seconds
**😴 Rest Time:** " +:+ Py.str rest_time +:+ " seconds
**🔄 Rest Between Rounds:** 2 minutes

## 🎯 Circuit Structure

" in
    let circuit_plan :=
      rounds_loop (circuit_block work_time rest_time)
        "**🔄 Rest 2 minutes before next round**

" rounds unique_exercises circuit_plan in
    mret (circuit_plan +:+ "
## 💡 Circuit Training Tips:
- **Warm-up:** 5-10 minutes of light movement and dynamic stretching
- **Intensity:** Maintain high intensity during work periods
- **Form Priority:** Never sacrifice form for speed
- **Modifications:** Adjust work/rest ratios based on fitness level
- **Hydration:** Stay hydrated throughout the circuit
- **Cool-down:** 5-10 minutes of stretching and breathing exercises

## 🎬 Visual Demonstrations:
Each exercise includes an animated GIF to help you maintain perfect form and maximize results.
").

(** ** [get_beginner_workout_plan] *)

Definition beginner_exercises (focus_area equipment : string)
  : M (list item) :=
  let fa := Py.lower focus_area in
    (if Py.contains "full body" fa then
       let body_parts :=
         ["chest"; "back"; "upper legs"; "shoulders"; "upper arms"; "waist"] in
       extend_from_body_parts (Py.slice_to 4 body_parts) equipment 2 []
     else if Py.contains "upper body" fa then
       let upper_parts := ["chest"; "back"; "shoulders"; "upper arms"] in
       extend_from_body_parts upper_parts equipment 2 []
     else if Py.contains "lower body" fa then
       let lower_parts := ["upper legs"; "lower legs"] in
       extend_from_body_parts lower_parts equipment 3 []
     else if Py.contains "core" fa then
       extend_from_body_part "waist" equipment 6 []
     else mret []).

Definition beginner_unique_exercises (focus_area equipment : string)
  : M (list exercise) :=
  exercises ← beginner_exercises focus_area equipment;
  lift (unique_by_id None exercises).

Definition beginner_block (i : Z) (exercise : exercise) : string :=
  let main_instruction :=
    main_instruction exercise "Focus on controlled movement" in
  let gif_section := gif_line "Form Tutorial" exercise in
  "
### Exercise " +:+ Py.str i +:+ ": " +:+ Py.get (ex_name exercise) "Unknown Exercise" +:+ "
- **🎯 Target:** " +:+ Py.title (Py.get (ex_target exercise) "N/A") +:+ "
- **🛠️ Equipment:** " +:+ Py.title (Py.get (ex_equipment exercise) "N/A") +:+ "
- **📝 Beginner Focus:** " +:+ main_instruction +:+ "
- **📊 Week 1-2:** 2 sets × 8-10 reps
- **📊 Week 3-4:** 3 sets × 10-12 reps" +:+ gif_section +:+ "

".

(** The records the plan shows: [unique_exercises[:8]]. *)
Definition beginner_shown (unique_exercises : list exercise) : list exercise :=
  Py.slice_to 8 unique_exercises.

Definition get_beginner_workout_plan (focus_area equipment : string) (weeks : Z)
  : M string :=
  unique_exercises ← beginner_unique_exercises focus_area equipment;
  if negb (truthy_list unique_exercises) then
    mret ("❌ Unable to create beginner plan for '" +:+ focus_area +:+
          "' with '" +:+ equipment +:+ "' equipment.")
  else
    let plan := "
# 🌟 Beginner " +:+ Py.title focus_area +:+ " Workout Plan (" +:+ Py.str weeks +:+ " Weeks)

**🎯 Focus:** " +:+ Py.title focus_area +:+ "
**🛠️ Equipment:** " +:+ Py.title equipment +:+ "
**📅 Duration:** " +:+ Py.str weeks +:+ " weeks
**📊 Frequency:** 3 times per week
**⏱️ Session Duration:** 20-30 minutes

## 📈 Progressive Plan Overview

**Week 1-2: Foundation Phase**
- Focus on form and movement patterns
- 2 sets of 8-10 reps for each exercise
- 90-120 seconds rest between sets

**Week 3-4: Building Phase**
- Increase to 3 sets of 10-12 reps
- 60-90 seconds rest between sets
- Add more challenging variations

## 💪 Core Exercises with Visual Guides

" in
    let plan :=
      foldl (λ plan '(i, exercise), plan +:+ beginner_block i exercise)
            plan (Py.enumerate 1 (beginner_shown unique_exercises)) in
    mret (plan +:+ "
## 🗓️ Sample Weekly Schedule

**Monday:** Full routine
**Tuesday:** Rest or light walking
**Wednesday:** Full routine
**Thursday:** Rest or light stretching
**Friday:** Full routine
**Saturday:** Rest or light activity
**Sunday:** Rest

## 🌟 Beginner Success Tips

1. **Start Slow:** Master the movement before adding intensity
2. **Listen to Your Body:** Some muscle soreness is normal, sharp pain is not
3. **Consistency Over Intensity:** Regular moderate workouts beat sporadic intense ones
4. **Use the GIFs:** Study the visual demonstrations before each exercise
5. **Progress Gradually:** Add weight/reps only when current level feels easy
6. **Rest is Important:** Allow 48 hours between training the same muscle groups
7. **Stay Hydrated:** Drink water before, during, and after workouts
8. **Track Progress:** Keep a simple log of sets, reps, and how you feel

## 🎬 Visual Learning
Each exercise includes an animated GIF demonstration. Study these carefully to:
- Learn proper form and technique
- Understand the full range of motion
- See the exercise pace and rhythm
- Identify common mistakes to avoid
").

(** ** [get_workout_by_difficulty] *)

(** What the first [if]/[elif]/[else] over [difficulty.lower()] sets. *)
Record level := Level {
  exercise_count : Z;
  sets_info : string;
  rest_info : string;
  intensity_note : string
}.

Definition level_of (difficulty : string) : level :=
  if decide (Py.lower difficulty = "beginner") then
    Level 5 "2-3 sets of 8-12 reps" "90-120 seconds"
      "Focus on learning proper form. Start with bodyweight or light weights."
  else if decide (Py.lower difficulty = "intermediate") then
    Level 7 "3-4 sets of 10-15 reps" "60-90 seconds"
      "Moderate intensity. Challenge yourself while maintaining good form."
  else
    Level 9 "4-5 sets of 12-20 reps" "45-75 seconds"
      "High intensity. Push your limits with perfect form and controlled movements.".

Definition difficulty_exercises (difficulty body_focus equipment : string)
  : M (list item) :=
  let exercise_count := exercise_count (level_of difficulty) in
  let bf := Py.lower body_focus in
    (if Py.contains "full body" bf then
       let body_parts :=
         ["chest"; "back"; "upper legs"; "shoulders"; "upper arms"; "waist"] in
       let exercises_per_part :=
         Z.max 1 (exercise_count `div` Py.len body_parts) in
       extend_from_body_parts body_parts equipment exercises_per_part []
     else
       extend_from_body_part bf equipment exercise_count []).

Definition difficulty_unique_exercises (difficulty body_focus equipment : string)
  : M (list exercise) :=
  exercises ← difficulty_exercises difficulty body_focus equipment;
  lift (unique_by_id (Some (exercise_count (level_of difficulty))) exercises).

Definition difficulty_block (difficulty : string) (lv : level) (i : Z)
    (exercise : exercise) : string :=
  let main_instruction :=
    main_instruction exercise "Maintain proper form throughout" in
  let gif_section := gif_line "Technique Guide" exercise in
  "
### Exercise " +:+ Py.str i +:+ ": " +:+ Py.get (ex_name exercise) "Unknown Exercise" +:+ "
- **🎯 Target:** " +:+ Py.title (Py.get (ex_target exercise) "N/A") +:+ "
- **🛠️ Equipment:** " +:+ Py.title (Py.get (ex_equipment exercise) "N/A") +:+ "
- **📝 Key Points:** " +:+ main_instruction +:+ "
- **📊 " +:+ Py.title difficulty +:+ " Protocol:** " +:+ sets_info lv +:+ "
- **⏰ Rest:** " +:+ rest_info lv +:+ gif_section +:+ "

".

Definition tips_section (difficulty : string) : string :=
  if decide (Py.lower difficulty = "beginner") then "
## 🌟 Beginner Tips
- Study the GIF demonstrations before starting each exercise
- Start with lighter weights or easier variations
- Focus on learning the movement pattern first
- Don't rush - quality over quantity
- It's okay to take longer rest periods initially
"
  else if decide (Py.lower difficulty = "intermediate") then "
## 🔥 Intermediate Progression
- Use the GIFs to refine your technique
- Gradually increase weight when you can complete all sets easily
- Focus on mind-muscle connection
- Consider adding drop sets or supersets for extra challenge
- Track your progress to ensure continuous improvement
"
  else "
## ⚡ Advanced Techniques
- Use the GIFs to perfect your form even at high intensities
- Implement advanced techniques like rest-pause, drop sets, or tempo work
- Focus on progressive overload and periodization
- Consider adding plyometric or explosive movements
- Push intensity while never compromising form
".

Definition get_workout_by_difficulty (difficulty body_focus equipment : string)
    (duration : Z) : M string :=
  let lv := level_of difficulty in
  unique_exercises ← difficulty_unique_exercises difficulty body_focus equipment;
  if negb (truthy_list unique_exercises) then
    mret ("❌ Unable to create " +:+ difficulty +:+ " workout for '" +:+
          body_focus +:+ "' with '" +:+ equipment +:+ "' equipment.")
  else
    let workout_plan := "
# 🎯 " +:+ Py.title difficulty +:+ " " +:+ Py.title body_focus +:+ " Workout

**📊 Difficulty Level:** " +:+ Py.title difficulty +:+ "
**🎯 Focus Area:** " +:+ Py.title body_focus +:+ "
**🛠️ Equipment:** " +:+ Py.title equipment +:+ "
**⏱️ Duration:** ~" +:+ Py.str duration +:+ " minutes
**💪 Exercises:** " +:+ Py.str (Py.len unique_exercises) +:+ "

## 📋 " +:+ Py.title difficulty +:+ " Guidelines
- **Sets/Reps:** " +:+ sets_info lv +:+ "
- **Rest Between Sets:** " +:+ rest_info lv +:+ "
- **Intensity:** " +:+ intensity_note lv +:+ "

## 💪 Workout Exercises

" in
    let workout_plan :=
      foldl (λ plan '(i, exercise), plan +:+ difficulty_block difficulty lv i exercise)
            workout_plan (Py.enumerate 1 unique_exercises) in
    mret (workout_plan +:+ tips_section difficulty +:+ "

## 🎬 Visual Form Guides
Every exercise includes an animated demonstration to help you:
- Master proper technique at your skill level
- Understand the optimal range of motion
- Maintain consistent form throughout your sets
- Progress safely to more advanced variations
").

(** ** [create_hiit_workout] *)

Definition hiit_exercises (equipment : string) : M (list item) :=
  cardio_exercises ← request "/exercises/bodyPart/cardio";
  let body_parts := ["chest"; "back"; "upper legs"; "shoulders"] in
  compound_exercises ← extend_from_body_parts body_parts equipment 2 [];
  all_exercises ←
    (if truthy cardio_exercises then
       selected ← lift (filter_and_slice equipment 3 cardio_exercises);
       mret ([] ++ selected)
     else mret []);
  mret (all_exercises ++ compound_exercises).

Definition hiit_unique_exercises (equipment : string) : M (list exercise) :=
  all_exercises ← hiit_exercises equipment;
  lift (unique_by_id (Some 6) all_exercises).

Definition hiit_block (work_time rest_time : Z) (i : Z) (exercise : exercise)
  : string :=
  let main_instruction := main_instruction exercise "Maintain high intensity" in
  let gif_section := gif_line "Form Demo" exercise in
  "
**Exercise " +:+ Py.str i +:+ ": " +:+ Py.get (ex_name exercise) "Unknown Exercise" +:+ "**
- **🎯 Target:** " +:+ Py.title (Py.get (ex_target exercise) "N/A") +:+ "
- **🛠️ Equipment:** " +:+ Py.title (Py.get (ex_equipment exercise) "N/A") +:+ "
- **📝 HIIT Focus:** " +:+ main_instruction +:+ "
- **⏰ Duration:** " +:+ Py.str work_time +:+ "s work → " +:+ Py.str rest_time +:+ "s rest" +:+ gif_section +:+ "

".

Definition intensity_guide (intensity : string) : string :=
  if decide (Py.lower intensity = "low") then "
## 🌱 Low Intensity Guidelines
- Work at 60-70% of maximum effort
- Focus on maintaining good form throughout
- This is great for beginners or recovery days
- You should be able to maintain a conversation during rest periods
"
  else if decide (Py.lower intensity = "moderate") then "
## 🔥 Moderate Intensity Guidelines
- Work at 70-85% of maximum effort
- Push yourself but maintain control
- You should feel challenged but not completely exhausted
- Brief conversations possible during rest periods
"
  else "
## ⚡ High Intensity Guidelines
- Work at 85-95% of maximum effort
- Give everything you have during work periods
- You should feel significantly challenged
- Focus on recovery during rest periods - minimal talking
".

Definition create_hiit_workout (intensity equipment : string)
    (rounds work_time rest_time : Z) : M string :=
  unique_exercises ← hiit_unique_exercises equipment;
  if negb (truthy_list unique_exercises) then
    mret ("❌ Unable to create HIIT workout with '" +:+ equipment +:+
          "' equipment.")
  else
    let total_time :=
      rounds * (Py.len unique_exercises * (work_time + rest_time)) in
    let hiit_plan := "
# 🔥 HIIT Workout - " +:+ Py.title intensity +:+ " Intensity

**⚡ Intensity Level:** " +:+ Py.title intensity +:+ "
**🛠️ Equipment:** " +:+ Py.title equipment +:+ "
**🔄 Rounds:** " +:+ Py.str rounds +:+ "
**💪 Exercises:** " +:+ Py.str (Py.len unique_exercises) +:+ "
**⏰ Work Time:** " +:+ Py.str work_time +:+ " seconds
**😴 Rest Time:** " +:+ Py.str rest_time +:+ " seconds
**⏱️ Total Time:** ~" +:+ Py.str (total_time `div` 60) +:+ " minutes

## 🎯 HIIT Structure

Perform each exercise for " +:+ Py.str work_time +:+ " seconds, rest for " +:+ Py.str rest_time +:+ " seconds, then move to the next exercise. Complete all exercises for one round, then repeat for " +:+ Py.str rounds +:+ " total rounds.

" in
    let hiit_plan :=
      rounds_loop (hiit_block work_time rest_time)
        "**🔄 Complete rest, then start next round**

" rounds unique_exercises hiit_plan in
    mret (hiit_plan +:+ intensity_guide intensity +:+ "

## 💡 HIIT Success Tips
- **Warm-up:** 5-10 minutes of light cardio and dynamic stretching
- **Form First:** Never sacrifice form for speed, even in HIIT
- **Use the GIFs:** Study proper technique before starting
- **Listen to Your Body:** Adjust intensity based on how you feel
- **Stay Hydrated:** Keep water nearby throughout the workout
- **Cool-down:** 5-10 minutes of walking and stretching

## 🎬 Visual Technique Guides
Each exercise includes animated demonstrations to help you maintain proper form even at high intensity.
").

(** ** [get_exercise_by_id] *)

(** [format_exercise_detail(data)] on whatever the request returned: a
    list has no [.get]. *)
Definition detail_of (data : payload) : result string :=
  match data with
  | PDict exercise => Returned (format_exercise_detail exercise)
  | PList (_ :: _) => Raised AttributeError
  | _ => Returned "Exercise not found."
  end.

Definition get_exercise_by_id (exercise_id : string) : M string :=
  let endpoint := "/exercises/exercise/" +:+ exercise_id in
  data ← request endpoint;
  if negb (truthy data) then
    mret ("❌ Unable to fetch exercise with ID: " +:+ exercise_id +:+
          ". Please verify the ID is correct.")
  else lift (detail_of data).

(** ** The listing tools *)

(** [len(data)] on a payload that passed the truth test (so not [None]):
    the records of a list, the keys of an object. *)
Definition payload_len (data : payload) : Z :=
  match data with
  | PNone => 0
  | PDict r => Py.len (keys r)
  | PList l => Py.len l
  end.

(** [format_exercise_list(data, limit)] on a payload: what is false is
    answered before the slice, and the slice of an object raises. *)
Definition list_payload (data : payload) (limit : Z) : result string :=
  match data with
  | PList l => Returned (format_exercise_list l limit true)
  | PDict r =>
      if truthy_record r then Raised DictSliceError
      else Returned "No exercises found."
  | PNone => Returned "No exercises found."
  end.

(** The four listing tools differ by their endpoint and their texts only:
    the request, the text for a payload that is false, the heading with
    [min(limit, len(data))] and [len(data)], and the list. *)
Definition listing (endpoint unable heading : string) (limit : Z) : M string :=
  data ← request endpoint;
  if negb (truthy data) then mret unable
  else
    let shown := Py.str (Z.min limit (payload_len data)) in
    let total := Py.str (payload_len data) in
    rendered ← lift (list_payload data limit);
    mret (heading +:+ shown +:+ " of " +:+ total +:+ " exercises):**

" +:+ rendered).

Definition get_all_exercises (limit : Z) : M string :=
  let endpoint := "/exercises" in
  listing endpoint
    "❌ Unable to fetch exercises data. Please check your API connection."
    "**📚 Exercise Database (Showing " limit.

Definition get_exercises_by_body_part (body_part : string) (limit : Z)
  : M string :=
  let endpoint := "/exercises/bodyPart/" +:+ Py.lower body_part in
  listing endpoint
    ("❌ Unable to fetch exercises for body part: " +:+ body_part +:+
     ". Please check the body part name.")
    ("**🎯 " +:+ Py.title body_part +:+ " Exercises (Showing ") limit.

Definition get_exercises_by_target_muscle (target_muscle : string) (limit : Z)
  : M string :=
  let endpoint := "/exercises/target/" +:+ Py.lower target_muscle in
  listing endpoint
    ("❌ Unable to fetch exercises for target muscle: " +:+ target_muscle +:+
     ". Please check the muscle name.")
    ("**🎯 " +:+ Py.title target_muscle +:+ " Targeted Exercises (Showing ")
    limit.

Definition get_exercises_by_equipment (equipment : string) (limit : Z)
  : M string :=
  let endpoint :=
    "/exercises/equipment/" +:+ Py.replace " "%char "%20" (Py.lower equipment) in
  listing endpoint
    ("❌ Unable to fetch exercises for equipment: " +:+ equipment +:+
     ". Please check the equipment name.")
    ("**🛠️ " +:+ Py.title equipment +:+ " Exercises (Showing ") limit.

(** ** [search_exercises_by_name] *)

(** [[ex for ex in data if keep(ex)]] when [keep] calls [ex.get]: a string
    met in the iteration has no such method. *)
Fixpoint comprehension (keep : exercise → bool) (data : list item)
  : result (list exercise) :=
  match data with
  | [] => Returned []
  | IStr _ :: _ => Raised AttributeError
  | IRecord ex :: rest =>
      kept ← comprehension keep rest;
      Returned (if keep ex then ex :: kept else kept)
  end.

(** [search_term in exercise.get('name', '').lower()] *)
Definition name_matches (search_term : string) (ex : exercise) : bool :=
  Py.contains search_term (Py.lower (Py.get (ex_name ex) EmptyString)).

(** The list [filtered_exercises]. *)
Definition search_filtered (name : string) (data : payload)
  : result (list exercise) :=
  let search_term := Py.lower name in
  comprehension (name_matches search_term) (iterate data).

Definition search_exercises_by_name (name : string) (limit : Z) : M string :=
  let endpoint := "/exercises" in
  data ← request endpoint;
  if negb (truthy data) then
    mret "❌ Unable to search exercises. Please check your connection."
  else
    filtered_exercises ← lift (search_filtered name data);
    if negb (truthy_list filtered_exercises) then
      mret ("❌ No exercises found matching '" +:+ name +:+
            "'. Try different keywords or check spelling.")
    else
      mret ("**🔍 Search Results for '" +:+ name +:+ "' (" +:+
            Py.str (Py.len filtered_exercises) +:+ " found):**

" +:+ format_exercise_list filtered_exercises limit true).

(** ** [get_exercise_alternatives] and [get_exercise_modifications] *)

(** [original_exercise.get(...)] needs an object: a list has no [.get]. *)
Definition as_record (data : payload) : result exercise :=
  match data with
  | PDict r => Returned r
  | PList _ => Raised AttributeError
  | PNone => Raised AttributeError
  end.

(** [ex.get('id') != exercise_id] *)
Definition other_than (exercise_id : string) (ex : exercise) : bool :=
  bool_decide (ex_id ex ≠ Some exercise_id).

(** One lookup of related records: the request, and when the payload is
    true the comprehension that leaves [exercise_id] out; otherwise the
    list is left as it was. *)
Definition related_from (endpoint exercise_id : string)
    (otherwise : list exercise) : M (list exercise) :=
  data ← request endpoint;
  if truthy data
  then lift (comprehension (other_than exercise_id) (iterate data))
  else mret otherwise.

(** The list [alternatives] when the text is built. *)
Definition alternatives_of (exercise_id : string) (original_exercise : exercise)
  : M (list exercise) :=
  let target_muscle := Py.get (ex_target original_exercise) EmptyString in
  let body_part := Py.get (ex_bodyPart original_exercise) EmptyString in
  let alternatives := [] in
  alternatives ←
    (if truthy_str target_muscle
     then related_from ("/exercises/target/" +:+ Py.lower target_muscle)
            exercise_id alternatives
     else mret alternatives);
  if negb (truthy_list alternatives) && truthy_str body_part
  then related_from ("/exercises/bodyPart/" +:+ Py.lower body_part)
         exercise_id alternatives
  else mret alternatives.

(** [s.title() if s else 'N/A'] *)
Definition title_or_na (s : string) : string :=
  if truthy_str s then Py.title s else "N/A".

Definition get_exercise_alternatives (exercise_id : string) (limit : Z)
  : M string :=
  original_exercise ← request ("/exercises/exercise/" +:+ exercise_id);
  if negb (truthy original_exercise) then
    mret ("❌ Unable to find exercise with ID: " +:+ exercise_id)
  else
    original_exercise ← lift (as_record original_exercise);
    let target_muscle := Py.get (ex_target original_exercise) EmptyString in
    let body_part := Py.get (ex_bodyPart original_exercise) EmptyString in
    alternatives ← alternatives_of exercise_id original_exercise;
    if negb (truthy_list alternatives) then
      mret ("❌ No alternatives found for exercise ID: " +:+ exercise_id)
    else
      mret ("
**🔄 Alternative Exercises for: " +:+ Py.get (ex_name original_exercise) "Unknown Exercise" +:+ "**
*(Original targets: " +:+ title_or_na target_muscle +:+ " - " +:+ title_or_na body_part +:+ ")*

**📋 Suggested Alternatives:**

" +:+ format_exercise_list alternatives limit true).

(** [equipment] holds the words [body weight]. *)
Definition is_bodyweight (ex : exercise) : bool :=
  Py.contains "body weight" (Py.lower (Py.get (ex_equipment ex) EmptyString)).

(** The list [related_exercises]. *)
Definition related_exercises_of (exercise_id : string)
    (original_exercise : exercise) : M (list exercise) :=
  let target_muscle := Py.get (ex_target original_exercise) EmptyString in
  let related_exercises := [] in
  if truthy_str target_muscle
  then related_from ("/exercises/target/" +:+ Py.lower target_muscle)
         exercise_id related_exercises
  else mret related_exercises.

Definition bodyweight_exercises (related_exercises : list exercise)
  : list exercise :=
  filter (λ ex, is_bodyweight ex = true) related_exercises.

Definition equipment_exercises (related_exercises : list exercise)
  : list exercise :=
  filter (λ ex, is_bodyweight ex = false) related_exercises.

(** The [Instructions] cell of a modification: the first instruction cut to
    100 characters, without an ellipsis. *)
Definition modification_instructions (stock : string) (exercise : exercise)
  : string :=
  match ex_instructions exercise with
  | Some (first :: _) => Py.str_take 100 first
  | _ => stock
  end.

Definition modification_block (why stock : string) (i : Z) (exercise : exercise)
  : string :=
  let gif_section := gif_line "Demo" exercise in
  "
**" +:+ Py.str i +:+ ". " +:+ Py.get (ex_name exercise) "Unknown Exercise" +:+ "**
- **Equipment:** " +:+ Py.title (Py.get (ex_equipment exercise) "N/A") +:+ "
- **" +:+ why +:+ "
- **Instructions:** " +:+ modification_instructions stock exercise +:+ gif_section +:+ "

".

(** One of the two sections: the first three records of the list, or the
    sentence that there is none. *)
Definition modification_section (why stock none : string)
    (exercises : list exercise) (result : string) : string :=
  if truthy_list exercises then
    foldl (λ result '(i, exercise),
             result +:+ modification_block why stock i exercise)
          result (Py.enumerate 1 (Py.slice_to 3 exercises))
  else result +:+ none.

Definition get_exercise_modifications (exercise_id : string) : M string :=
  original_exercise ← request ("/exercises/exercise/" +:+ exercise_id);
  if negb (truthy original_exercise) then
    mret ("❌ Unable to find exercise with ID: " +:+ exercise_id)
  else
    original_exercise ← lift (as_record original_exercise);
    let target_muscle := Py.get (ex_target original_exercise) EmptyString in
    let equipment := Py.get (ex_equipment original_exercise) EmptyString in
    related_exercises ← related_exercises_of exercise_id original_exercise;
    let result := "
**🔧 Exercise Modifications for: " +:+ Py.get (ex_name original_exercise) "Unknown Exercise" +:+ "**

**📋 Original Exercise Details:**
- **Target:** " +:+ title_or_na target_muscle +:+ "
- **Equipment:** " +:+ title_or_na equipment +:+ "
- **🎬 Original Demo:** " +:+ Py.get (ex_gifUrl original_exercise) "N/A" +:+ "

## 🌱 Easier Modifications (Beginner-Friendly)

" in
    let result :=
      modification_section "Why Easier:** Requires less equipment and resistance"
        "Focus on proper form"
        "No easier bodyweight alternatives found for this exercise.

" (bodyweight_exercises related_exercises) result in
    let result := result +:+ "## ⚡ Harder Modifications (Advanced Challenges)

" in
    let result :=
      modification_section
        "Why Harder:** Requires additional equipment or resistance"
        "Focus on controlled movement"
        "No harder equipment-based alternatives found.

" (equipment_exercises related_exercises) result in
    mret (result +:+ "
## 💡 Modification Tips
- **Progression:** Start with easier versions and gradually work up
- **Listen to Your Body:** Choose modifications based on your current ability
- **Form Priority:** Perfect easier versions before attempting harder ones
- **Use GIFs:** Study the demonstrations to understand proper technique
- **Consistency:** Regular practice with appropriate modifications beats sporadic advanced attempts
").

(** ** Vocabulary of the properties *)

(** A later stretch of the process: any calls of [make_api_request], run
    one after the other, each with its endpoint, parameters and
    [use_cache] flag. *)
Definition run_requests
    (calls : list (string * option (gmap string string) * bool))
    (st : process) : process :=
  foldl (λ st '(endpoint, params, use_cache),
           (make_api_request endpoint params use_cache st).2) st calls.

(** No entry for this endpoint and these parameters that the call may use. *)
Definition cache_miss (endpoint : string) (params : option (gmap string string))
    (use_cache : bool) (st : process) : Prop :=
  use_cache = false ∨ _cache st !! cache_key_of endpoint params = None.

(** What the GET request of a call issued in state [st] comes to. *)
Definition answer (endpoint : string) (params : option (gmap string string))
    (st : process) : outcome :=
  upstream (requests st) (API_BASE_URL +:+ endpoint) (params_or_empty params).

(** The request of the call is answered with a success status and a body
    that parses to [data]. *)
Definition answered_with (endpoint : string)
    (params : option (gmap string string)) (st : process) (data : payload)
  : Prop :=
  ∃ status_code,
    answer endpoint params st = Response status_code (Json data) ∧
    is_success status_code = true.

(** The failed fetches: an exception of the transport, a status outside
    2xx, or a body that does not parse. *)
Definition fetch_fails (endpoint : string)
    (params : option (gmap string string)) (st : process) : Prop :=
  match answer endpoint params st with
  | TransportError _ => True
  | Response status_code content =>
      is_success status_code = false ∨ ∃ e, content = NotJson e
  end.

(** What a failed fetch prints. *)
Definition failure_lines (o : outcome) : list string :=
  match o with
  | TransportError e => ["An error occurred: " +:+ e]
  | Response status_code content =>
      if is_success status_code then
        match content with
        | NotJson e => ["An error occurred: " +:+ e]
        | Json _ => []
        end
      else if decide (status_code = 401) then
        ["HTTP error occurred: " +:+ Py.str status_code;
         "Authentication failed. Please check your RapidAPI key."]
      else ["HTTP error occurred: " +:+ Py.str status_code]
  end.

(** Some request the process issued so far was answered with a success
    status and the JSON body [data]. *)
Definition was_fetched (st : process) (data : payload) : Prop :=
  ∃ n url params status_code,
    (n < requests st)%nat ∧
    upstream n url params = Response status_code (Json data) ∧
    is_success status_code = true.

(** Every entry of the cache is a payload that was fetched. *)
Definition cache_is_fetched (st : process) : Prop :=
  ∀ k data, _cache st !! k = Some data → was_fetched st data.

(** [sub in s] holds exactly when [s] is some text, then [sub], then some
    text. *)
Definition substring_of (sub s : string) : Prop :=
  ∃ before after, s = before +:+ sub +:+ after.

(** Text with a character that [strip] does not remove. *)
Definition has_ink (s : string) : Prop :=
  ∃ x c y, s = x +:+ String c y ∧ Py.is_space c = false.

(** Record [r] stands at position [i] of the input and no earlier record
    bears its identifier. *)
Definition first_bearer (l : list exercise) (i : nat) (r : exercise) : Prop :=
  l !! i = Some r
  ∧ ∀ (j : nat) r', (j < i)%nat → l !! j = Some r' → ex_id r' ≠ ex_id r.

(** An item that is a record whose equipment field holds the equipment
    asked for, whatever the case of the letters. *)
Definition equipped (equipment : string) (it : item) : Prop :=
  ∃ r, it = IRecord r ∧ has_equipment equipment r = true.

Definition is_record (it : item) : Prop := ∃ r, it = IRecord r.

(** The equipment field of the record, read as the empty text for an absent key,
    contains the equipment asked for when both are put in lower case. *)
Definition holds_equipment (equipment : string) (r : exercise) : Prop :=
  substring_of (Py.lower equipment)
               (Py.lower (Py.get (ex_equipment r) EmptyString)).

(** A property that every selection of [filter_and_slice] has. *)
Definition selected_all (P : item → Prop) (equipment : string) : Prop :=
  ∀ n data selected,
    filter_and_slice equipment n data = Returned selected → Forall P selected.

(** No call in flight will store under [key] when it resumes. *)
Definition settled (key : string) (sv : server) : Prop :=
  ∀ call, call ∈ in_flight sv → s_use_cache call = true → s_key call ≠ key.

(** Some request the process issued so far, to the URL of [endpoint] and
    without parameters, was answered with a success status and the JSON
    body [data]. *)
Definition fetched_from (st : process) (endpoint : string) (data : payload)
  : Prop :=
  ∃ n status_code,
    (n < requests st)%nat ∧
    upstream n (API_BASE_URL +:+ endpoint) ∅ = Response status_code (Json data) ∧
    is_success status_code = true.

(** The entry the cache holds for an endpoint without parameters was
    fetched from the URL of that endpoint. *)
Definition cache_is_faithful (st : process) : Prop :=
  ∀ endpoint data,
    _cache st !! cache_key_of endpoint None = Some data →
    fetched_from st endpoint data.

(** Calls without parameters, as the tools make them. *)
Definition run_parameterless (calls : list (string * bool)) (st : process)
  : process :=
  run_requests ((λ '(endpoint, use_cache), (endpoint, None, use_cache)) <$> calls)
               st.

(** The computation, run with no other call of the process in between,
    changes the process by calls of [make_api_request] alone, at most [k]
    of them, each without parameters and with [use_cache] true: nothing
    else writes to the cache, issues a request or prints. *)
Definition only_requests {A} (k : nat) (m : M A) : Prop :=
  ∀ st, ∃ endpoints,
    (length endpoints ≤ k)%nat ∧
    (m st).2
    = run_parameterless ((λ endpoint, (endpoint, true)) <$> endpoints) st.

(** No request is answered with a success status and a JSON body. *)
Definition upstream_down : Prop :=
  ∀ endpoint params st, fetch_fails endpoint params st.

(** Run in a process whose cache is empty, the computation returns [a] and
    leaves the cache empty. *)
Definition returns_from_empty_cache {A} (m : M A) (a : A) : Prop :=
  ∀ st, _cache st = ∅ → ∃ st', m st = (Returned a, st') ∧ _cache st' = ∅.

(** Every success of the upstream carries [null] or a JSON list of
    exercise records, each of their documented fields absent or of its
    documented type (what [exercise] holds): never an object, and never a
    record with a field of another type. *)
Definition upstream_lists : Prop :=
  ∀ n url params status_code data,
    upstream n url params = Response status_code (Json data) →
    is_success status_code = true →
    data = PNone ∨ ∃ l, data = PList l.

(** From a process whose cache holds fetched payloads the computation
    returns, a value with the property [Q], and it leaves such a process. *)
Definition returns_some {A} (m : M A) (Q : A → Prop) : Prop :=
  ∀ st, cache_is_fetched st →
        ∃ a st', m st = (Returned a, st') ∧ cache_is_fetched st' ∧ Q a.

(** The text of one round: its heading, then the block of every exercise. *)
Definition round_of (block : Z → exercise → string)
    (unique_exercises : list exercise) (round_num : Z) : string :=
  "### Round " +:+ Py.str round_num +:+ "

" +:+ Py.join EmptyString
        ((λ '(i, exercise), block i exercise)
           <$> Py.enumerate 1 unique_exercises).

(** ** The cached fetch *)

Lemma make_api_request_hit endpoint params st data :
  _cache st !! cache_key_of endpoint params = Some data →
  make_api_request endpoint params true st = (data, st).
Proof. intros Hk. unfold make_api_request. by rewrite Hk. Qed.

Lemma make_api_request_miss endpoint params use_cache st :
  cache_miss endpoint params use_cache st →
  make_api_request endpoint params use_cache st
  = fetch (cache_key_of endpoint params) (API_BASE_URL +:+ endpoint)
          (params_or_empty params) use_cache st.
Proof.
  intros [-> | Hk]; unfold make_api_request; [done|].
  rewrite Hk. by destruct use_cache.
Qed.

Lemma hit_or_miss endpoint params use_cache st :
  (use_cache = true ∧ is_Some (_cache st !! cache_key_of endpoint params))
  ∨ cache_miss endpoint params use_cache st.
Proof.
  unfold cache_miss. destruct use_cache; [|by right; left].
  destruct (_cache st !! cache_key_of endpoint params) eqn:Hk; eauto.
Qed.

Lemma fetch_success endpoint params use_cache st data :
  answered_with endpoint params st data →
  fetch (cache_key_of endpoint params) (API_BASE_URL +:+ endpoint)
        (params_or_empty params) use_cache st
  = (data, if use_cache
           then store (cache_key_of endpoint params) data (issued st)
           else issued st).
Proof.
  intros (code & Ha & Hs). unfold fetch. unfold answer in Ha.
  by rewrite Ha, Hs.
Qed.

Lemma fetch_failure endpoint params use_cache st :
  fetch_fails endpoint params st →
  fetch (cache_key_of endpoint params) (API_BASE_URL +:+ endpoint)
        (params_or_empty params) use_cache st
  = (PNone,
     Process (_cache st) (S (requests st))
             (stdout st ++ failure_lines (answer endpoint params st))).
Proof.
  unfold fetch_fails, fetch, answer, failure_lines.
  destruct (upstream _ _ _) as [code content | e]; [|done].
  intros [Hs | [e ->]].
  - rewrite Hs. unfold print, issued; simpl.
    case_decide; simpl; [|done]. by rewrite <-(assoc_L (++)).
  - destruct (is_success code) eqn:Hs; [done|].
    unfold print, issued; simpl.
    case_decide; simpl; [|done]. by rewrite <-(assoc_L (++)).
Qed.

Lemma answered_or_fails endpoint params st :
  (∃ data, answered_with endpoint params st data)
  ∨ fetch_fails endpoint params st.
Proof.
  unfold answered_with, fetch_fails.
  destruct (answer endpoint params st) as [code [data | e] | e]; eauto.
  destruct (is_success code) eqn:Hs; eauto.
Qed.

(** An entry of the cache is never replaced nor removed. *)
Lemma make_api_request_keeps endpoint params use_cache st k data :
  _cache st !! k = Some data →
  _cache (make_api_request endpoint params use_cache st).2 !! k = Some data.
Proof.
  intros Hk.
  destruct (hit_or_miss endpoint params use_cache st) as [[-> [d Hd]] | Hmiss].
  { by rewrite (make_api_request_hit _ _ _ _ Hd). }
  rewrite (make_api_request_miss _ _ _ _ Hmiss).
  destruct (answered_or_fails endpoint params st) as [[d Hd] | Hf].
  - rewrite (fetch_success _ _ _ _ _ Hd). destruct use_cache; simpl; [|done].
    destruct Hmiss as [? | Hnone]; [done|].
    rewrite lookup_insert_ne; [done|]. intros <-. congruence.
  - by rewrite (fetch_failure _ _ _ _ Hf).
Qed.

Lemma run_requests_keeps calls st k data :
  _cache st !! k = Some data →
  _cache (run_requests calls st) !! k = Some data.
Proof.
  revert st. induction calls as [|[[e p] uc] calls IH]; intros st Hk; [done|].
  apply IH. by apply make_api_request_keeps.
Qed.

Lemma make_api_request_requests endpoint params use_cache st :
  (requests st ≤ requests (make_api_request endpoint params use_cache st).2)%nat.
Proof.
  destruct (hit_or_miss endpoint params use_cache st) as [[-> [d Hd]] | Hmiss].
  { by rewrite (make_api_request_hit _ _ _ _ Hd). }
  rewrite (make_api_request_miss _ _ _ _ Hmiss).
  destruct (answered_or_fails endpoint params st) as [[d Hd] | Hf].
  - rewrite (fetch_success _ _ _ _ _ Hd). destruct use_cache; simpl; lia.
  - rewrite (fetch_failure _ _ _ _ Hf). simpl; lia.
Qed.

Lemma was_fetched_mono st st' data :
  (requests st ≤ requests st')%nat → was_fetched st data → was_fetched st' data.
Proof.
  intros Hle (n & url & params & code & Hn & Hup & Hs).
  exists n, url, params, code. split_and!; [lia|done..].
Qed.

Lemma make_api_request_fetched endpoint params use_cache st :
  cache_is_fetched st →
  cache_is_fetched (make_api_request endpoint params use_cache st).2.
Proof.
  intros Hinv.
  pose proof (make_api_request_requests endpoint params use_cache st) as Hle.
  destruct (hit_or_miss endpoint params use_cache st) as [[-> [d Hd]] | Hmiss].
  { by rewrite (make_api_request_hit _ _ _ _ Hd). }
  rewrite (make_api_request_miss _ _ _ _ Hmiss) in *.
  destruct (answered_or_fails endpoint params st) as [[d Hd] | Hf].
  - rewrite (fetch_success _ _ _ _ _ Hd) in *.
    destruct use_cache; unfold cache_is_fetched; simpl in *.
    + intros k v. destruct (decide (k = cache_key_of endpoint params)) as [->|].
      * rewrite lookup_insert_eq. intros [= <-].
        destruct Hd as (code & Ha & Hs).
        exists (requests st), (API_BASE_URL +:+ endpoint),
               (params_or_empty params), code.
        split_and!; [simpl; lia|done..].
      * rewrite lookup_insert_ne by done. intros Hk.
        eapply was_fetched_mono; [|by eapply Hinv]. simpl; lia.
    + intros k v Hk. eapply was_fetched_mono; [|by eapply Hinv]. simpl; lia.
  - rewrite (fetch_failure _ _ _ _ Hf) in *. unfold cache_is_fetched; simpl in *.
    intros k v Hk. eapply was_fetched_mono; [|by eapply Hinv]. simpl; lia.
Qed.

Lemma run_requests_fetched calls st :
  cache_is_fetched st → cache_is_fetched (run_requests calls st).
Proof.
  revert st. induction calls as [|[[e p] uc] calls IH]; intros st Hinv; [done|].
  apply IH. by apply make_api_request_fetched.
Qed.

Lemma start_fetched : cache_is_fetched start.
Proof. intros k v Hk. simpl in Hk. by rewrite lookup_empty in Hk. Qed.

(** ** Calls one after the other, and calls that overlap *)

(** A call that nothing interrupts is its two halves in a row. *)
Lemma make_api_request_uninterrupted endpoint params use_cache st :
  make_api_request endpoint params use_cache st
  = match begin_call endpoint params use_cache st with
    | (inl data, st') => (data, st')
    | (inr call, st') => resume_call call st'
    end.
Proof.
  unfold make_api_request, begin_call. cbv zeta.
  destruct (if use_cache then _ else _); [done|].
  unfold fetch, resume_call. cbn [s_outcome s_use_cache s_key].
  by destruct (upstream _ _ _).
Qed.

Lemma run_events_cons ev events sv :
  run_events (ev :: events) sv = run_events events (step ev sv).2.
Proof. done. Qed.

Lemma run_events_app events events' sv :
  run_events (events ++ events') sv = run_events events' (run_events events sv).
Proof. apply foldl_app. Qed.

Lemma run_events_call endpoint params use_cache st :
  run_events [Begin endpoint params use_cache; Resume 0] (Server st [])
  = Server (make_api_request endpoint params use_cache st).2 [].
Proof.
  rewrite make_api_request_uninterrupted.
  rewrite !run_events_cons. cbn [step proc in_flight].
  destruct (begin_call endpoint params use_cache st) as [[data|call] st'].
  - done.
  - cbn. by destruct (resume_call call st').
Qed.

(** [run_requests] is the run of the calls one after the other, with no
    call in flight when a call begins. *)
Lemma run_one_by_one calls st :
  run_events (one_by_one calls) (Server st []) = Server (run_requests calls st) [].
Proof.
  revert st. induction calls as [|[[e p] uc] calls IH]; intros st; [done|].
  unfold one_by_one. rewrite bind_cons. fold (one_by_one calls).
  rewrite run_events_app, run_events_call. apply IH.
Qed.

Lemma resume_call_cache call st key :
  (s_use_cache call = true → s_key call ≠ key) →
  _cache (resume_call call st).2 !! key = _cache st !! key.
Proof.
  intros Hkey. unfold resume_call.
  destruct (s_outcome call) as [code content|e]; [|done].
  destruct (is_success code).
  - destruct content as [data|e]; [|done].
    destruct (s_use_cache call); [|done].
    cbn. apply lookup_insert_ne. by apply Hkey.
  - cbn. by case_decide.
Qed.

(** An entry stays as it is as long as no call in flight is to store under
    its key; and then none ever will, since a call that begins later finds
    the entry. *)
Lemma step_settled key data ev sv :
  _cache (proc sv) !! key = Some data → settled key sv →
  _cache (proc (step ev sv).2) !! key = Some data ∧ settled key (step ev sv).2.
Proof.
  intros Hkey Hsettled. destruct ev as [endpoint params use_cache|i]; cbn [step].
  - unfold begin_call. cbv zeta.
    destruct (if use_cache then _ else _) as [d|] eqn:Hlook; cbn; [done|].
    split; [done|].
    intros call [Hin | ->%list_elem_of_singleton]%elem_of_app Huc.
    + by apply Hsettled.
    + cbn in *. subst use_cache. intros Heq. rewrite Heq in Hlook. congruence.
  - destruct (in_flight sv !! i) as [call|] eqn:Hcall; [|done].
    assert (call ∈ in_flight sv) as Hin by by eapply list_elem_of_lookup_2.
    pose proof (resume_call_cache call (proc sv) key (Hsettled call Hin)) as Hres.
    destruct (resume_call call (proc sv)) as [d st']. cbn in *.
    split; [congruence|].
    intros c Hc. apply Hsettled. by eapply list_elem_of_delete_inv.
Qed.

Lemma run_events_settled key data events sv :
  _cache (proc sv) !! key = Some data → settled key sv →
  _cache (proc (run_events events sv)) !! key = Some data
  ∧ settled key (run_events events sv).
Proof.
  revert sv. induction events as [|ev events IH]; intros sv Hkey Hsettled; [done|].
  rewrite run_events_cons.
  destruct (step_settled key data ev sv Hkey Hsettled). by apply IH.
Qed.

Lemma begin_call_hit endpoint params sv data :
  _cache (proc sv) !! cache_key_of endpoint params = Some data →
  step (Begin endpoint params true) sv = (Some data, sv).
Proof.
  intros Hkey. cbn [step]. unfold begin_call. cbv zeta. rewrite Hkey.
  by destruct sv.
Qed.

(** C3 (as amended).  When the first call with [use_cache] true is served
    from the cache or by a fetch that succeeds, the payload it returns is
    stored under the cache key.  If no call in flight at that time is to
    store under the same key (so whenever calls do not overlap), every
    later call of the process with the same endpoint and parameters
    returns that same payload, without another request, whatever calls
    come in between and however they overlap.  A hit returns the stored
    value; a successful miss stores the fetched value under the key.
    After a failed fetch nothing is stored (see C8).  A call that was in
    flight for the key stores its own payload when it resumes, over the
    entry that is there: the entry is then the last one written, and it
    stays from the time no such call is in flight any more. *)
Theorem repeated_call_returns_first_payload endpoint params st data st1 calls
    others events :
  make_api_request endpoint params true st = (data, st1) →
  ¬ (cache_miss endpoint params true st ∧ fetch_fails endpoint params st) →
  settled (cache_key_of endpoint params) (Server st1 others) →
  _cache st1 !! cache_key_of endpoint params = Some data
  ∧ (run_events (one_by_one calls) (Server st1 [])
     = Server (run_requests calls st1) []
     ∧ make_api_request endpoint params true (run_requests calls st1)
       = (data, run_requests calls st1))
  ∧ (let sv := run_events events (Server st1 others) in
     _cache (proc sv) !! cache_key_of endpoint params = Some data
     ∧ settled (cache_key_of endpoint params) sv
     ∧ step (Begin endpoint params true) sv = (Some data, sv))
  ∧ (∀ stored, _cache st !! cache_key_of endpoint params = Some stored →
       data = stored ∧ st1 = st)
  ∧ (∀ fetched, cache_miss endpoint params true st →
       answered_with endpoint params st fetched →
       data = fetched
       ∧ _cache st1 = <[cache_key_of endpoint params := fetched]> (_cache st))
  ∧ (∀ sv stored later,
       _cache (proc sv) !! cache_key_of endpoint params = Some stored →
       settled (cache_key_of endpoint params) sv →
       step (Begin endpoint params true) (run_events later sv)
       = (Some stored, run_events later sv))
  ∧ (∀ status_code payload st',
       is_success status_code = true →
       resume_call (Suspended (cache_key_of endpoint params) true
                      (Response status_code (Json payload))) st'
       = (payload, store (cache_key_of endpoint params) payload st')).
Proof.
  intros Hcall Hok Hsettled.
  assert (_cache st1 !! cache_key_of endpoint params = Some data) as Hst1.
  { destruct (hit_or_miss endpoint params true st) as [[_ [d Hd]] | Hmiss].
    - rewrite (make_api_request_hit _ _ _ _ Hd) in Hcall. by simplify_eq.
    - destruct (answered_or_fails endpoint params st) as [[d Hd] | Hf];
        [|by destruct Hok].
      rewrite (make_api_request_miss _ _ _ _ Hmiss),
        (fetch_success _ _ _ _ _ Hd) in Hcall.
      simplify_eq. simpl. by rewrite lookup_insert_eq. }
  split; [done|]. split; [|split; [|split; [|split; [|split]]]].
  - split; [apply run_one_by_one|].
    apply make_api_request_hit. by apply run_requests_keeps.
  - cbv zeta.
    destruct (run_events_settled (cache_key_of endpoint params) data events
                (Server st1 others)) as [Hkey Hfree]; [done..|].
    split; [done|]. split; [done|]. by apply begin_call_hit.
  - intros stored Hstored.
    rewrite (make_api_request_hit _ _ _ _ Hstored) in Hcall. by simplify_eq.
  - intros fetched Hmiss Hd.
    rewrite (make_api_request_miss _ _ _ _ Hmiss),
      (fetch_success _ _ _ _ _ Hd) in Hcall.
    by simplify_eq.
  - intros sv stored later Hstored Hfree. apply begin_call_hit.
    by apply run_events_settled.
  - intros status_code payload st' Hs. unfold resume_call. cbn. by rewrite Hs.
Qed.

(** C4.  On a cache miss, when the network call raises a transport error
    or the response has a status outside 2xx, [make_api_request] returns
    [None]; it has printed the error lines and left the cache as it was. *)
Theorem failed_fetch_returns_none endpoint params use_cache st :
  cache_miss endpoint params use_cache st →
  (∃ e, answer endpoint params st = TransportError e)
  ∨ (∃ status_code content,
       answer endpoint params st = Response status_code content
       ∧ is_success status_code = false) →
  ∃ st', make_api_request endpoint params use_cache st = (PNone, st')
    ∧ _cache st' = _cache st
    ∧ stdout st' = stdout st ++ failure_lines (answer endpoint params st)
    ∧ failure_lines (answer endpoint params st) ≠ [].
Proof.
  intros Hmiss Hbad.
  assert (fetch_fails endpoint params st) as Hf.
  { unfold fetch_fails.
    destruct Hbad as [[e ->] | (code & content & -> & Hs)]; [done|by left]. }
  rewrite (make_api_request_miss _ _ _ _ Hmiss), (fetch_failure _ _ _ _ Hf).
  eexists; split_and!; [done..|].
  destruct Hbad as [[e ->] | (code & content & -> & Hs)]; simpl; [done|].
  rewrite Hs. by case_decide.
Qed.

(** C8 (as amended).  [make_api_request] changes the cache only by storing,
    under the key of the call, the parsed body of a response with a success
    status that this very call received; a failed fetch stores nothing and
    returns [None]; so every entry of the cache of a process is a payload
    that was fetched, and after a failed fetch a later call with the same
    endpoint and parameters fetches again and, when it succeeds, returns and
    caches the payload.  (A body that is the JSON [null] parses to [None]
    and is stored like any other payload.) *)
Theorem cache_holds_fetched_payloads :
  (∀ endpoint params use_cache st,
     let '(data, st') := make_api_request endpoint params use_cache st in
     _cache st' = _cache st
     ∨ (use_cache = true ∧ answered_with endpoint params st data
        ∧ _cache st' = <[cache_key_of endpoint params := data]> (_cache st)))
  ∧ (∀ endpoint params use_cache st,
       cache_miss endpoint params use_cache st →
       fetch_fails endpoint params st →
       (make_api_request endpoint params use_cache st).1 = PNone
       ∧ _cache (make_api_request endpoint params use_cache st).2 = _cache st)
  ∧ (∀ calls, cache_is_fetched (run_requests calls start))
  ∧ (∀ endpoint params st data,
       cache_miss endpoint params true st →
       fetch_fails endpoint params st →
       let st1 := (make_api_request endpoint params true st).2 in
       answered_with endpoint params st1 data →
       ∃ st2, make_api_request endpoint params true st1 = (data, st2)
         ∧ _cache st2 !! cache_key_of endpoint params = Some data).
Proof.
  split_and!.
  - intros endpoint params use_cache st.
    destruct (hit_or_miss endpoint params use_cache st) as [[-> [d Hd]] | Hmiss].
    { rewrite (make_api_request_hit _ _ _ _ Hd). by left. }
    rewrite (make_api_request_miss _ _ _ _ Hmiss).
    destruct (answered_or_fails endpoint params st) as [[d Hd] | Hf].
    + rewrite (fetch_success _ _ _ _ _ Hd).
      destruct use_cache; [right|left]; done.
    + rewrite (fetch_failure _ _ _ _ Hf). by left.
  - intros endpoint params use_cache st Hmiss Hf.
    by rewrite (make_api_request_miss _ _ _ _ Hmiss), (fetch_failure _ _ _ _ Hf).
  - intros calls. apply run_requests_fetched, start_fetched.
  - intros endpoint params st data Hmiss Hf.
    rewrite (make_api_request_miss _ _ _ _ Hmiss), (fetch_failure _ _ _ _ Hf).
    simpl. intros Hd.
    assert (cache_miss endpoint params true
              (Process (_cache st) (S (requests st))
                 (stdout st ++ failure_lines (answer endpoint params st))))
      as Hmiss'.
    { destruct Hmiss as [? | Hnone]; [done|]. by right. }
    rewrite (make_api_request_miss _ _ _ _ Hmiss'), (fetch_success _ _ _ _ _ Hd).
    eexists; split; [done|]. simpl. by rewrite lookup_insert_eq.
Qed.

(** ** Text *)

Lemma app_empty_r (s : string) : s +:+ EmptyString = s.
Proof. induction s as [|c s IH]; [done|]. unfold String.app in *; simpl. by f_equal. Qed.

Lemma app_cons (c : ascii) (s t : string) : String c s +:+ t = String c (s +:+ t).
Proof. done. Qed.

Lemma app_assoc_str (a b c : string) : a +:+ (b +:+ c) = (a +:+ b) +:+ c.
Proof.
  induction a as [|x a IH]; [done|]. rewrite !app_cons. by f_equal.
Qed.

Lemma prefix_spec (sub s : string) :
  String.prefix sub s = true ↔ ∃ after, s = sub +:+ after.
Proof.
  revert s. induction sub as [|a sub IH]; intros [|b s]; simpl.
  - split; [|done]. intros _. by exists EmptyString.
  - split; [|done]. intros _. by exists (String b s).
  - split; [done|]. by intros [after [=]].
  - destruct (ascii_dec a b) as [->|Hne].
    + rewrite IH. split; intros [after H]; exists after.
      * rewrite app_cons. by f_equal.
      * rewrite app_cons in H. by simplify_eq.
    + split; [done|]. intros [after H]. rewrite app_cons in H. by simplify_eq.
Qed.

Lemma contains_spec (sub s : string) :
  Py.contains sub s = true ↔ substring_of sub s.
Proof.
  unfold substring_of. induction s as [|c s IH].
  - change (Py.contains sub EmptyString)
      with (String.prefix sub EmptyString || false).
    rewrite orb_false_r, prefix_spec. split.
    + intros [after ->]. by exists EmptyString, after.
    + intros ([|x before] & after & H); [by exists after|].
      by rewrite app_cons in H.
  - change (Py.contains sub (String c s))
      with (String.prefix sub (String c s) || Py.contains sub s).
    rewrite orb_true_iff, prefix_spec, IH. split.
    + intros [[after ->] | (before & after & ->)].
      * by exists EmptyString, after.
      * by exists (String c before), after.
    + intros ([|x before] & after & H).
      * left. by exists after.
      * right. rewrite app_cons in H. simplify_eq. by exists before, after.
Qed.

Lemma has_ink_cons c y : Py.is_space c = false → has_ink (String c y).
Proof. intros Hc. by exists EmptyString, c, y. Qed.

Lemma has_ink_app a s : has_ink s → has_ink (a +:+ s).
Proof.
  intros (x & c & y & -> & Hc). exists (a +:+ x), c, y.
  by rewrite app_assoc_str.
Qed.

Lemma rstrip_ink s : has_ink s → Py.rstrip s ≠ EmptyString.
Proof.
  intros (x & c & y & -> & Hc). induction x as [|a x IH].
  - change (EmptyString +:+ String c y) with (String c y). simpl.
    destruct (Py.rstrip y); by rewrite ?Hc.
  - rewrite app_cons. simpl. by destruct (Py.rstrip (x +:+ String c y)).
Qed.

Lemma rstrip_app a s : has_ink s → Py.rstrip (a +:+ s) = a +:+ Py.rstrip s.
Proof.
  intros Hs. induction a as [|x a IH]; [done|].
  rewrite !app_cons. simpl. rewrite IH.
  pose proof (rstrip_ink s Hs).
  destruct (Py.rstrip s) eqn:E; [done|]. by destruct a.
Qed.

(** [l[:n]] keeps the first [n] elements when [n] is not negative. *)
Lemma slice_to_nonneg {A} (n : Z) (l : list A) :
  0 ≤ n → Py.slice_to n l = take (Z.to_nat n) l.
Proof. intros. unfold Py.slice_to. case_decide; [lia|done]. Qed.

Lemma slice_to_sublist {A} (n : Z) (l : list A) : Py.slice_to n l `sublist_of` l.
Proof. unfold Py.slice_to. case_decide; apply sublist_take. Qed.

Lemma slice_to_length {A} (n : Z) (l : list A) :
  0 ≤ n → (length (Py.slice_to n l) ≤ Z.to_nat n)%nat.
Proof. intros. rewrite slice_to_nonneg, length_take by done. lia. Qed.

Lemma slice_to_fmap {A B} (f : A → B) (n : Z) (l : list A) :
  Py.slice_to n (f <$> l) = f <$> Py.slice_to n l.
Proof.
  unfold Py.slice_to. case_decide; by rewrite fmap_take, ?length_fmap.
Qed.

Lemma enumerate_length {A} start (l : list A) :
  length (Py.enumerate start l) = length l.
Proof. unfold Py.enumerate. by rewrite length_imap. Qed.

Lemma enumerate_lookup {A} start (l : list A) (i : nat) :
  Py.enumerate start l !! i = (λ x, (start + Z.of_nat i, x)) <$> l !! i.
Proof. unfold Py.enumerate. by rewrite list_lookup_imap. Qed.

(** ** The formatters *)

Lemma strip_newline_stars (s : string) :
  Py.strip ("
**" +:+ s) = Py.rstrip ("**" +:+ s).
Proof. done. Qed.

(** Every entry of [format_exercise_list] opens with its number. *)
Lemma format_exercise_entry_numbered show_gif i exercise :
  ∃ rest, format_exercise_entry show_gif i exercise
          = "**" +:+ Py.str i +:+ ". " +:+ rest.
Proof.
  unfold format_exercise_entry. cbv zeta.
  rewrite strip_newline_stars.
  match goal with
  | |- context [Py.get (ex_name exercise) ?d +:+ ?t] =>
      set (tail := Py.get (ex_name exercise) d +:+ t)
  end.
  assert (has_ink tail) as Hink.
  { apply has_ink_app. by apply has_ink_cons. }
  clearbody tail.
  rewrite !rstrip_app by (repeat apply has_ink_app; done).
  by eexists.
Qed.

Lemma formatted_exercises_lookup exercises limit show_gif (i : nat) entry :
  0 ≤ limit →
  formatted_exercises exercises limit show_gif !! i = Some entry →
  ∃ exercise,
    exercises !! i = Some exercise ∧ (Z.of_nat i < limit) ∧
    entry = format_exercise_entry show_gif (1 + Z.of_nat i) exercise.
Proof.
  intros Hlimit. unfold formatted_exercises. cbv zeta.
  rewrite list_lookup_fmap, enumerate_lookup, slice_to_nonneg by done.
  destruct (take _ _ !! i) as [exercise|] eqn:Hi; [|done].
  intros [= <-]. apply lookup_take_Some in Hi as [Hi Hlt].
  exists exercise. split_and!; [done|lia|done].
Qed.

(** C9.  For an empty list [format_exercise_list] returns exactly
    [No exercises found.]; for a list that is not empty and a positive
    limit, the text is the entries joined by blank lines and then the
    [more exercises available] sentence; there are min(limit, length)
    entries, entry number i renders the i-th record and opens with its
    number, and the sentence is there exactly when the list is longer than
    the limit, with the count of the records left out. *)
Theorem format_exercise_list_entries exercises limit show_gif :
  format_exercise_list [] limit show_gif = "No exercises found."
  ∧ (exercises ≠ [] → 0 < limit →
     let entries := formatted_exercises exercises limit show_gif in
     format_exercise_list exercises limit show_gif
     = Py.join "

" entries +:+ more_available exercises limit
     ∧ length entries = Nat.min (Z.to_nat limit) (length exercises)
     ∧ (∀ (i : nat) entry, entries !! i = Some entry →
          ∃ exercise rest,
            exercises !! i = Some exercise
            ∧ entry = format_exercise_entry show_gif (Z.of_nat i + 1) exercise
            ∧ entry = "**" +:+ Py.str (Z.of_nat i + 1) +:+ ". " +:+ rest)
     ∧ (more_available exercises limit = EmptyString
        ↔ Py.len exercises ≤ limit)
     ∧ (limit < Py.len exercises →
        more_available exercises limit
        = "

... and " +:+ Py.str (Py.len exercises - limit) +:+
          " more exercises available. Use specific filters to narrow down results.")).
Proof.
  split; [done|]. intros Hne Hlimit entries. split_and!.
  - unfold format_exercise_list. by destruct exercises.
  - unfold entries, formatted_exercises. cbv zeta.
    rewrite length_fmap, enumerate_length, slice_to_nonneg, length_take by lia.
    done.
  - intros i entry Hi.
    apply formatted_exercises_lookup in Hi as (exercise & Hex & _ & ->); [|lia].
    replace (1 + Z.of_nat i) with (Z.of_nat i + 1) by lia.
    destruct (format_exercise_entry_numbered show_gif (Z.of_nat i + 1) exercise)
      as [rest Hrest].
    by exists exercise, rest.
  - unfold more_available. case_decide; split; try done; try lia.
  - intros Hlong. unfold more_available. by case_decide.
Qed.

(** ** Computations of the process *)

Lemma bind_returned {A B} (m : M A) (f : A → M B) st b st' :
  (m ≫= f) st = (Returned b, st') ↔
  ∃ a st1, m st = (Returned a, st1) ∧ f a st1 = (Returned b, st').
Proof.
  unfold mbind, M_bind. destruct (m st) as [[a|e] st1]; split.
  - intros H. by exists a, st1.
  - by intros (? & ? & [= <- <-] & H).
  - done.
  - by intros (? & ? & [=] & _).
Qed.

Lemma lift_returned {A} (r : result A) st a st' :
  lift r st = (Returned a, st') ↔ r = Returned a ∧ st' = st.
Proof. unfold lift. split; [by intros [= -> ->]|by intros [-> ->]]. Qed.

Lemma mret_returned {A} (x : A) st a st' :
  (mret x : M A) st = (Returned a, st') ↔ a = x ∧ st' = st.
Proof. unfold mret, M_ret. split; [by intros [= -> ->]|by intros [-> ->]]. Qed.

Lemma request_returned endpoint st :
  request endpoint st
  = (Returned (make_api_request endpoint None true st).1,
     (make_api_request endpoint None true st).2).
Proof. unfold request. by destruct (make_api_request _ _ _ _). Qed.

(** C7.  The three formatters are functions of their arguments: two
    renderings with the same records and the same other arguments give the
    same text, character for character.  The state of the process has no
    part in it: in two states in which [create_personalized_workout] has
    the same list [unique_exercises] to render, and in two states in which
    [get_exercise_by_id] is given the same payload, the text returned is the
    same. *)
Theorem rendering_is_repeatable
    (exercises exercises' : list exercise) (exercise exercise' : exercise)
    (limit limit' duration duration' : Z) (show_gif show_gif' : bool)
    (workout_type workout_type' equipment equipment' : string) :
  exercises = exercises' → exercise = exercise' →
  limit = limit' → show_gif = show_gif' →
  workout_type = workout_type' → equipment = equipment' →
  duration = duration' →
  format_exercise_list exercises limit show_gif
  = format_exercise_list exercises' limit' show_gif'
  ∧ format_exercise_detail exercise = format_exercise_detail exercise'
  ∧ format_workout_plan exercises workout_type equipment duration
    = format_workout_plan exercises' workout_type' equipment' duration'
  ∧ (∀ fitness_level focus_areas st1 st2 st1' st2',
       let exercise_count :=
         personalized_exercise_count duration fitness_level in
       personalized_unique_exercises workout_type equipment exercise_count st1
       = (Returned exercises, st1') →
       personalized_unique_exercises workout_type equipment exercise_count st2
       = (Returned exercises, st2') →
       (create_personalized_workout workout_type equipment duration
          fitness_level focus_areas st1).1
       = (create_personalized_workout workout_type equipment duration
            fitness_level focus_areas st2).1)
  ∧ (∀ exercise_id st1 st2,
       (make_api_request ("/exercises/exercise/" +:+ exercise_id)
          None true st1).1
       = (make_api_request ("/exercises/exercise/" +:+ exercise_id)
            None true st2).1 →
       (get_exercise_by_id exercise_id st1).1
       = (get_exercise_by_id exercise_id st2).1).
Proof.
  intros <- <- <- <- <- <- <-. split_and!; [done..| |].
  - intros fitness_level focus_areas st1 st2 st1' st2' exercise_count H1 H2.
    unfold create_personalized_workout. cbv zeta. fold exercise_count.
    unfold mbind, M_bind. rewrite H1, H2.
    by destruct (truthy_list exercises).
  - intros exercise_id st1 st2 Hdata.
    unfold get_exercise_by_id. cbv zeta. unfold mbind, M_bind.
    rewrite !request_returned, Hdata.
    by destruct (truthy _).
Qed.

(** C5.  When the request for an exercise identifier yields no record
    ([None], an empty object or an empty list), [get_exercise_by_id]
    returns, and what it returns is the text that reports the identifier as
    impossible to fetch; no exception escapes.  (The formatter itself answers
    [Exercise not found.] for an empty record.) *)
Theorem get_exercise_by_id_not_found exercise_id st data st1 :
  make_api_request ("/exercises/exercise/" +:+ exercise_id) None true st
  = (data, st1) →
  truthy data = false →
  get_exercise_by_id exercise_id st
  = (Returned ("❌ Unable to fetch exercise with ID: " +:+ exercise_id +:+
               ". Please verify the ID is correct."), st1)
  ∧ format_exercise_detail empty_record = "Exercise not found.".
Proof.
  intros Hcall Hdata. split; [|done].
  unfold get_exercise_by_id. cbv zeta. unfold mbind, M_bind.
  rewrite request_returned, Hcall. simpl. by rewrite Hdata.
Qed.

(** ** The deduplication loop *)

Lemma first_bearer_app l k i r :
  first_bearer l i r → first_bearer (l ++ k) i r.
Proof.
  intros [Hr Hfirst]. pose proof (lookup_lt_Some _ _ _ Hr) as Hi. split.
  - by apply lookup_app_l_Some.
  - intros j r' Hj Hr'. rewrite lookup_app_l in Hr' by lia. eauto.
Qed.

Lemma remove_duplicates_prefix bound items seen unique out :
  remove_duplicates bound items seen unique = Returned out →
  unique `prefix_of` out.
Proof.
  revert seen unique.
  induction items as [|[r|s] items IH]; intros seen unique; simpl;
    [by intros [= ->]| |done].
  case_decide; [by apply IH|].
  assert (unique `prefix_of` unique ++ [r]) by by apply prefix_app_r.
  destruct bound as [count|].
  - case_decide; [by intros [= <-]|].
    intros Hout%IH. by etrans.
  - intros Hout%IH. by etrans.
Qed.

(** Whatever the loop returns was in [unique_exercises] or is a record of
    the list it went through. *)
Lemma remove_duplicates_elem_of bound items seen unique out r :
  remove_duplicates bound items seen unique = Returned out →
  r ∈ out → r ∈ unique ∨ IRecord r ∈ items.
Proof.
  revert seen unique.
  induction items as [|[x|s] items IH]; intros seen unique; simpl;
    [by intros [= ->]; auto| |done].
  assert (r ∈ unique ++ [x] → r ∈ unique ∨ IRecord r ∈ IRecord x :: items).
  { rewrite elem_of_app, list_elem_of_singleton. intros [?| ->]; [by left|].
    right. apply list_elem_of_here. }
  assert (∀ s u, remove_duplicates bound items s u = Returned out →
                 r ∈ out → r ∈ u ∨ IRecord r ∈ IRecord x :: items) as IH'.
  { intros s u Heq Hr. destruct (IH _ _ Heq Hr); [by left|].
    right. by apply list_elem_of_further. }
  case_decide; [by apply IH'|].
  destruct bound as [count|].
  - case_decide; [intros [= <-]; done|].
    intros Heq Hr. destruct (IH' _ _ Heq Hr); auto.
  - intros Heq Hr. destruct (IH' _ _ Heq Hr); auto.
Qed.

(** With a bound the loop never returns more than [max(1, count)] records. *)
Lemma remove_duplicates_bounded count items seen unique out :
  (length unique < Z.to_nat (Z.max 1 count))%nat →
  remove_duplicates (Some count) items seen unique = Returned out →
  (length out ≤ Z.to_nat (Z.max 1 count))%nat.
Proof.
  revert seen unique.
  induction items as [|[x|s] items IH]; intros seen unique Hlen; simpl;
    [intros [= <-]; lia| |done].
  case_decide; [by apply IH|].
  case_decide as Hcount.
  - intros [= <-]. rewrite length_app. simpl. lia.
  - apply IH. unfold Py.len in Hcount.
    rewrite length_app in *. simpl in *. lia.
Qed.

(** The loop as a whole, on a list of records: [done] is the part of the
    input already gone through. *)
Lemma remove_duplicates_spec (bound : option Z) (done rest : list exercise)
    (seen : gset (option string)) (unique : list exercise)
    (positions : list nat) :
  (∀ x, x ∈ seen ↔ x ∈ ex_id <$> done) →
  (∀ x, x ∈ seen ↔ x ∈ ex_id <$> unique) →
  NoDup (ex_id <$> unique) →
  Forall2 (first_bearer done) positions unique →
  StronglySorted lt positions →
  ∃ out positions',
    remove_duplicates bound (IRecord <$> rest) seen unique = Returned out
    ∧ NoDup (ex_id <$> out)
    ∧ Forall2 (first_bearer (done ++ rest)) positions' out
    ∧ StronglySorted lt positions'
    ∧ (bound = None → ∀ x, x ∈ ex_id <$> (done ++ rest) → x ∈ ex_id <$> out).
Proof.
  revert done seen unique positions.
  induction rest as [|r rest IH];
    intros done seen unique positions Hseen Hids Hnodup Hpos Hsorted.
  { exists unique, positions. rewrite app_nil_r. simpl.
    split_and!; [done..|]. intros _ x. by rewrite <-Hseen, Hids. }
  assert (Forall (λ i, i < length done)%nat positions) as Hlt.
  { eapply Forall2_Forall_l; [done|]. apply Forall_true.
    intros i x [Hx _]. by eapply lookup_lt_Some. }
  replace (done ++ r :: rest) with ((done ++ [r]) ++ rest)
    by by rewrite <-(assoc_L (++)).
  simpl. case_decide as Hin.
  - apply (IH (done ++ [r]) seen unique positions); [|done..| |done].
    + intros x. rewrite fmap_app, elem_of_app, <-Hseen. simpl.
      rewrite list_elem_of_singleton. split; [auto|]. by intros [?| ->].
    + eapply Forall2_impl; [done|]. intros i x ?. by apply first_bearer_app.
  - set (seen' := seen ∪ {[ex_id r]}).
    set (unique' := unique ++ [r]).
    assert (∀ x, x ∈ seen' ↔ x ∈ ex_id <$> (done ++ [r])) as Hseen'.
    { intros x. unfold seen'.
      rewrite elem_of_union, elem_of_singleton, fmap_app, elem_of_app, <-Hseen.
      simpl. by rewrite list_elem_of_singleton. }
    assert (∀ x, x ∈ seen' ↔ x ∈ ex_id <$> unique') as Hids'.
    { intros x. unfold seen', unique'.
      rewrite elem_of_union, elem_of_singleton, fmap_app, elem_of_app, <-Hids.
      simpl. by rewrite list_elem_of_singleton. }
    assert (NoDup (ex_id <$> unique')) as Hnodup'.
    { unfold unique'. rewrite fmap_app. apply NoDup_app. split_and!; [done| |].
      - intros x Hx. simpl. rewrite list_elem_of_singleton. intros ->.
        apply Hin. by apply Hids.
      - simpl. apply NoDup_singleton. }
    assert (Forall2 (first_bearer (done ++ [r])) (positions ++ [length done])
                    unique') as Hpos'.
    { unfold unique'. apply Forall2_app.
      - eapply Forall2_impl; [done|].
        intros i x ?. by apply first_bearer_app.
      - constructor; [|done]. split.
        + by rewrite lookup_app_r, Nat.sub_diag.
        + intros j r' Hj Hr'. rewrite lookup_app_l in Hr' by done.
          intros Heq. apply Hin, Hseen. rewrite <-Heq.
          apply list_elem_of_fmap_2. by eapply list_elem_of_lookup_2. }
    assert (StronglySorted lt (positions ++ [length done])) as Hsorted'.
    { apply StronglySorted_app; split_and!; [|done|repeat constructor].
      intros i j Hi ->%list_elem_of_singleton.
      by eapply (proj1 (Forall_forall _ _) Hlt). }
    destruct (IH (done ++ [r]) seen' unique' (positions ++ [length done]))
      as (out & positions' & Hout & ? & ? & ? & ?); [done..|].
    destruct bound as [count|]; [|by exists out, positions'].
    case_decide; [|by exists out, positions'].
    exists unique', (positions ++ [length done]). split_and!; [done..| |done|done].
    eapply Forall2_impl; [done|]. intros i x ?. by apply first_bearer_app.
Qed.

Lemma unique_by_id_spec (bound : option Z) (exercises : list exercise) :
  ∃ (unique_exercises : list exercise) (positions : list nat),
    unique_by_id bound (IRecord <$> exercises) = Returned unique_exercises
    ∧ NoDup (ex_id <$> unique_exercises)
    ∧ StronglySorted lt positions
    ∧ Forall2 (first_bearer exercises) positions unique_exercises
    ∧ (bound = None →
       ∀ r, r ∈ exercises → ∃ r', r' ∈ unique_exercises ∧ ex_id r' = ex_id r).
Proof.
  destruct (remove_duplicates_spec bound [] exercises ∅ [] [])
    as (out & positions & Hout & Hnodup & Hpos & Hsorted & Hall).
  - intros x. simpl. set_solver.
  - intros x. simpl. set_solver.
  - constructor.
  - constructor.
  - constructor.
  - exists out, positions. split_and!; [done..|].
    intros Hb r Hr.
    destruct (list_elem_of_fmap_1 ex_id out (ex_id r)) as (r' & ? & ?); [|by eauto].
    apply Hall; [done|]. simpl. by apply list_elem_of_fmap_2.
Qed.

(** The loop with a bound returns a prefix of what the loop without a
    bound returns: it stops at the first record that brings the count to
    the bound. *)
Lemma remove_duplicates_take count (rest : list exercise) seen unique full :
  remove_duplicates None (IRecord <$> rest) seen unique = Returned full →
  remove_duplicates (Some count) (IRecord <$> rest) seen unique
  = Returned (take (Nat.max (S (length unique)) (Z.to_nat count)) full).
Proof.
  revert seen unique. induction rest as [|r rest IH]; intros seen unique; simpl.
  { intros [= <-]. by rewrite take_ge by lia. }
  destruct (decide (ex_id r ∈ seen)); [by apply IH|].
  intros Hfull. destruct (decide (count ≤ Py.len (unique ++ [r]))) as [Hcount|Hcount].
  - apply remove_duplicates_prefix in Hfull as [k ->].
    unfold Py.len in Hcount. rewrite length_app in Hcount. simpl in Hcount.
    rewrite take_app_length'; [done|]. rewrite length_app. simpl. lia.
  - etrans; [by apply IH|]. unfold Py.len in Hcount.
    rewrite length_app in *. simpl in *. do 2 f_equal. lia.
Qed.

(** The first record the loop meets is the first it returns. *)
Lemma unique_by_id_head bound (r : exercise) (rest : list item) out :
  unique_by_id bound (IRecord r :: rest) = Returned out →
  ∃ kept, out = r :: kept.
Proof.
  unfold unique_by_id. cbn [remove_duplicates].
  rewrite decide_False by set_solver. cbv zeta. intros Hout.
  assert ([r] `prefix_of` out) as [kept ->]; [|by exists kept].
  destruct bound as [count|].
  - case_decide; [injection Hout as <-; done|].
    by eapply remove_duplicates_prefix.
  - by eapply remove_duplicates_prefix.
Qed.

(** C2.  On every list of exercise records the deduplication step, with or
    without a bound, returns a list in which no identifier occurs twice;
    its records stand in the input at increasing positions, and each one is
    the first record of the input that bears its identifier.  Which
    records survive: without a bound, one for every identifier of the
    input; with a bound, the first max(1, count) of these; in both cases
    the first record of the input. *)
Theorem unique_by_id_keeps_first_occurrences (bound : option Z)
    (exercises : list exercise) :
  ∃ (unique_exercises : list exercise) (positions : list nat)
    (full : list exercise),
    unique_by_id bound (IRecord <$> exercises) = Returned unique_exercises
    ∧ NoDup (ex_id <$> unique_exercises)
    ∧ StronglySorted lt positions
    ∧ Forall2 (first_bearer exercises) positions unique_exercises
    ∧ unique_by_id None (IRecord <$> exercises) = Returned full
    ∧ (∀ r, r ∈ exercises → ∃ r', r' ∈ full ∧ ex_id r' = ex_id r)
    ∧ unique_exercises
      = match bound with
        | None => full
        | Some count => take (Z.to_nat (Z.max 1 count)) full
        end
    ∧ (∀ r rest, exercises = r :: rest →
         ∃ kept, unique_exercises = r :: kept).
Proof.
  destruct (unique_by_id_spec bound exercises)
    as (out & positions & Hout & Hnodup & Hsorted & Hfirst & _).
  destruct (unique_by_id_spec None exercises)
    as (full & _ & Hfull & _ & _ & _ & Hall).
  exists out, positions, full. split_and!; [done..|by apply Hall| |].
  - destruct bound as [count|]; [|congruence].
    unfold unique_by_id in *.
    rewrite (remove_duplicates_take count _ _ _ _ Hfull) in Hout.
    injection Hout as <-. simpl. f_equal. lia.
  - intros r rest ->. rewrite fmap_cons in Hout.
    by eapply unique_by_id_head.
Qed.

Lemma nodup_fmap_filter_length {A B} (f : A → B) (l : list A) (y : B)
    `{!∀ x, Decision (f x = y)} :
  NoDup (f <$> l) → (length (filter (λ x, f x = y) l) ≤ 1)%nat.
Proof.
  induction l as [|x l IH]; simpl; [lia|].
  rewrite NoDup_cons. intros [Hx Hl]. rewrite filter_cons.
  case_decide as Hy; [|by apply IH]. simpl.
  assert (filter (λ x, f x = y) l = []) as ->; [|simpl; lia].
  destruct (filter (λ x, f x = y) l) as [|z k] eqn:E; [done|].
  assert (z ∈ filter (λ x, f x = y) l) as [Hfz Hz]%list_elem_of_filter
    by (rewrite E; left).
  destruct Hx. rewrite Hy, <-Hfz. by apply list_elem_of_fmap_2.
Qed.

(** ** The selection steps *)

Global Instance IRecord_inj : Inj (=) (=) IRecord.
Proof. by intros r1 r2 [= ->]. Qed.

Lemma equipped_is_record equipment it : equipped equipment it → is_record it.
Proof. intros (r & -> & _). by exists r. Qed.

Lemma Forall_is_record (items : list item) :
  Forall is_record items ↔ ∃ l, items = IRecord <$> l.
Proof.
  split.
  - induction 1 as [|it items [r ->] _ [l ->]]; [by exists []|].
    by exists (r :: l).
  - intros [l ->]. apply Forall_fmap, Forall_true. intros r. by exists r.
Qed.

Lemma specific_spec equipment :
  specific equipment = false
  ↔ Py.lower equipment = "any" ∨ Py.lower equipment = "all".
Proof.
  unfold specific. rewrite negb_false_iff, bool_decide_eq_true.
  rewrite !elem_of_cons, elem_of_nil. tauto.
Qed.

(** The equipment field of a kept record reads, in lower case, some text,
    then the equipment asked for in lower case, then some text. *)
Lemma has_equipment_spec equipment ex :
  has_equipment equipment ex = true
  ↔ substring_of (Py.lower equipment)
                 (Py.lower (Py.get (ex_equipment ex) EmptyString)).
Proof. apply contains_spec. Qed.

Lemma equipment_filter_equipped equipment data kept :
  equipment_filter equipment data = Returned kept →
  Forall (equipped equipment) kept ∧ kept `sublist_of` data.
Proof.
  revert kept. induction data as [|[ex|s] data IH]; intros kept; simpl;
    [by intros [= <-]| |done].
  destruct (equipment_filter equipment data) as [kept'|] eqn:E; [|done].
  destruct (IH kept' eq_refl) as [Hall Hsub]. simpl.
  destruct (has_equipment equipment ex) eqn:Hex; intros [= <-]; split.
  - constructor; [by exists ex|done].
  - by apply sublist_skip.
  - done.
  - by apply sublist_cons.
Qed.

(** On a list of records the filter returns, and returns the records that
    have the equipment. *)
Lemma equipment_filter_records equipment (l : list exercise) :
  equipment_filter equipment (IRecord <$> l)
  = Returned (IRecord <$> filter (λ ex, has_equipment equipment ex = true) l).
Proof.
  induction l as [|ex l IH]; [done|].
  rewrite fmap_cons. cbn [equipment_filter]. rewrite IH. simpl.
  rewrite filter_cons. by destruct (has_equipment equipment ex).
Qed.

Lemma slice_payload_inv n data selected :
  slice_payload n data = Returned selected →
  ∃ l, data = PList l ∧ selected = IRecord <$> Py.slice_to n l.
Proof. destruct data as [|r|l]; [done..|]. intros [= <-]. by exists l. Qed.

Lemma slice_to_Forall {A} (P : A → Prop) n (l : list A) :
  Forall P l → Forall P (Py.slice_to n l).
Proof. intros. unfold Py.slice_to. case_decide; by apply Forall_take. Qed.

Lemma filter_and_slice_equipped equipment n data selected :
  specific equipment = true →
  filter_and_slice equipment n data = Returned selected →
  Forall (equipped equipment) selected.
Proof.
  unfold filter_and_slice. intros ->.
  destruct (equipment_filter equipment (iterate data)) as [kept|] eqn:E; [|done].
  simpl. intros [= <-].
  apply slice_to_Forall. by apply equipment_filter_equipped in E as [? _].
Qed.

Lemma filter_and_slice_records equipment n data selected :
  filter_and_slice equipment n data = Returned selected →
  Forall is_record selected.
Proof.
  destruct (specific equipment) eqn:Hs.
  - intros H. eapply Forall_impl; [by eapply filter_and_slice_equipped|].
    apply equipped_is_record.
  - unfold filter_and_slice. rewrite Hs.
    intros (l & -> & ->)%slice_payload_inv. apply Forall_is_record. by eexists.
Qed.

Lemma filter_and_slice_length equipment n data selected :
  0 ≤ n →
  filter_and_slice equipment n data = Returned selected →
  (length selected ≤ Z.to_nat n)%nat.
Proof.
  intros Hn. unfold filter_and_slice. destruct (specific equipment).
  - destruct (equipment_filter equipment (iterate data)) as [kept|]; [|done].
    simpl. intros [= <-]. by apply slice_to_length.
  - intros (l & -> & ->)%slice_payload_inv. rewrite length_fmap.
    by apply slice_to_length.
Qed.

Lemma selected_all_equipped equipment :
  specific equipment = true → selected_all (equipped equipment) equipment.
Proof. intros Hs n data selected. by apply filter_and_slice_equipped. Qed.

Lemma selected_all_records equipment : selected_all is_record equipment.
Proof. intros n data selected. by apply filter_and_slice_records. Qed.

(** One body-part query appends to [exercises] what [filter_and_slice]
    selects from the payload of the request. *)
Lemma extend_from_body_part_inv body_part equipment n exercises st exercises' st' :
  extend_from_body_part body_part equipment n exercises st
  = (Returned exercises', st') →
  st' = (make_api_request ("/exercises/bodyPart/" +:+ body_part) None true st).2
  ∧ ∃ selected,
      exercises' = exercises ++ selected
      ∧ (selected = []
         ∨ filter_and_slice equipment n
             (make_api_request ("/exercises/bodyPart/" +:+ body_part)
                               None true st).1
           = Returned selected).
Proof.
  unfold extend_from_body_part.
  intros (data & st1 & Hreq & H)%bind_returned.
  rewrite request_returned in Hreq. injection Hreq as <- <-.
  destruct (truthy _).
  - apply bind_returned in H as (selected & st2 & [Hsel ->]%lift_returned & H).
    apply mret_returned in H as [-> ->]. split; [done|].
    exists selected. auto.
  - apply mret_returned in H as [-> ->]. split; [done|].
    exists []. rewrite app_nil_r. auto.
Qed.

Lemma extend_from_body_part_Forall (P : item → Prop) body_part equipment n
    exercises st exercises' st' :
  selected_all P equipment →
  Forall P exercises →
  extend_from_body_part body_part equipment n exercises st
  = (Returned exercises', st') →
  Forall P exercises'.
Proof.
  intros HP Hex (_ & selected & -> & [-> | Hsel])%extend_from_body_part_inv.
  - by rewrite app_nil_r.
  - apply Forall_app. split; [done|]. by eapply HP.
Qed.

Lemma extend_from_body_parts_Forall (P : item → Prop) body_parts equipment n
    exercises st exercises' st' :
  selected_all P equipment →
  Forall P exercises →
  extend_from_body_parts body_parts equipment n exercises st
  = (Returned exercises', st') →
  Forall P exercises'.
Proof.
  intros HP. revert exercises st.
  induction body_parts as [|body_part body_parts IH]; intros exercises st Hex; simpl.
  - by intros [-> ->]%mret_returned.
  - intros (exercises1 & st1 & H1 & H2)%bind_returned.
    eapply IH; [|done]. by eapply extend_from_body_part_Forall.
Qed.

(** ** The lists the builders gather *)

Ltac by_branch :=
  repeat match goal with
    | H : (if ?b then _ else _) _ = (Returned _, _) |- _ => destruct b
    end;
  try match goal with
    | H : mret _ _ = (Returned _, _) |- _ =>
        apply mret_returned in H as [-> ->]; constructor
    end;
  eauto using extend_from_body_parts_Forall, extend_from_body_part_Forall.

Lemma circuit_exercises_Forall P target_areas equipment n st exercises st' :
  selected_all P equipment →
  circuit_exercises target_areas equipment n st = (Returned exercises, st') →
  Forall P exercises.
Proof. intros HP. unfold circuit_exercises. cbv zeta. intros H. by_branch. Qed.

Lemma beginner_exercises_Forall P focus_area equipment st exercises st' :
  selected_all P equipment →
  beginner_exercises focus_area equipment st = (Returned exercises, st') →
  Forall P exercises.
Proof. intros HP. unfold beginner_exercises. cbv zeta. intros H. by_branch. Qed.

Lemma difficulty_exercises_Forall P difficulty body_focus equipment st
    exercises st' :
  selected_all P equipment →
  difficulty_exercises difficulty body_focus equipment st
  = (Returned exercises, st') →
  Forall P exercises.
Proof. intros HP. unfold difficulty_exercises. cbv zeta. intros H. by_branch. Qed.

Lemma hiit_exercises_Forall P equipment st exercises st' :
  selected_all P equipment →
  hiit_exercises equipment st = (Returned exercises, st') →
  Forall P exercises.
Proof.
  intros HP. unfold hiit_exercises. cbv zeta.
  intros (cardio & st1 & _ & H)%bind_returned.
  apply bind_returned in H as (compound & st2 & Hcompound & H).
  apply bind_returned in H as (all & st3 & Hall & H).
  apply mret_returned in H as [-> ->].
  apply Forall_app. split.
  - destruct (truthy cardio).
    + apply bind_returned in Hall as (selected & st4 & [Hsel ->]%lift_returned & H).
      apply mret_returned in H as [-> ->]. simpl. by eapply HP.
    + by apply mret_returned in Hall as [-> ->].
  - eapply extend_from_body_parts_Forall; [done|constructor|done].
Qed.

Lemma extend_from_legs_equipped equipment n exercises st exercises' st' :
  specific equipment = true →
  Forall (equipped equipment) exercises →
  extend_from_legs equipment n exercises st = (Returned exercises', st') →
  Forall (equipped equipment) exercises'.
Proof.
  intros Hs Hex. unfold extend_from_legs. cbv zeta. rewrite Hs.
  intros (upper & st1 & _ & H)%bind_returned.
  apply bind_returned in H as (lower & st2 & _ & H).
  destruct (truthy_list _).
  - apply bind_returned in H as (kept & st3 & [Hkept ->]%lift_returned & H).
    apply mret_returned in H as [-> ->].
    apply Forall_app. split; [done|]. apply slice_to_Forall.
    by apply equipment_filter_equipped in Hkept as [? _].
  - by apply mret_returned in H as [-> ->].
Qed.

Lemma personalized_by_type_equipped workout_type equipment n st exercises st' :
  specific equipment = true →
  personalized_by_type workout_type equipment n [] st = (Returned exercises, st') →
  Forall (equipped equipment) exercises.
Proof.
  intros Hs. pose proof (selected_all_equipped _ Hs) as HP.
  unfold personalized_by_type. cbv zeta. intros H.
  repeat match goal with
    | H : (if ?b then _ else _) _ = (Returned _, _) |- _ => destruct b
    end;
    eauto using extend_from_body_parts_Forall, extend_from_body_part_Forall,
      extend_from_legs_equipped.
Qed.

(** The records the loop returns are records of the list it was given. *)
Lemma unique_by_id_Forall (P : exercise → Prop) bound items out :
  Forall (λ it, ∀ r, it = IRecord r → P r) items →
  unique_by_id bound items = Returned out →
  Forall P out.
Proof.
  intros Hitems Hout. apply Forall_forall. intros r Hr.
  destruct (remove_duplicates_elem_of _ _ _ _ _ r Hout Hr) as [Hnil | Hin].
  - by apply elem_of_nil in Hnil.
  - by eapply (proj1 (Forall_forall _ _) Hitems).
Qed.

Lemma unique_by_id_equipped equipment bound items out :
  Forall (equipped equipment) items →
  unique_by_id bound items = Returned out →
  Forall (λ r, has_equipment equipment r = true) out.
Proof.
  intros Hitems. apply unique_by_id_Forall.
  eapply Forall_impl; [done|]. by intros it (r & -> & Hr) ? [= <-].
Qed.

Lemma unique_by_id_bounded count items out :
  unique_by_id (Some count) items = Returned out →
  Py.len out ≤ Z.max 1 count.
Proof.
  intros H%remove_duplicates_bounded; [unfold Py.len; lia|simpl; lia].
Qed.

(** ** Equipment filtering *)

Lemma unique_by_id_holds equipment bound items out :
  Forall (equipped equipment) items →
  unique_by_id bound items = Returned out →
  Forall (holds_equipment equipment) out.
Proof.
  intros Hitems Hout. eapply Forall_impl; [by eapply unique_by_id_equipped|].
  intros r. apply has_equipment_spec.
Qed.

Lemma filter_and_slice_unfiltered equipment n data :
  specific equipment = false →
  filter_and_slice equipment n data = slice_payload n data.
Proof. unfold filter_and_slice. by intros ->. Qed.

Lemma extend_from_body_part_unfiltered body_part equipment n exercises st l :
  specific equipment = false →
  (make_api_request ("/exercises/bodyPart/" +:+ body_part) None true st).1
  = PList l →
  extend_from_body_part body_part equipment n exercises st
  = (Returned (exercises ++ (IRecord <$> Py.slice_to n l)),
     (make_api_request ("/exercises/bodyPart/" +:+ body_part) None true st).2).
Proof.
  intros Hs Hl. unfold extend_from_body_part, mbind, M_bind.
  rewrite request_returned, Hl. destruct l as [|ex l]; simpl.
  - unfold mret, M_ret. unfold Py.slice_to.
    case_decide; by rewrite take_nil, app_nil_r.
  - unfold lift. by rewrite filter_and_slice_unfiltered.
Qed.

Lemma extend_from_legs_unfiltered equipment n exercises st upper lower :
  specific equipment = false →
  let first := make_api_request "/exercises/bodyPart/upper legs" None true st in
  let second :=
    make_api_request "/exercises/bodyPart/lower legs" None true first.2 in
  first.1 = PList upper → second.1 = PList lower →
  extend_from_legs equipment n exercises st
  = (Returned (exercises ++ (IRecord <$> Py.slice_to n (upper ++ lower))),
     second.2).
Proof.
  intros Hs first second Hupper Hlower.
  unfold extend_from_legs, mbind, M_bind. cbv zeta.
  rewrite request_returned. fold first. rewrite request_returned. fold second.
  rewrite Hupper, Hlower, Hs. cbn [truthy iterate].
  assert (((if truthy_list lower
            then (if truthy_list upper then [] ++ (IRecord <$> upper) else [])
                 ++ (IRecord <$> lower)
            else if truthy_list upper then [] ++ (IRecord <$> upper) else [])
           : list item)
          = IRecord <$> (upper ++ lower)) as ->.
  { rewrite fmap_app. destruct upper, lower; simpl; by rewrite ?app_nil_r. }
  destruct (upper ++ lower) as [|ex l] eqn:E; simpl.
  - unfold mret, M_ret, Py.slice_to.
    case_decide; by rewrite take_nil, fmap_nil, app_nil_r.
  - unfold lift, mret, M_ret. do 3 f_equal.
    by rewrite <-slice_to_fmap.
Qed.



(** C10.  A record without an [id] key bears the identifier [None], so
    at most one such record comes out of any deduplication loop, even when
    the input has several different ones.  The loop of
    [get_beginner_workout_plan] has no bound: it keeps a record for every
    identifier of the list it goes through.  The loops of the other
    builders return the first max(1, count) records of what the loop
    without a bound returns, so they stop once their count is reached. *)
Theorem idless_records_and_truncation :
  (∀ bound (l out : list exercise),
     unique_by_id bound (IRecord <$> l) = Returned out →
     (length (filter (λ r, ex_id r = None) out) ≤ 1)%nat)
  ∧ (stretch_a ≠ stretch_b
     ∧ ex_id stretch_a = None ∧ ex_id stretch_b = None
     ∧ ∀ bound,
         unique_by_id bound (IRecord <$> [stretch_a; stretch_b])
         = Returned [stretch_a])
  ∧ (∀ l : list exercise,
       ∃ full,
         unique_by_id None (IRecord <$> l) = Returned full
         ∧ (∀ r, r ∈ l → ∃ r', r' ∈ full ∧ ex_id r' = ex_id r)
         ∧ ∀ count,
             unique_by_id (Some count) (IRecord <$> l)
             = Returned (take (Z.to_nat (Z.max 1 count)) full))
  ∧ (∀ focus_area equipment st out st',
       beginner_unique_exercises focus_area equipment st = (Returned out, st') →
       ∃ l,
         beginner_exercises focus_area equipment st
         = (Returned (IRecord <$> l), st')
         ∧ unique_by_id None (IRecord <$> l) = Returned out
         ∧ ∀ r, r ∈ l → ∃ r', r' ∈ out ∧ ex_id r' = ex_id r)
  ∧ (∀ workout_type equipment n st out st',
       personalized_unique_exercises workout_type equipment n st
       = (Returned out, st') →
       Py.len out ≤ Z.max 1 n)
  ∧ (∀ target_areas equipment n st out st',
       circuit_unique_exercises target_areas equipment n st = (Returned out, st') →
       Py.len out ≤ Z.max 1 n)
  ∧ (∀ difficulty body_focus equipment st out st',
       difficulty_unique_exercises difficulty body_focus equipment st
       = (Returned out, st') →
       Py.len out ≤ exercise_count (level_of difficulty))
  ∧ (∀ equipment st out st',
       hiit_unique_exercises equipment st = (Returned out, st') →
       Py.len out ≤ 6).
Proof.
  split_and!.
  - intros bound l out Hout.
    destruct (unique_by_id_spec bound l) as (out' & _ & Hout' & Hnodup & _).
    rewrite Hout in Hout'. injection Hout' as <-.
    by apply nodup_fmap_filter_length.
  - done.
  - done.
  - done.
  - intros bound. unfold unique_by_id. simpl.
    rewrite decide_False by set_solver.
    destruct bound as [count|].
    + case_decide; [done|]. by rewrite decide_True by set_solver.
    + by rewrite decide_True by set_solver.
  - intros l.
    destruct (unique_by_id_spec None l) as (full & _ & Hfull & _ & _ & _ & Hall).
    exists full. split_and!; [done|by apply Hall|].
    intros count. unfold unique_by_id in *.
    rewrite (remove_duplicates_take count _ _ _ _ Hfull). simpl.
    do 2 f_equal. lia.
  - intros focus_area equipment st out st'. unfold beginner_unique_exercises.
    intros (exs & st1 & Hexs & [Hout ->]%lift_returned)%bind_returned.
    pose proof (beginner_exercises_Forall _ _ _ _ _ _
                  (selected_all_records equipment) Hexs) as Hrec.
    apply Forall_is_record in Hrec as [l ->]. exists l.
    destruct (unique_by_id_spec None l) as (out' & _ & Hout' & _ & _ & _ & Hall).
    rewrite Hout in Hout'. injection Hout' as <-. split_and!; [done..|].
    by apply Hall.
  - unfold personalized_unique_exercises.
    intros workout_type equipment n st out st'
      (exs & st1 & _ & [Hout _]%lift_returned)%bind_returned.
    by apply unique_by_id_bounded in Hout.
  - unfold circuit_unique_exercises.
    intros target_areas equipment n st out st'
      (exs & st1 & _ & [Hout _]%lift_returned)%bind_returned.
    by apply unique_by_id_bounded in Hout.
  - unfold difficulty_unique_exercises.
    intros difficulty body_focus equipment st out st'
      (exs & st1 & _ & [Hout _]%lift_returned)%bind_returned.
    apply unique_by_id_bounded in Hout.
    assert (1 ≤ exercise_count (level_of difficulty)); [|lia].
    unfold level_of. repeat case_decide; simpl; lia.
  - unfold hiit_unique_exercises.
    intros equipment st out st'
      (exs & st1 & _ & [Hout _]%lift_returned)%bind_returned.
    apply unique_by_id_bounded in Hout. lia.
Qed.

(** ** More on text *)

Lemma length_app_str (a b : string) :
  String.length (a +:+ b) = (String.length a + String.length b)%nat.
Proof. induction a as [|c a IH]; [done|]. rewrite app_cons. simpl. by rewrite IH. Qed.

Lemma str_len_app (a b : string) :
  Py.str_len (a +:+ b) = (Py.str_len a + Py.str_len b)%nat.
Proof.
  induction a as [|c a IH]; [done|]. rewrite app_cons. simpl.
  destruct (Py.is_continuation c); by rewrite IH.
Qed.

Lemma str_take_len n s :
  Py.str_len (Py.str_take n s) = Nat.min n (Py.str_len s).
Proof.
  revert n. induction s as [|c s IH]; intros n; simpl.
  - by destruct n.
  - destruct (Py.is_continuation c) eqn:Hc; simpl.
    + by rewrite Hc, IH.
    + destruct n as [|n]; [done|]. simpl. by rewrite Hc, IH.
Qed.

Lemma str_take_prefix n s : ∃ rest, s = Py.str_take n s +:+ rest.
Proof.
  revert n. induction s as [|c s IH]; intros n; simpl.
  - by exists EmptyString.
  - destruct (Py.is_continuation c).
    + destruct (IH n) as [rest Hrest]. exists rest. rewrite app_cons. by f_equal.
    + destruct n as [|n]; [by exists (String c s)|].
      destruct (IH n) as [rest Hrest]. exists rest. rewrite app_cons. by f_equal.
Qed.

(** On ASCII text a character is a byte. *)
Lemma str_len_ascii s : Py.isascii s = true → Py.str_len s = String.length s.
Proof.
  induction s as [|c s IH]; [done|]. simpl.
  intros [Hc Hs]%andb_true_iff. rewrite IH by done.
  assert (Py.is_continuation c = false) as ->; [|done].
  unfold Py.is_continuation. cbv zeta. apply N.ltb_lt in Hc.
  apply andb_false_iff. left. apply N.leb_gt. lia.
Qed.

Lemma lower_char_idem c : Py.lower_char (Py.lower_char c) = Py.lower_char c.
Proof. by destruct c as [[] [] [] [] [] [] [] []]. Qed.

Lemma lower_upper_char c : Py.lower_char (Py.upper_char c) = Py.lower_char c.
Proof. by destruct c as [[] [] [] [] [] [] [] []]. Qed.

Lemma lower_idem s : Py.lower (Py.lower s) = Py.lower s.
Proof. induction s as [|c s IH]; simpl; [done|]. by rewrite lower_char_idem, IH. Qed.

Lemma lower_title_go b s : Py.lower (Py.title_go b s) = Py.lower s.
Proof.
  revert b. induction s as [|c s IH]; intros b; simpl; [done|].
  rewrite IH. by destruct b; rewrite ?lower_char_idem, ?lower_upper_char.
Qed.

Lemma lower_title s : Py.lower (Py.title s) = Py.lower s.
Proof. apply lower_title_go. Qed.

Lemma app_inv_tail_str (a b s : string) : a +:+ s = b +:+ s → a = b.
Proof.
  revert b. induction a as [|x a IH]; intros [|y b] H.
  - done.
  - apply (f_equal String.length) in H.
    rewrite !length_app_str in H. simpl in H. lia.
  - apply (f_equal String.length) in H.
    rewrite !length_app_str in H. simpl in H. lia.
  - rewrite !app_cons in H. injection H as -> H. f_equal. by apply IH.
Qed.

(** X15.  The instruction shown in a list entry is never longer than 103
    characters: a first instruction of at most 100 characters is shown as
    it is, a longer one as its first 100 characters and three dots.
    Characters are counted as [len] counts them, whatever the number of
    bytes that encode each. *)
Theorem instructions_cell_is_short exercise :
  (Py.str_len (instructions_cell exercise) ≤ 103)%nat
  ∧ (∀ first others,
       ex_instructions exercise = Some (first :: others) →
       ((Py.str_len first ≤ 100)%nat → instructions_cell exercise = first)
       ∧ ((100 < Py.str_len first)%nat →
          Py.str_len (instructions_cell exercise) = 103%nat
          ∧ ∃ cut rest,
              instructions_cell exercise = cut +:+ "..."
              ∧ first = cut +:+ rest ∧ Py.str_len cut = 100%nat))
  ∧ (∀ stock,
       (Py.str_len (modification_instructions stock exercise)
        ≤ Nat.max 100 (Py.str_len stock))%nat).
Proof.
  unfold instructions_cell, modification_instructions. split_and!.
  - destruct (ex_instructions exercise) as [[|first others]|];
      [simpl; lia| |simpl; lia].
    case_decide; [|lia].
    rewrite str_len_app, str_take_len.
    change (Py.str_len "...") with 3%nat. lia.
  - intros first others ->. split.
    + intros Hshort. case_decide; [lia|done].
    + intros Hlong. rewrite decide_True by lia. split.
      * rewrite str_len_app, str_take_len.
        change (Py.str_len "...") with 3%nat. lia.
      * destruct (str_take_prefix 100 first) as [rest Hrest].
        exists (Py.str_take 100 first), rest. split_and!; [done..|].
        rewrite str_take_len. lia.
  - intros stock.
    destruct (ex_instructions exercise) as [[|first others]|]; [lia| |lia].
    rewrite str_take_len. lia.
Qed.


(** X10.  The equipment name is put into the path in lower case with every
    space written [%20], and nothing else changed: the result holds no
    space, a name without a space is only lowered, and two names that are
    equal in lower case give the same path; so does a name in ASCII and
    its title-cased form. *)
Theorem equipment_path_has_no_space equipment :
  let path := Py.replace " "%char "%20" (Py.lower equipment) in
  Py.contains " " path = false
  ∧ (Py.contains " " equipment = false → path = Py.lower equipment)
  ∧ (∀ equipment', Py.lower equipment' = Py.lower equipment →
       Py.replace " "%char "%20" (Py.lower equipment') = path)
  ∧ (Py.isascii equipment = true →
     Py.replace " "%char "%20" (Py.lower (Py.title equipment)) = path).
Proof.
  intros path. subst path. split_and!.
  - induction (Py.lower equipment) as [|c s IH]; [done|].
    cbn [Py.replace]. case_decide as Hc.
    + rewrite !app_cons. change (EmptyString +:+ ?x) with x.
      cbn [Py.contains String.prefix]. by rewrite IH.
    + cbn [Py.contains String.prefix]. rewrite IH.
      destruct (ascii_dec " " c) as [<-|]; [done|]. by destruct s.
  - induction equipment as [|c s IH]; [done|].
    cbn [Py.contains String.prefix Py.lower Py.replace].
    destruct (ascii_dec " " c) as [<-|Hc].
    + by destruct s.
    + intros Hs. rewrite decide_False.
      * f_equal. apply IH. by destruct s.
      * intros Heq. apply Hc. rewrite <-Heq.
        by destruct c as [[] [] [] [] [] [] [] []].
  - by intros equipment' ->.
  - intros _. by rewrite lower_title.
Qed.

(** ** More on the selection *)

Lemma remove_duplicates_nodup (rest : list exercise)
    (seen : gset (option string)) (unique : list exercise) :
  NoDup (ex_id <$> rest) →
  (∀ x, x ∈ ex_id <$> rest → x ∉ seen) →
  remove_duplicates None (IRecord <$> rest) seen unique
  = Returned (unique ++ rest).
Proof.
  revert seen unique. induction rest as [|r rest IH]; intros seen unique.
  { intros _ _. simpl. by rewrite app_nil_r. }
  rewrite !fmap_cons. intros [Hr Hnodup]%NoDup_cons Hfresh.
  cbn [remove_duplicates]. rewrite decide_False.
  2:{ apply Hfresh. apply list_elem_of_here. }
  rewrite IH; [by rewrite <-(assoc_L (++))|done|].
  intros x Hx. rewrite elem_of_union, elem_of_singleton.
  intros [Hseen | ->]; [|done].
  by apply (Hfresh x); [apply list_elem_of_further|].
Qed.

Lemma remove_duplicates_length bound items seen unique out :
  remove_duplicates bound items seen unique = Returned out →
  (length out ≤ length unique + length items)%nat.
Proof.
  revert seen unique.
  induction items as [|[x|s] items IH]; intros seen unique; simpl;
    [intros [= <-]; lia| |done].
  assert (∀ s u, remove_duplicates bound items s (u ++ [x]) = Returned out →
                 (length out ≤ length u + S (length items))%nat) as IH'.
  { intros s u Heq%IH. rewrite length_app in Heq. simpl in Heq. lia. }
  case_decide; [intros Heq%IH; lia|].
  destruct bound as [count|]; [|by apply IH'].
  case_decide; [|by apply IH'].
  intros [= <-]. rewrite length_app. simpl. lia.
Qed.

(** X7.  Removing duplicates twice is removing them once: on every list of
    records the loop returns a list that the same loop, run on it again,
    returns unchanged; and the loop without a bound returns a list with
    distinct identifiers as it is. *)
Theorem unique_by_id_idempotent (bound : option Z) (exercises : list exercise) :
  (∃ out,
     unique_by_id bound (IRecord <$> exercises) = Returned out
     ∧ unique_by_id bound (IRecord <$> out) = Returned out)
  ∧ (NoDup (ex_id <$> exercises) →
     unique_by_id None (IRecord <$> exercises) = Returned exercises).
Proof.
  assert (∀ l : list exercise, NoDup (ex_id <$> l) →
            unique_by_id None (IRecord <$> l) = Returned l) as Hid.
  { intros l Hl. unfold unique_by_id.
    rewrite remove_duplicates_nodup; [done..|]. set_solver. }
  split; [|by apply Hid].
  destruct (unique_by_id_spec bound exercises)
    as (out & _ & Hout & Hnodup & _).
  exists out. split; [done|].
  destruct bound as [count|]; [|by apply Hid].
  unfold unique_by_id in *.
  rewrite (remove_duplicates_take count out ∅ [] out); [|by apply Hid].
  apply remove_duplicates_bounded in Hout; [|simpl; lia].
  simpl. by rewrite take_ge by lia.
Qed.

(** X5.  The number of exercises of a personalized plan lies between 3 and
    10 (the cap of 12 in the code is never reached), and the plan is
    rendered from at most that many records. *)
Theorem personalized_plan_size duration_minutes fitness_level :
  let exercise_count :=
    personalized_exercise_count duration_minutes fitness_level in
  3 ≤ exercise_count ≤ 10
  ∧ (Py.lower fitness_level = "advanced" →
     exercise_count
     = personalized_exercise_count duration_minutes EmptyString + 2)
  ∧ (∀ workout_type equipment st out st',
       personalized_unique_exercises workout_type equipment exercise_count st
       = (Returned out, st') →
       Py.len out ≤ exercise_count).
Proof.
  intros exercise_count.
  assert (3 ≤ exercise_count ≤ 10) as Hcount.
  { unfold exercise_count, personalized_exercise_count.
    repeat case_decide; lia. }
  split_and!; [lia|lia| |].
  - intros Hadvanced. unfold exercise_count, personalized_exercise_count.
    rewrite Hadvanced. simpl. repeat case_decide; try done; lia.
  - unfold personalized_unique_exercises.
    intros workout_type equipment st out st'
      (exs & st1 & _ & [Hout _]%lift_returned)%bind_returned.
    apply unique_by_id_bounded in Hout. lia.
Qed.

Lemma extend_from_body_parts_length body_parts equipment n exercises st
    exercises' st' :
  0 ≤ n →
  extend_from_body_parts body_parts equipment n exercises st
  = (Returned exercises', st') →
  (length exercises' ≤ length exercises + Z.to_nat n * length body_parts)%nat.
Proof.
  intros Hn. revert exercises st.
  induction body_parts as [|body_part body_parts IH]; intros exercises st; simpl.
  - intros [-> ->]%mret_returned. lia.
  - intros (exercises1 & st1 & H1 & H2)%bind_returned.
    apply IH in H2.
    apply extend_from_body_part_inv in H1 as (_ & selected & -> & [-> | Hsel]).
    + rewrite app_nil_r in H2. lia.
    + apply filter_and_slice_length in Hsel; [|done].
      rewrite length_app in H2. lia.
Qed.

(** X6.  A beginner plan never gathers more than 8 records, so the cut to
    the first 8 before rendering drops none: every record that survives
    the removal of duplicates is shown. *)
Theorem beginner_plan_shows_all focus_area equipment st out st' :
  beginner_unique_exercises focus_area equipment st = (Returned out, st') →
  (length out ≤ 8)%nat ∧ beginner_shown out = out.
Proof.
  unfold beginner_unique_exercises.
  intros (exs & st1 & Hexs & [Hout _]%lift_returned)%bind_returned.
  assert (length exs ≤ 8)%nat as Hexs8.
  { revert Hexs. unfold beginner_exercises. cbv zeta.
    repeat match goal with
      | |- (if ?b then _ else _) _ = (Returned _, _) → _ => destruct b
      end.
    - intros H%extend_from_body_parts_length; [|lia]. simpl in H. lia.
    - intros H%extend_from_body_parts_length; [|lia]. simpl in H. lia.
    - intros H%extend_from_body_parts_length; [|lia]. simpl in H. lia.
    - intros (_ & selected & -> & [-> | Hsel])%extend_from_body_part_inv;
        [simpl; lia|].
      apply filter_and_slice_length in Hsel; [|lia]. simpl in *. lia.
    - intros [-> ->]%mret_returned. simpl. lia. }
  apply remove_duplicates_length in Hout. simpl in Hout.
  split; [lia|].
  unfold beginner_shown. rewrite slice_to_nonneg by lia.
  apply take_ge. simpl. lia.
Qed.

(** ** More on the cached fetch *)

(** X1.  A call of [make_api_request] issues one GET request on a miss and
    none on a hit, which leaves the process as it was; with [use_cache]
    false it leaves the cache as it was, whatever the answer; and it prints
    only when the fetch fails. *)
Theorem make_api_request_accounting endpoint params use_cache st :
  let st' := (make_api_request endpoint params use_cache st).2 in
  (cache_miss endpoint params use_cache st → requests st' = S (requests st))
  ∧ (¬ cache_miss endpoint params use_cache st → st' = st)
  ∧ (use_cache = false → _cache st' = _cache st)
  ∧ (¬ fetch_fails endpoint params st → stdout st' = stdout st).
Proof.
  intros st'. subst st'. split_and!.
  - intros Hmiss. rewrite (make_api_request_miss _ _ _ _ Hmiss).
    destruct (answered_or_fails endpoint params st) as [[d Hd] | Hf].
    + rewrite (fetch_success _ _ _ _ _ Hd). by destruct use_cache.
    + by rewrite (fetch_failure _ _ _ _ Hf).
  - intros Hhit.
    destruct (hit_or_miss endpoint params use_cache st) as [[-> [d Hd]] | Hmiss];
      [|done].
    by rewrite (make_api_request_hit _ _ _ _ Hd).
  - intros ->.
    rewrite (make_api_request_miss endpoint params false st) by by left.
    destruct (answered_or_fails endpoint params st) as [[d Hd] | Hf].
    + by rewrite (fetch_success _ _ _ _ _ Hd).
    + by rewrite (fetch_failure _ _ _ _ Hf).
  - intros Hok.
    destruct (hit_or_miss endpoint params use_cache st) as [[-> [d Hd]] | Hmiss].
    { by rewrite (make_api_request_hit _ _ _ _ Hd). }
    rewrite (make_api_request_miss _ _ _ _ Hmiss).
    destruct (answered_or_fails endpoint params st) as [[d Hd] | Hf]; [|done].
    rewrite (fetch_success _ _ _ _ _ Hd). by destruct use_cache.
Qed.

Lemma make_api_request_size endpoint params use_cache st :
  let st' := (make_api_request endpoint params use_cache st).2 in
  (size (_cache st') + requests st ≤ size (_cache st) + requests st')%nat
  ∧ (requests st' ≤ S (requests st))%nat.
Proof.
  intros st'. subst st'.
  destruct (hit_or_miss endpoint params use_cache st) as [[-> [d Hd]] | Hmiss].
  { rewrite (make_api_request_hit _ _ _ _ Hd). simpl. lia. }
  rewrite (make_api_request_miss _ _ _ _ Hmiss).
  destruct (answered_or_fails endpoint params st) as [[d Hd] | Hf].
  - rewrite (fetch_success _ _ _ _ _ Hd). destruct use_cache; simpl; [|lia].
    destruct Hmiss as [? | Hnone]; [done|].
    rewrite map_size_insert_None by done. lia.
  - rewrite (fetch_failure _ _ _ _ Hf). simpl. lia.
Qed.

Lemma run_requests_bounds calls st :
  (requests st ≤ requests (run_requests calls st)
   ≤ requests st + length calls)%nat
  ∧ (size (_cache (run_requests calls st)) + requests st
     ≤ size (_cache st) + requests (run_requests calls st))%nat.
Proof.
  revert st. induction calls as [|[[e p] uc] calls IH]; intros st.
  { simpl. lia. }
  change (run_requests ((e, p, uc) :: calls) st)
    with (run_requests calls (make_api_request e p uc st).2).
  pose proof (make_api_request_size e p uc st) as [Hsize Hreq].
  pose proof (make_api_request_requests e p uc st) as Hle.
  destruct (IH (make_api_request e p uc st).2) as [IH1 IH2].
  cbn [length]. lia.
Qed.

Lemma resume_call_bounds call st :
  dom (_cache st) ⊆ dom (_cache (resume_call call st).2)
  ∧ requests (resume_call call st).2 = requests st
  ∧ (size (_cache (resume_call call st).2) ≤ S (size (_cache st)))%nat.
Proof.
  unfold resume_call.
  destruct (s_outcome call) as [code content|e]; [|by auto].
  destruct (is_success code).
  - destruct content as [data|e]; [|by auto].
    destruct (s_use_cache call); [|by auto]. cbn.
    split; [apply dom_insert_subseteq|]. split; [done|].
    rewrite map_size_insert. case_match; simpl; lia.
  - cbn. case_decide; by auto.
Qed.

Lemma step_bounds ev sv :
  dom (_cache (proc sv)) ⊆ dom (_cache (proc (step ev sv).2))
  ∧ (requests (proc sv) ≤ requests (proc (step ev sv).2)
     ≤ S (requests (proc sv)))%nat
  ∧ (size (_cache (proc (step ev sv).2)) + length (in_flight (step ev sv).2)
     + requests (proc sv)
     ≤ size (_cache (proc sv)) + length (in_flight sv)
       + requests (proc (step ev sv).2))%nat.
Proof.
  destruct ev as [endpoint params use_cache|i]; cbn [step].
  - unfold begin_call. cbv zeta.
    destruct (if use_cache then _ else _); cbn; [split; [done|lia]|].
    split; [done|]. rewrite length_app. simpl. lia.
  - destruct (in_flight sv !! i) as [call|] eqn:Hcall;
      [|cbn; split; [done|lia]].
    pose proof (resume_call_bounds call (proc sv)) as (Hdom & Hreq & Hsize).
    assert (length (delete i (in_flight sv)) = length (in_flight sv) - 1)%nat
      as Hlen by (apply length_delete; eauto).
    apply lookup_lt_Some in Hcall.
    destruct (resume_call call (proc sv)) as [d st']. cbn in *.
    split; [done|]. lia.
Qed.

Lemma run_events_bounds events sv :
  dom (_cache (proc sv)) ⊆ dom (_cache (proc (run_events events sv)))
  ∧ (requests (proc sv) ≤ requests (proc (run_events events sv))
     ≤ requests (proc sv) + length events)%nat
  ∧ (size (_cache (proc (run_events events sv)))
     + length (in_flight (run_events events sv)) + requests (proc sv)
     ≤ size (_cache (proc sv)) + length (in_flight sv)
       + requests (proc (run_events events sv)))%nat.
Proof.
  revert sv. induction events as [|ev events IH]; intros sv.
  { simpl. split; [done|lia]. }
  rewrite run_events_cons.
  destruct (step_bounds ev sv) as (Hdom & Hreq & Hsize).
  destruct (IH (step ev sv).2) as (Hdom' & Hreq' & Hsize').
  split; [by etrans|]. cbn [length]. lia.
Qed.

(** X2.  The cache only grows, and by at most one entry for each request.
    In any run of the server, however its calls overlap, no key ever
    leaves the cache, and the entries and the calls in flight together
    never outnumber the requests issued.  When the calls run one after the
    other, every entry also keeps its payload, the number of entries added
    is at most the number of requests issued, and that is at most the
    number of calls. *)
Theorem cache_grows_with_requests :
  (∀ events sv,
     let sv' := run_events events sv in
     dom (_cache (proc sv)) ⊆ dom (_cache (proc sv'))
     ∧ (requests (proc sv) ≤ requests (proc sv')
        ≤ requests (proc sv) + length events)%nat
     ∧ (size (_cache (proc sv')) + length (in_flight sv') + requests (proc sv)
        ≤ size (_cache (proc sv)) + length (in_flight sv)
          + requests (proc sv'))%nat)
  ∧ (∀ events,
       let sv' := run_events events (Server start []) in
       (size (_cache (proc sv')) + length (in_flight sv')
        ≤ requests (proc sv'))%nat)
  ∧ (∀ calls st,
       let st' := run_requests calls st in
       run_events (one_by_one calls) (Server st []) = Server st' []
       ∧ _cache st ⊆ _cache st'
       ∧ (requests st ≤ requests st' ≤ requests st + length calls)%nat
       ∧ (size (_cache st') - size (_cache st)
          ≤ requests st' - requests st)%nat).
Proof.
  split; [|split].
  - intros events sv. apply run_events_bounds.
  - intros events sv'.
    destruct (run_events_bounds events (Server start [])) as (_ & _ & Hsize).
    fold sv' in Hsize. simpl in Hsize. rewrite map_size_empty in Hsize. lia.
  - intros calls st st'. subst st'. split; [apply run_one_by_one|].
    split; [|split].
    + apply map_subseteq_spec. intros k v. apply run_requests_keeps.
    + apply run_requests_bounds.
    + destruct (run_requests_bounds calls st) as [_ Hsize]. lia.
Qed.

Lemma cache_key_of_inj endpoint endpoint' :
  cache_key_of endpoint None = cache_key_of endpoint' None →
  endpoint = endpoint'.
Proof. unfold cache_key_of. apply app_inv_tail_str. Qed.

Lemma fetched_from_mono st st' endpoint data :
  (requests st ≤ requests st')%nat →
  fetched_from st endpoint data → fetched_from st' endpoint data.
Proof.
  intros Hle (n & code & Hn & Hup & Hs). exists n, code. split_and!; [lia|done..].
Qed.

Lemma make_api_request_faithful endpoint use_cache st :
  cache_is_faithful st →
  cache_is_faithful (make_api_request endpoint None use_cache st).2
  ∧ ((make_api_request endpoint None use_cache st).1 = PNone
     ∨ fetched_from (make_api_request endpoint None use_cache st).2 endpoint
         (make_api_request endpoint None use_cache st).1).
Proof.
  intros Hinv.
  pose proof (make_api_request_requests endpoint None use_cache st) as Hle.
  destruct (hit_or_miss endpoint None use_cache st) as [[-> [d Hd]] | Hmiss].
  { rewrite (make_api_request_hit _ _ _ _ Hd). simpl. split; [done|].
    right. by apply Hinv. }
  rewrite (make_api_request_miss _ _ _ _ Hmiss) in *.
  destruct (answered_or_fails endpoint None st) as [[d Hd] | Hf].
  - rewrite (fetch_success _ _ _ _ _ Hd) in *.
    assert (∀ st', requests st' = S (requests st) →
                   fetched_from st' endpoint d) as Hnew.
    { intros st' Hst'. destruct Hd as (code & Ha & Hs).
      exists (requests st), code. split_and!; [lia|done..]. }
    destruct use_cache; unfold store, issued in *; simpl in *.
    + split; [|right; by apply Hnew].
      intros e v. cbn [_cache]. destruct (decide (e = endpoint)) as [->|Hne].
      * rewrite lookup_insert_eq. intros [= <-]. by apply Hnew.
      * rewrite lookup_insert_ne by (intros ?%cache_key_of_inj; done).
        intros Hk. eapply fetched_from_mono; [|by eapply Hinv]. simpl; lia.
    + split; [|right; by apply Hnew].
      intros e v Hk. eapply fetched_from_mono; [|by eapply Hinv]. simpl; lia.
  - rewrite (fetch_failure _ _ _ _ Hf) in *. simpl in *. split; [|by left].
    intros e v Hk. eapply fetched_from_mono; [|by eapply Hinv]. simpl; lia.
Qed.

Lemma run_parameterless_faithful calls st :
  cache_is_faithful st → cache_is_faithful (run_parameterless calls st).
Proof.
  unfold run_parameterless. revert st.
  induction calls as [|[e uc] calls IH]; intros st Hinv; [done|].
  rewrite fmap_cons. cbn [run_requests foldl]. apply IH.
  by apply make_api_request_faithful.
Qed.

(** X3.  In a process whose calls carry no parameters (as those of every
    tool), a request is never served the payload of another endpoint: what
    a call for an endpoint returns is [None] or the parsed body of a
    successful answer that the URL of this very endpoint gave to a request
    of the process; and two endpoints never share a cache key. *)
Theorem requests_are_served_their_endpoint calls endpoint use_cache :
  let st := run_parameterless calls start in
  let '(data, st') := make_api_request endpoint None use_cache st in
  (data = PNone ∨ fetched_from st' endpoint data)
  ∧ cache_is_faithful st'
  ∧ (∀ endpoint',
       cache_key_of endpoint' None = cache_key_of endpoint None →
       endpoint' = endpoint).
Proof.
  intros st.
  assert (cache_is_faithful st) as Hst.
  { apply run_parameterless_faithful. intros e v Hk. simpl in Hk.
    by rewrite lookup_empty in Hk. }
  pose proof (make_api_request_faithful endpoint use_cache st Hst) as [H1 H2].
  destruct (make_api_request endpoint None use_cache st) as [data st'].
  split_and!; [done..|]. intros endpoint'. apply cache_key_of_inj.
Qed.

(** ** The listing tools and the search *)

Lemma bind_request {B} endpoint (f : payload → M B) st :
  (request endpoint ≫= f) st
  = f (make_api_request endpoint None true st).1
      (make_api_request endpoint None true st).2.
Proof. unfold mbind, M_bind. by rewrite request_returned. Qed.

Lemma bind_lift {A B} (r : result A) (f : A → M B) st :
  (lift r ≫= f) st
  = match r with Returned a => f a st | Raised e => (Raised e, st) end.
Proof. by destruct r. Qed.

Lemma formatted_exercises_len exercises limit show_gif :
  0 ≤ limit →
  Py.len (formatted_exercises exercises limit show_gif)
  = Z.min limit (Py.len exercises).
Proof.
  intros Hlimit. unfold formatted_exercises, Py.len. cbv zeta.
  rewrite length_fmap, enumerate_length, slice_to_nonneg, length_take by done.
  lia.
Qed.

Lemma listing_state endpoint unable heading limit st :
  (listing endpoint unable heading limit st).2
  = (make_api_request endpoint None true st).2.
Proof.
  unfold listing. rewrite bind_request.
  destruct (negb (truthy _)); [done|]. cbv zeta. rewrite bind_lift.
  by destruct (list_payload _ _).
Qed.

(** X8.  A listing tool given a list of records and a limit that is not
    negative announces as many records as it shows: the first number of
    its heading is the number of entries of the list below it, the second
    the number of records received. *)
Theorem listing_announces_what_it_shows endpoint unable heading limit st
    exercises :
  (make_api_request endpoint None true st).1 = PList exercises →
  exercises ≠ [] →
  0 ≤ limit →
  listing endpoint unable heading limit st
  = (Returned
       (heading +:+ Py.str (Py.len (formatted_exercises exercises limit true))
        +:+ " of " +:+ Py.str (Py.len exercises) +:+ " exercises):**

" +:+ format_exercise_list exercises limit true),
     (make_api_request endpoint None true st).2).
Proof.
  intros Hdata Hne Hlimit. unfold listing. rewrite bind_request, Hdata.
  destruct exercises as [|exercise exercises]; [done|].
  cbn [truthy truthy_list negb]. cbv zeta. rewrite bind_lift.
  cbn [list_payload payload_len].
  by rewrite formatted_exercises_len.
Qed.

(** X18.  A listing tool given a JSON object that is not empty (the shape
    of an upstream error message) raises: the object passes the truth
    test, and the slice in [format_exercise_list] is not defined on it.
    Given [None], the empty object or the empty list it returns its
    sentence of failure. *)
Theorem listing_of_an_object_raises endpoint unable heading limit st :
  let data := (make_api_request endpoint None true st).1 in
  (∀ r, data = PDict r → r ≠ empty_record →
        (listing endpoint unable heading limit st).1 = Raised DictSliceError)
  ∧ (truthy data = false →
     (listing endpoint unable heading limit st).1 = Returned unable).
Proof.
  intros data. subst data. unfold listing. rewrite bind_request. split.
  - intros r -> Hr. cbn [truthy]. unfold truthy_record.
    rewrite decide_False by done. cbn [negb]. cbv zeta. rewrite bind_lift.
    cbn [list_payload]. unfold truthy_record. by rewrite decide_False by done.
  - by intros ->.
Qed.

Lemma lower_char_cased c :
  Py.is_upper (Py.lower_char c) || Py.is_lower (Py.lower_char c)
  = Py.is_upper c || Py.is_lower c.
Proof. by destruct c as [[] [] [] [] [] [] [] []]. Qed.

Lemma upper_lower_char c : Py.upper_char (Py.lower_char c) = Py.upper_char c.
Proof. by destruct c as [[] [] [] [] [] [] [] []]. Qed.

Lemma title_go_lower b s : Py.title_go b (Py.lower s) = Py.title_go b s.
Proof.
  revert b. induction s as [|c s IH]; intros b; simpl; [done|].
  rewrite lower_char_cased, IH.
  by destruct b; rewrite ?lower_char_idem, ?upper_lower_char.
Qed.

Lemma title_lower s : Py.title (Py.lower s) = Py.title s.
Proof. apply title_go_lower. Qed.

Lemma title_of_lower s1 s2 : Py.lower s1 = Py.lower s2 → Py.title s1 = Py.title s2.
Proof. intros H. by rewrite <-(title_lower s1), H, title_lower. Qed.

Lemma listing_truthy endpoint unable unable' heading limit st :
  truthy (make_api_request endpoint None true st).1 = true →
  listing endpoint unable heading limit st
  = listing endpoint unable' heading limit st.
Proof. intros H. unfold listing. rewrite !bind_request. by rewrite H. Qed.

(** X9.  The listings by body part, by target muscle and by equipment do
    not tell the letter case of a name in ASCII: two such names that are
    equal in lower case lead to the same request, cache entry and state,
    and to the same text whenever the payload passes the truth test (the
    sentence of failure quotes the name as it was given).  The names are
    taken in ASCII, where [str.lower] and [str.title] map the 26 letters
    and nothing else, as [Py.lower] and [Py.title] do. *)
Theorem listings_ignore_letter_case name name' limit st :
  Py.isascii name = true →
  Py.isascii name' = true →
  Py.lower name = Py.lower name' →
  ((get_exercises_by_body_part name limit st).2
   = (get_exercises_by_body_part name' limit st).2
   ∧ (truthy (make_api_request ("/exercises/bodyPart/" +:+ Py.lower name)
                               None true st).1 = true →
      get_exercises_by_body_part name limit st
      = get_exercises_by_body_part name' limit st))
  ∧ ((get_exercises_by_target_muscle name limit st).2
     = (get_exercises_by_target_muscle name' limit st).2
     ∧ (truthy (make_api_request ("/exercises/target/" +:+ Py.lower name)
                                 None true st).1 = true →
        get_exercises_by_target_muscle name limit st
        = get_exercises_by_target_muscle name' limit st))
  ∧ ((get_exercises_by_equipment name limit st).2
     = (get_exercises_by_equipment name' limit st).2
     ∧ (truthy (make_api_request
                  ("/exercises/equipment/" +:+
                   Py.replace " "%char "%20" (Py.lower name))
                  None true st).1 = true →
        get_exercises_by_equipment name limit st
        = get_exercises_by_equipment name' limit st)).
Proof.
  intros _ _ Hlower. pose proof (title_of_lower _ _ Hlower) as Htitle.
  unfold get_exercises_by_body_part, get_exercises_by_target_muscle,
    get_exercises_by_equipment. cbv zeta.
  rewrite !listing_state, <-!Hlower, <-!Htitle.
  repeat split; try done; intros H; by apply listing_truthy.
Qed.

Lemma comprehension_records keep (l : list exercise) :
  comprehension keep (IRecord <$> l)
  = Returned (filter (λ ex, keep ex = true) l).
Proof.
  induction l as [|ex l IH]; [done|].
  rewrite fmap_cons, filter_cons. cbn [comprehension]. rewrite IH.
  by destruct (keep ex).
Qed.

Lemma contains_empty s : Py.contains EmptyString s = true.
Proof. by destruct s. Qed.

(** X11.  The search keeps, in their order, exactly the records whose name
    holds the term when both are put in lower case (a record without a
    name is read as the empty name); the empty term keeps every record.
    The heading counts all the records found, whatever the limit. *)
Theorem search_finds_names_holding_the_term name limit st exercises :
  (make_api_request "/exercises" None true st).1 = PList exercises →
  exercises ≠ [] →
  ∃ found,
    search_filtered name (PList exercises) = Returned found
    ∧ (∀ ex, ex ∈ found ↔
             ex ∈ exercises
             ∧ substring_of (Py.lower name)
                            (Py.lower (Py.get (ex_name ex) EmptyString)))
    ∧ found `sublist_of` exercises
    ∧ (name = EmptyString → found = exercises)
    ∧ (search_exercises_by_name name limit st).1
      = Returned
          (if truthy_list found
           then "**🔍 Search Results for '" +:+ name +:+ "' (" +:+
                Py.str (Py.len found) +:+ " found):**

" +:+ format_exercise_list found limit true
           else "❌ No exercises found matching '" +:+ name +:+
                "'. Try different keywords or check spelling.").
Proof.
  intros Hdata Hne.
  exists (filter (λ ex, name_matches (Py.lower name) ex = true) exercises).
  assert (search_filtered name (PList exercises)
          = Returned (filter (λ ex, name_matches (Py.lower name) ex = true)
                             exercises)) as Hfound.
  { unfold search_filtered. cbv zeta. cbn [iterate].
    apply comprehension_records. }
  split_and!.
  - done.
  - intros ex. rewrite list_elem_of_filter. unfold name_matches.
    rewrite contains_spec. tauto.
  - apply sublist_filter.
  - intros ->. clear. induction exercises as [|ex l IH]; [done|].
    rewrite filter_cons_True by apply contains_empty. by f_equal.
  - unfold search_exercises_by_name. cbv zeta. rewrite bind_request, Hdata.
    destruct exercises as [|exercise exercises]; [done|].
    cbn [truthy truthy_list negb]. rewrite Hfound, bind_lift.
    by destruct (filter _ _).
Qed.

(** ** Alternatives and modifications *)

Lemma comprehension_inv keep data out :
  comprehension keep data = Returned out →
  Forall (λ ex, keep ex = true) out.
Proof.
  revert out. induction data as [|[ex|s] data IH]; intros out; cbn [comprehension].
  - intros [= <-]. constructor.
  - destruct (comprehension keep data) as [kept|e]; [|done]. cbn.
    intros [= <-]. destruct (keep ex) eqn:Hkeep; auto.
  - done.
Qed.

Lemma related_from_inv endpoint exercise_id otherwise st out st' :
  related_from endpoint exercise_id otherwise st = (Returned out, st') →
  st' = (make_api_request endpoint None true st).2
  ∧ (out = otherwise ∨ Forall (λ ex, ex_id ex ≠ Some exercise_id) out).
Proof.
  unfold related_from. rewrite bind_request. destruct (truthy _).
  - intros [Hout ->]%lift_returned. split; [done|]. right.
    apply comprehension_inv in Hout.
    eapply Forall_impl; [done|]. intros ex. unfold other_than.
    by intros ?%bool_decide_eq_true.
  - intros [-> ->]%mret_returned. auto.
Qed.

Lemma alternatives_of_bounds exercise_id original st out st' :
  alternatives_of exercise_id original st = (Returned out, st') →
  Forall (λ ex, ex_id ex ≠ Some exercise_id) out
  ∧ (requests st ≤ requests st' ≤ requests st + 2)%nat
  ∧ (Py.get (ex_target original) EmptyString = EmptyString →
     Py.get (ex_bodyPart original) EmptyString = EmptyString →
     out = [] ∧ st' = st).
Proof.
  unfold alternatives_of. cbv zeta.
  intros (first & st1 & Hfirst & Hsecond)%bind_returned.
  assert ((first = [] ∨ Forall (λ ex, ex_id ex ≠ Some exercise_id) first)
          ∧ (requests st ≤ requests st1 ≤ requests st + 1)%nat
          ∧ (Py.get (ex_target original) EmptyString = EmptyString →
             first = [] ∧ st1 = st)) as (Hf & Hr1 & Hn1).
  { destruct (truthy_str (Py.get (ex_target original) EmptyString)) eqn:Ht.
    - apply related_from_inv in Hfirst as [-> Hf]. split; [done|split].
      + pose proof (make_api_request_requests
                      ("/exercises/target/" +:+
                       Py.lower (Py.get (ex_target original) EmptyString))
                      None true st).
        pose proof (make_api_request_size
                      ("/exercises/target/" +:+
                       Py.lower (Py.get (ex_target original) EmptyString))
                      None true st) as [_ ?]. lia.
      + intros Hnone. unfold truthy_str in Ht. by rewrite decide_True in Ht.
    - apply mret_returned in Hfirst as [-> ->]. split; [by left|split; [lia|done]]. }
  assert (Forall (λ ex, ex_id ex ≠ Some exercise_id) first) as Hf'.
  { destruct Hf as [-> | Hf]; [constructor|done]. }
  destruct (negb (truthy_list first)
            && truthy_str (Py.get (ex_bodyPart original) EmptyString)) eqn:Hb.
  - apply andb_true_iff in Hb as [Hempty Hb].
    apply related_from_inv in Hsecond as [-> Hs]. split; [|split].
    + by destruct Hs as [-> | Hs].
    + pose proof (make_api_request_requests
                    ("/exercises/bodyPart/" +:+
                     Py.lower (Py.get (ex_bodyPart original) EmptyString))
                    None true st1).
      pose proof (make_api_request_size
                    ("/exercises/bodyPart/" +:+
                     Py.lower (Py.get (ex_bodyPart original) EmptyString))
                    None true st1) as [_ ?]. lia.
    + intros _ Hnone. unfold truthy_str in Hb. by rewrite decide_True in Hb.
  - apply mret_returned in Hsecond as [-> ->]. split; [done|split; [lia|]].
    intros Ht _. by apply Hn1.
Qed.

Lemma related_from_list endpoint exercise_id otherwise st (l : list exercise) :
  (make_api_request endpoint None true st).1 = PList l →
  related_from endpoint exercise_id otherwise st
  = (Returned (if truthy_list l
               then filter (λ ex, ex_id ex ≠ Some exercise_id) l
               else otherwise),
     (make_api_request endpoint None true st).2).
Proof.
  intros Hdata. unfold related_from. rewrite bind_request, Hdata.
  cbn [truthy iterate]. destruct (truthy_list l); [|done].
  rewrite comprehension_records. unfold lift. do 2 f_equal.
  apply list_filter_iff. intros ex. unfold other_than.
  by rewrite bool_decide_eq_true.
Qed.

Lemma related_from_nothing endpoint exercise_id otherwise st :
  truthy (make_api_request endpoint None true st).1 = false →
  related_from endpoint exercise_id otherwise st
  = (Returned otherwise, (make_api_request endpoint None true st).2).
Proof. intros Hdata. unfold related_from. by rewrite bind_request, Hdata. Qed.

(** X12.  What [get_exercise_alternatives] gathers.  When the listing by
    target holds a record with another identifier than the original, the
    alternatives are all its records with another identifier, in their
    order, those without identifier among them, and no listing by body
    part is asked.  The listing by body part is asked only when the target
    gave nothing (no target named, nothing fetched, or the original
    alone), and then its records with another identifier are the
    alternatives.  With neither target nor body part named there is no
    request and no alternative.  So the alternatives never hold a record
    with the identifier of the original, and they take at most two
    requests. *)
Theorem alternatives_leave_the_original_out exercise_id original st :
  let others := filter (λ ex : exercise, ex_id ex ≠ Some exercise_id) in
  let target_muscle := Py.get (ex_target original) EmptyString in
  let body_part := Py.get (ex_bodyPart original) EmptyString in
  let by_target :=
    make_api_request ("/exercises/target/" +:+ Py.lower target_muscle)
                     None true st in
  let after_target :=
    if decide (target_muscle = EmptyString) then st else by_target.2 in
  let by_body_part :=
    make_api_request ("/exercises/bodyPart/" +:+ Py.lower body_part)
                     None true after_target in
  (∀ l, target_muscle ≠ EmptyString →
        by_target.1 = PList l → others l ≠ [] →
        alternatives_of exercise_id original st
        = (Returned (others l), by_target.2))
  ∧ (∀ l', (target_muscle = EmptyString
            ∨ truthy by_target.1 = false
            ∨ ∃ l, by_target.1 = PList l ∧ others l = []) →
           body_part ≠ EmptyString →
           by_body_part.1 = PList l' →
           alternatives_of exercise_id original st
           = (Returned (others l'), by_body_part.2))
  ∧ (target_muscle = EmptyString → body_part = EmptyString →
     alternatives_of exercise_id original st = (Returned [], st))
  ∧ (∀ l ex, ex ∈ others l ↔ ex ∈ l ∧ ex_id ex ≠ Some exercise_id)
  ∧ (∀ l ex, ex ∈ l → ex_id ex = None → ex ∈ others l)
  ∧ (∀ l, others l `sublist_of` l)
  ∧ (∀ out st',
       alternatives_of exercise_id original st = (Returned out, st') →
       Forall (λ ex, ex_id ex ≠ Some exercise_id) out
       ∧ (requests st ≤ requests st' ≤ requests st + 2)%nat).
Proof.
  intros others target_muscle body_part by_target after_target by_body_part.
  assert (∀ s, truthy_str s = true ↔ s ≠ EmptyString) as Htruthy.
  { intros s. unfold truthy_str. by case_decide. }
  assert (∀ s, truthy_str s = false ↔ s = EmptyString) as Hfalsy.
  { intros s. unfold truthy_str. by case_decide. }
  split_and!.
  - intros l Htarget Hl Hothers.
    unfold alternatives_of. cbv zeta. fold target_muscle body_part.
    rewrite (proj2 (Htruthy target_muscle)) by done.
    unfold mbind, M_bind.
    rewrite (related_from_list _ _ _ _ l) by done. fold by_target others.
    destruct l as [|ex l]; [done|]. cbn [truthy_list].
    by destruct (others (ex :: l)).
  - intros l' Hnothing Hpart Hl'.
    assert ((if truthy_str target_muscle
             then related_from ("/exercises/target/" +:+ Py.lower target_muscle)
                               exercise_id []
             else mret []) st
            = (Returned [], after_target)) as Hfirst.
    { unfold after_target.
      destruct (decide (target_muscle = EmptyString)) as [Heq|Hne].
      { by rewrite (proj2 (Hfalsy target_muscle)). }
      rewrite (proj2 (Htruthy target_muscle)) by done.
      destruct Hnothing as [? | [Hfalse | (l & Hl & Hothers)]]; [done| |].
      - by apply related_from_nothing.
      - rewrite (related_from_list _ _ _ _ l) by done.
        fold others. rewrite Hothers. by destruct (truthy_list l). }
    unfold alternatives_of. cbv zeta. fold target_muscle body_part.
    unfold mbind, M_bind. rewrite Hfirst. cbn [truthy_list negb andb].
    rewrite (proj2 (Htruthy body_part)) by done.
    rewrite (related_from_list _ _ _ _ l') by done. fold by_body_part others.
    by destruct l'.
  - intros Htarget Hpart.
    unfold alternatives_of. cbv zeta. fold target_muscle body_part.
    by rewrite Htarget, Hpart.
  - intros l ex. unfold others. rewrite list_elem_of_filter. tauto.
  - intros l ex Hin Hid. apply list_elem_of_filter. split; [|done].
    by rewrite Hid.
  - intros l. apply sublist_filter.
  - intros out st' Hout.
    destruct (alternatives_of_bounds _ _ _ _ _ Hout) as (? & ? & _). done.
Qed.

(** X13.  The two lists of modifications divide the related records: every
    related record is in exactly one of them, each list keeps the order of
    the related records, and a record without an [equipment] key counts as
    one that takes equipment. *)
Theorem modifications_divide_the_related related :
  bodyweight_exercises related ++ equipment_exercises related ≡ₚ related
  ∧ bodyweight_exercises related `sublist_of` related
  ∧ equipment_exercises related `sublist_of` related
  ∧ (∀ ex, ex ∈ bodyweight_exercises related →
           ex ∉ equipment_exercises related)
  ∧ (∀ ex, ex ∈ related → ex_equipment ex = None →
           ex ∈ equipment_exercises related).
Proof.
  unfold bodyweight_exercises, equipment_exercises. split_and!.
  - induction related as [|ex l IH]; [done|].
    rewrite !filter_cons. destruct (is_bodyweight ex).
    + rewrite decide_True, decide_False by done. simpl. by f_equiv.
    + rewrite decide_False, decide_True by done.
      rewrite <-Permutation_middle. by f_equiv.
  - apply sublist_filter.
  - apply sublist_filter.
  - intros ex [Hb _]%list_elem_of_filter [He _]%list_elem_of_filter.
    simpl in *. congruence.
  - intros ex Hin Hnone. apply list_elem_of_filter. split; [|done].
    unfold is_bodyweight. by rewrite Hnone.
Qed.

(** ** What the tools do to the process *)

Lemma run_parameterless_app calls calls' st :
  run_parameterless (calls ++ calls') st
  = run_parameterless calls' (run_parameterless calls st).
Proof. unfold run_parameterless, run_requests. by rewrite fmap_app, foldl_app. Qed.

Lemma only_requests_mret {A} k (x : A) : only_requests k (mret x).
Proof. intros st. exists []. split; [simpl; lia|done]. Qed.

Lemma only_requests_lift {A} k (r : result A) : only_requests k (lift r).
Proof. intros st. exists []. split; [simpl; lia|done]. Qed.

Lemma only_requests_request k endpoint : only_requests (S k) (request endpoint).
Proof.
  intros st. exists [endpoint]. split; [simpl; lia|].
  by rewrite request_returned.
Qed.

Lemma only_requests_bind {A B} k k' (m : M A) (f : A → M B) :
  only_requests k m → (∀ a, only_requests k' (f a)) →
  only_requests (k + k') (m ≫= f).
Proof.
  intros Hm Hf st. unfold mbind, M_bind.
  destruct (Hm st) as (endpoints & Hlen & Hst).
  destruct (m st) as [[a|e] st1]; simpl in Hst.
  - destruct (Hf a st1) as (endpoints' & Hlen' & Hst').
    exists (endpoints ++ endpoints'). split; [rewrite length_app; lia|].
    by rewrite Hst', Hst, fmap_app, run_parameterless_app.
  - exists endpoints. split; [lia|done].
Qed.

Lemma only_requests_mono {A} k k' (m : M A) :
  (k ≤ k')%nat → only_requests k m → only_requests k' m.
Proof.
  intros Hle Hm st. destruct (Hm st) as (endpoints & Hlen & Hst).
  exists endpoints. split; [lia|done].
Qed.

Lemma only_requests_if {A} k (b : bool) (m m' : M A) :
  only_requests k m → only_requests k m' →
  only_requests k (if b then m else m').
Proof. by destruct b. Qed.

Lemma only_requests_effect {A} k (m : M A) st :
  only_requests k m →
  _cache st ⊆ _cache (m st).2
  ∧ (requests st ≤ requests (m st).2 ≤ requests st + k)%nat
  ∧ stdout st `prefix_of` stdout (m st).2.
Proof.
  intros Hm. destruct (Hm st) as (endpoints & Hlen & ->).
  unfold run_parameterless.
  set (calls := _ <$> (_ <$> endpoints)).
  assert (length calls = length endpoints) as Hcalls.
  { unfold calls. by rewrite !length_fmap. }
  pose proof (run_requests_bounds calls st) as [Hreq _].
  split; [|split; [lia|]].
  - apply map_subseteq_spec. intros key data. apply run_requests_keeps.
  - clear. revert st. induction calls as [|[[e p] uc] calls IH]; intros st.
    { done. }
    change (run_requests ((e, p, uc) :: calls) st)
      with (run_requests calls (make_api_request e p uc st).2).
    etrans; [|apply IH].
    destruct (hit_or_miss e p uc st) as [[-> [d Hd]] | Hmiss].
    { by rewrite (make_api_request_hit _ _ _ _ Hd). }
    rewrite (make_api_request_miss _ _ _ _ Hmiss).
    destruct (answered_or_fails e p st) as [[d Hd] | Hf].
    + rewrite (fetch_success _ _ _ _ _ Hd). by destruct uc.
    + rewrite (fetch_failure _ _ _ _ Hf). simpl. by apply prefix_app_r.
Qed.

Ltac budget :=
  cbv zeta;
  lazymatch goal with
  | |- only_requests _ (mret _) => apply only_requests_mret
  | |- only_requests _ (lift _) => apply only_requests_lift
  | |- only_requests _ (request _) => apply only_requests_request
  | |- only_requests _ (if _ then _ else _) => apply only_requests_if; budget
  | |- ∀ _, _ => intros ?; budget
  | |- _ => idtac
  end.

Lemma extend_from_body_part_budget body_part equipment n exercises :
  only_requests 1 (extend_from_body_part body_part equipment n exercises).
Proof.
  unfold extend_from_body_part.
  apply (only_requests_bind 1 0); budget.
  apply (only_requests_bind 0 0); budget.
Qed.

Lemma extend_from_body_parts_budget body_parts equipment n exercises :
  only_requests (length body_parts)
    (extend_from_body_parts body_parts equipment n exercises).
Proof.
  revert exercises. induction body_parts as [|body_part rest IH]; intros exercises.
  - apply only_requests_mret.
  - cbn [extend_from_body_parts length].
    apply (only_requests_bind 1 (length rest)); [|done].
    apply extend_from_body_part_budget.
Qed.

Lemma extend_from_legs_budget equipment n exercises :
  only_requests 2 (extend_from_legs equipment n exercises).
Proof.
  unfold extend_from_legs.
  apply (only_requests_bind 1 1); budget.
  apply (only_requests_bind 1 0); budget.
  apply (only_requests_bind 0 0); budget.
Qed.

Ltac by_parts :=
  lazymatch goal with
  | |- only_requests ?k (extend_from_body_parts ?parts _ _ _) =>
      apply (only_requests_mono (length parts) k);
      [vm_compute; lia|apply extend_from_body_parts_budget]
  | |- only_requests ?k (extend_from_body_part _ _ _ _) =>
      apply (only_requests_mono 1 k);
      [lia|apply extend_from_body_part_budget]
  | |- only_requests ?k (extend_from_legs _ _ _) =>
      apply (only_requests_mono 2 k);
      [lia|apply extend_from_legs_budget]
  | |- _ => idtac
  end.

Lemma personalized_unique_exercises_budget workout_type equipment n :
  only_requests 7 (personalized_unique_exercises workout_type equipment n).
Proof.
  unfold personalized_unique_exercises, personalized_exercises.
  apply (only_requests_bind 7 0); budget.
  apply (only_requests_bind 6 1).
  - unfold personalized_by_type. budget; by_parts.
  - unfold equipment_fallback. budget.
    apply (only_requests_bind 1 0); budget.
    apply (only_requests_bind 0 0); budget.
Qed.

Lemma circuit_unique_exercises_budget target_areas equipment n :
  only_requests 6 (circuit_unique_exercises target_areas equipment n).
Proof.
  unfold circuit_unique_exercises.
  apply (only_requests_bind 6 0); budget.
  unfold circuit_exercises. budget; by_parts.
Qed.

Lemma beginner_unique_exercises_budget focus_area equipment :
  only_requests 4 (beginner_unique_exercises focus_area equipment).
Proof.
  unfold beginner_unique_exercises.
  apply (only_requests_bind 4 0); budget.
  unfold beginner_exercises. budget; by_parts.
Qed.

Lemma difficulty_unique_exercises_budget difficulty body_focus equipment :
  only_requests 6 (difficulty_unique_exercises difficulty body_focus equipment).
Proof.
  unfold difficulty_unique_exercises.
  apply (only_requests_bind 6 0); budget.
  unfold difficulty_exercises. budget; by_parts.
Qed.

Lemma hiit_unique_exercises_budget equipment :
  only_requests 5 (hiit_unique_exercises equipment).
Proof.
  unfold hiit_unique_exercises.
  apply (only_requests_bind 5 0); budget.
  unfold hiit_exercises.
  apply (only_requests_bind 1 4); budget.
  apply (only_requests_bind 4 0); budget; by_parts.
  apply (only_requests_bind 0 0); budget.
  apply (only_requests_bind 0 0); budget.
Qed.

Lemma listing_budget endpoint unable heading limit :
  only_requests 1 (listing endpoint unable heading limit).
Proof.
  unfold listing.
  apply (only_requests_bind 1 0); budget.
  apply (only_requests_bind 0 0); budget.
Qed.

Lemma related_from_budget endpoint exercise_id otherwise :
  only_requests 1 (related_from endpoint exercise_id otherwise).
Proof. unfold related_from. apply (only_requests_bind 1 0); budget. Qed.

Lemma alternatives_of_budget exercise_id original_exercise :
  only_requests 2 (alternatives_of exercise_id original_exercise).
Proof.
  unfold alternatives_of.
  apply (only_requests_bind 1 1); budget; apply related_from_budget.
Qed.

(** X4.  An invocation of a tool that no other call of the process
    overlaps touches the process only through [make_api_request], called
    without parameters and with the cache on, and within a fixed number of
    calls: seven for [create_personalized_workout], six for the circuit
    and the workout by difficulty, five for the HIIT workout, four for the
    beginner plan, three for the alternatives, two for the modifications,
    one for the lookups.  It moves the server as these calls do when they
    run one after the other with no call in flight; so it removes and
    replaces no cache entry, issues no more requests than that, and adds
    to the output only the lines of failed fetches. *)
Theorem tools_only_make_cached_requests :
  (∀ A k (m : M A) st,
     only_requests k m →
     (∃ calls,
        (length calls ≤ k)%nat
        ∧ run_events (one_by_one calls) (Server st []) = Server (m st).2 [])
     ∧ _cache st ⊆ _cache (m st).2
     ∧ (requests st ≤ requests (m st).2 ≤ requests st + k)%nat
     ∧ stdout st `prefix_of` stdout (m st).2)
  ∧ (∀ workout_type equipment duration_minutes fitness_level focus_areas,
       only_requests 7
         (create_personalized_workout workout_type equipment duration_minutes
                                      fitness_level focus_areas))
  ∧ (∀ target_areas equipment rounds exercises_per_round work_time rest_time,
       only_requests 6
         (create_circuit_training target_areas equipment rounds
                                  exercises_per_round work_time rest_time))
  ∧ (∀ focus_area equipment weeks,
       only_requests 4 (get_beginner_workout_plan focus_area equipment weeks))
  ∧ (∀ difficulty body_focus equipment duration,
       only_requests 6
         (get_workout_by_difficulty difficulty body_focus equipment duration))
  ∧ (∀ intensity equipment rounds work_time rest_time,
       only_requests 5
         (create_hiit_workout intensity equipment rounds work_time rest_time))
  ∧ (∀ exercise_id limit,
       only_requests 3 (get_exercise_alternatives exercise_id limit))
  ∧ (∀ exercise_id, only_requests 2 (get_exercise_modifications exercise_id))
  ∧ (∀ exercise_id, only_requests 1 (get_exercise_by_id exercise_id))
  ∧ (∀ name limit, only_requests 1 (search_exercises_by_name name limit))
  ∧ (∀ limit, only_requests 1 (get_all_exercises limit))
  ∧ (∀ body_part limit,
       only_requests 1 (get_exercises_by_body_part body_part limit))
  ∧ (∀ target_muscle limit,
       only_requests 1 (get_exercises_by_target_muscle target_muscle limit))
  ∧ (∀ equipment limit,
       only_requests 1 (get_exercises_by_equipment equipment limit)).
Proof.
  split_and!.
  - intros A k m st Hm. split; [|by apply only_requests_effect].
    destruct (Hm st) as (endpoints & Hlen & ->). unfold run_parameterless.
    eexists. split; [|apply run_one_by_one]. by rewrite !length_fmap.
  - intros. unfold create_personalized_workout.
    apply (only_requests_bind 7 0); budget.
    apply personalized_unique_exercises_budget.
  - intros. unfold create_circuit_training.
    apply (only_requests_bind 6 0); budget.
    apply circuit_unique_exercises_budget.
  - intros. unfold get_beginner_workout_plan.
    apply (only_requests_bind 4 0); budget.
    apply beginner_unique_exercises_budget.
  - intros. unfold get_workout_by_difficulty.
    apply (only_requests_bind 6 0); budget.
    apply difficulty_unique_exercises_budget.
  - intros. unfold create_hiit_workout.
    apply (only_requests_bind 5 0); budget.
    apply hiit_unique_exercises_budget.
  - intros. unfold get_exercise_alternatives.
    apply (only_requests_bind 1 2); budget.
    apply (only_requests_bind 0 2); budget.
    apply (only_requests_bind 2 0); budget.
    apply alternatives_of_budget.
  - intros. unfold get_exercise_modifications.
    apply (only_requests_bind 1 1); budget.
    apply (only_requests_bind 0 1); budget.
    apply (only_requests_bind 1 0); budget.
    unfold related_exercises_of. budget. apply related_from_budget.
  - intros. unfold get_exercise_by_id.
    apply (only_requests_bind 1 0); budget.
  - intros. unfold search_exercises_by_name.
    apply (only_requests_bind 1 0); budget.
    apply (only_requests_bind 0 0); budget.
  - intros. apply listing_budget.
  - intros. apply listing_budget.
  - intros. apply listing_budget.
  - intros. apply listing_budget.
Qed.

(** ** The tools when the upstream is down *)

Section down.

Hypothesis Hdown : upstream_down.

Lemma down_mret {A} (x : A) : returns_from_empty_cache (mret x) x.
Proof. intros st Hst. by exists st. Qed.

Lemma down_lift {A} (r : result A) (a : A) :
  r = Returned a → returns_from_empty_cache (lift r) a.
Proof. intros -> st Hst. by exists st. Qed.

Lemma down_request endpoint : returns_from_empty_cache (request endpoint) PNone.
Proof.
  intros st Hst. rewrite request_returned.
  rewrite (make_api_request_miss endpoint None true st)
    by (right; by rewrite Hst, lookup_empty).
  rewrite (fetch_failure _ _ _ _ (Hdown endpoint None st)).
  eexists. split; [done|]. done.
Qed.

Lemma down_bind {A B} (m : M A) (f : A → M B) a b :
  returns_from_empty_cache m a → returns_from_empty_cache (f a) b →
  returns_from_empty_cache (m ≫= f) b.
Proof.
  intros Hm Hf st Hst. destruct (Hm st Hst) as (st1 & Hm1 & Hst1).
  destruct (Hf st1 Hst1) as (st2 & Hf2 & Hst2).
  exists st2. split; [|done]. unfold mbind, M_bind. by rewrite Hm1.
Qed.

Lemma down_extend_from_body_part body_part equipment n exercises :
  returns_from_empty_cache
    (extend_from_body_part body_part equipment n exercises) exercises.
Proof.
  unfold extend_from_body_part.
  eapply down_bind; [apply down_request|]. apply down_mret.
Qed.

Lemma down_extend_from_body_parts body_parts equipment n exercises :
  returns_from_empty_cache
    (extend_from_body_parts body_parts equipment n exercises) exercises.
Proof.
  induction body_parts as [|body_part rest IH]; [apply down_mret|].
  cbn [extend_from_body_parts].
  eapply down_bind; [apply down_extend_from_body_part|done].
Qed.

Lemma down_extend_from_legs equipment n exercises :
  returns_from_empty_cache (extend_from_legs equipment n exercises) exercises.
Proof.
  unfold extend_from_legs.
  eapply down_bind; [apply down_request|].
  eapply down_bind; [apply down_request|]. apply down_mret.
Qed.

Ltac down :=
  cbv zeta;
  lazymatch goal with
  | |- returns_from_empty_cache (mret _) _ => apply down_mret
  | |- returns_from_empty_cache (lift _) _ => by apply down_lift
  | |- returns_from_empty_cache (request _) _ => apply down_request
  | |- returns_from_empty_cache (extend_from_body_part _ _ _ _) _ =>
      apply down_extend_from_body_part
  | |- returns_from_empty_cache (extend_from_body_parts _ _ _ _) _ =>
      apply down_extend_from_body_parts
  | |- returns_from_empty_cache (extend_from_legs _ _ _) _ =>
      apply down_extend_from_legs
  | |- returns_from_empty_cache (if ?b then _ else _) _ => destruct b; down
  | |- returns_from_empty_cache (_ ≫= _) _ =>
      eapply down_bind; [down|cbn [truthy truthy_list negb andb]; down]
  end.

Lemma down_personalized workout_type equipment n :
  returns_from_empty_cache
    (personalized_unique_exercises workout_type equipment n) [].
Proof.
  unfold personalized_unique_exercises, personalized_exercises.
  eapply down_bind.
  { eapply down_bind.
    - unfold personalized_by_type. down.
    - unfold equipment_fallback. cbn [truthy_list negb andb]. down. }
  by apply down_lift.
Qed.

Lemma down_circuit target_areas equipment n :
  returns_from_empty_cache (circuit_unique_exercises target_areas equipment n) [].
Proof.
  unfold circuit_unique_exercises.
  eapply down_bind; [unfold circuit_exercises; down|by apply down_lift].
Qed.

Lemma down_beginner focus_area equipment :
  returns_from_empty_cache (beginner_unique_exercises focus_area equipment) [].
Proof.
  unfold beginner_unique_exercises.
  eapply down_bind; [unfold beginner_exercises; down|by apply down_lift].
Qed.

Lemma down_difficulty difficulty body_focus equipment :
  returns_from_empty_cache
    (difficulty_unique_exercises difficulty body_focus equipment) [].
Proof.
  unfold difficulty_unique_exercises.
  eapply down_bind; [unfold difficulty_exercises; down|by apply down_lift].
Qed.

Lemma down_hiit equipment :
  returns_from_empty_cache (hiit_unique_exercises equipment) [].
Proof.
  unfold hiit_unique_exercises.
  eapply down_bind; [unfold hiit_exercises; down|by apply down_lift].
Qed.

Lemma down_listing endpoint unable heading limit :
  returns_from_empty_cache (listing endpoint unable heading limit) unable.
Proof. unfold listing. down. Qed.

End down.

(** X16.  With the upstream down and nothing cached, every tool returns
    its own sentence of failure: none raises, none returns a plan or a
    list, and the cache stays empty, so that the next call asks the
    upstream again. *)
Theorem tools_report_an_upstream_that_is_down :
  upstream_down →
  (∀ workout_type equipment duration_minutes fitness_level focus_areas,
     returns_from_empty_cache
       (create_personalized_workout workout_type equipment duration_minutes
                                    fitness_level focus_areas)
       ("❌ Unable to create workout plan for '" +:+ workout_type +:+
        "' with '" +:+ equipment +:+ "' equipment. Try different parameters."))
  ∧ (∀ target_areas equipment rounds exercises_per_round work_time rest_time,
       returns_from_empty_cache
         (create_circuit_training target_areas equipment rounds
                                  exercises_per_round work_time rest_time)
         ("❌ Unable to create circuit workout for '" +:+ target_areas +:+
          "' with '" +:+ equipment +:+ "' equipment."))
  ∧ (∀ focus_area equipment weeks,
       returns_from_empty_cache
         (get_beginner_workout_plan focus_area equipment weeks)
         ("❌ Unable to create beginner plan for '" +:+ focus_area +:+
          "' with '" +:+ equipment +:+ "' equipment."))
  ∧ (∀ difficulty body_focus equipment duration,
       returns_from_empty_cache
         (get_workout_by_difficulty difficulty body_focus equipment duration)
         ("❌ Unable to create " +:+ difficulty +:+ " workout for '" +:+
          body_focus +:+ "' with '" +:+ equipment +:+ "' equipment."))
  ∧ (∀ intensity equipment rounds work_time rest_time,
       returns_from_empty_cache
         (create_hiit_workout intensity equipment rounds work_time rest_time)
         ("❌ Unable to create HIIT workout with '" +:+ equipment +:+
          "' equipment."))
  ∧ (∀ exercise_id limit,
       returns_from_empty_cache
         (get_exercise_alternatives exercise_id limit)
         ("❌ Unable to find exercise with ID: " +:+ exercise_id))
  ∧ (∀ exercise_id,
       returns_from_empty_cache
         (get_exercise_modifications exercise_id)
         ("❌ Unable to find exercise with ID: " +:+ exercise_id))
  ∧ (∀ exercise_id,
       returns_from_empty_cache
         (get_exercise_by_id exercise_id)
         ("❌ Unable to fetch exercise with ID: " +:+ exercise_id +:+
          ". Please verify the ID is correct."))
  ∧ (∀ name limit,
       returns_from_empty_cache
         (search_exercises_by_name name limit)
         "❌ Unable to search exercises. Please check your connection.")
  ∧ (∀ limit,
       returns_from_empty_cache
         (get_all_exercises limit)
         "❌ Unable to fetch exercises data. Please check your API connection.")
  ∧ (∀ body_part limit,
       returns_from_empty_cache
         (get_exercises_by_body_part body_part limit)
         ("❌ Unable to fetch exercises for body part: " +:+ body_part +:+
          ". Please check the body part name."))
  ∧ (∀ target_muscle limit,
       returns_from_empty_cache
         (get_exercises_by_target_muscle target_muscle limit)
         ("❌ Unable to fetch exercises for target muscle: " +:+
          target_muscle +:+ ". Please check the muscle name."))
  ∧ (∀ equipment limit,
       returns_from_empty_cache
         (get_exercises_by_equipment equipment limit)
         ("❌ Unable to fetch exercises for equipment: " +:+ equipment +:+
          ". Please check the equipment name.")).
Proof.
  intros Hdown. split_and!; intros.
  - unfold create_personalized_workout. cbv zeta.
    eapply down_bind; [by apply down_personalized|]. apply down_mret.
  - unfold create_circuit_training.
    eapply down_bind; [by apply down_circuit|]. apply down_mret.
  - unfold get_beginner_workout_plan.
    eapply down_bind; [by apply down_beginner|]. apply down_mret.
  - unfold get_workout_by_difficulty. cbv zeta.
    eapply down_bind; [by apply down_difficulty|]. apply down_mret.
  - unfold create_hiit_workout.
    eapply down_bind; [by apply down_hiit|]. apply down_mret.
  - unfold get_exercise_alternatives.
    eapply down_bind; [by apply down_request|]. apply down_mret.
  - unfold get_exercise_modifications.
    eapply down_bind; [by apply down_request|]. apply down_mret.
  - unfold get_exercise_by_id. cbv zeta.
    eapply down_bind; [by apply down_request|]. apply down_mret.
  - unfold search_exercises_by_name. cbv zeta.
    eapply down_bind; [by apply down_request|]. apply down_mret.
  - by apply down_listing.
  - by apply down_listing.
  - by apply down_listing.
  - by apply down_listing.
Qed.

(** ** The tools on an upstream that sends lists *)

Lemma safe_mret {A} (x : A) (Q : A → Prop) : Q x → returns_some (mret x) Q.
Proof. intros HQ st Hst. by exists x, st. Qed.

Lemma safe_lift {A} (r : result A) (Q : A → Prop) :
  (∃ a, r = Returned a ∧ Q a) → returns_some (lift r) Q.
Proof. intros (a & -> & HQ) st Hst. by exists a, st. Qed.

Lemma safe_bind {A B} (m : M A) (f : A → M B) (Q : A → Prop) (R : B → Prop) :
  returns_some m Q → (∀ a, Q a → returns_some (f a) R) →
  returns_some (m ≫= f) R.
Proof.
  intros Hm Hf st Hst. destruct (Hm st Hst) as (a & st1 & Hm1 & Hst1 & Ha).
  destruct (Hf a Ha st1 Hst1) as (b & st2 & Hf2 & Hst2 & Hb).
  exists b, st2. split; [|done]. unfold mbind, M_bind. by rewrite Hm1.
Qed.

Lemma filter_and_slice_returns equipment n (l : list exercise) :
  ∃ selected,
    filter_and_slice equipment n (PList l) = Returned selected
    ∧ Forall is_record selected.
Proof.
  assert (∃ selected, filter_and_slice equipment n (PList l) = Returned selected)
    as [selected Hsel].
  { unfold filter_and_slice. destruct (specific equipment).
    - cbn [iterate]. rewrite equipment_filter_records. by eexists.
    - by eexists. }
  exists selected. split; [done|]. by eapply filter_and_slice_records.
Qed.

Lemma unique_by_id_returns bound items :
  Forall is_record items → ∃ out, unique_by_id bound items = Returned out.
Proof.
  intros [l ->]%Forall_is_record.
  destruct (unique_by_id_spec bound l) as (out & _ & Hout & _). by exists out.
Qed.

Lemma equipment_filter_returns equipment items :
  Forall is_record items →
  ∃ kept, equipment_filter equipment items = Returned kept
          ∧ Forall is_record kept.
Proof.
  intros [l ->]%Forall_is_record. rewrite equipment_filter_records.
  eexists. split; [done|]. apply Forall_is_record. by eexists.
Qed.

Section lists.

Hypothesis Hlists : upstream_lists.

Lemma safe_request endpoint :
  returns_some (request endpoint) (λ data, data = PNone ∨ ∃ l, data = PList l).
Proof.
  intros st Hst. rewrite request_returned. eexists _, _.
  split; [done|]. split; [by apply make_api_request_fetched|].
  destruct (hit_or_miss endpoint None true st) as [[_ [d Hd]] | Hmiss].
  { rewrite (make_api_request_hit _ _ _ _ Hd). simpl.
    destruct (Hst _ _ Hd) as (n & url & params & code & _ & Hup & Hs).
    by eapply Hlists. }
  rewrite (make_api_request_miss _ _ _ _ Hmiss).
  destruct (answered_or_fails endpoint None st) as [[d Hd] | Hf].
  - rewrite (fetch_success _ _ _ _ _ Hd). simpl.
    destruct Hd as (code & Ha & Hs). by eapply Hlists.
  - rewrite (fetch_failure _ _ _ _ Hf). by left.
Qed.

Lemma safe_extend_from_body_part body_part equipment n exercises :
  Forall is_record exercises →
  returns_some (extend_from_body_part body_part equipment n exercises)
               (Forall is_record).
Proof.
  intros Hex. unfold extend_from_body_part.
  eapply safe_bind; [apply safe_request|].
  intros data [-> | [l ->]]; cbn [truthy]; [by apply safe_mret|].
  destruct (truthy_list l); [|by apply safe_mret].
  eapply safe_bind; [apply safe_lift, filter_and_slice_returns|].
  intros selected Hsel. apply safe_mret. by apply Forall_app.
Qed.

Lemma safe_extend_from_body_parts body_parts equipment n exercises :
  Forall is_record exercises →
  returns_some (extend_from_body_parts body_parts equipment n exercises)
               (Forall is_record).
Proof.
  revert exercises.
  induction body_parts as [|body_part rest IH]; intros exercises Hex.
  { by apply safe_mret. }
  cbn [extend_from_body_parts].
  eapply safe_bind; [by apply safe_extend_from_body_part|]. apply IH.
Qed.

Lemma iterate_records data :
  data = PNone ∨ (∃ l, data = PList l) → Forall is_record (iterate data).
Proof.
  intros [-> | [l ->]]; [constructor|]. apply Forall_is_record. by eexists.
Qed.

Lemma safe_extend_from_legs equipment n exercises :
  Forall is_record exercises →
  returns_some (extend_from_legs equipment n exercises) (Forall is_record).
Proof.
  intros Hex. unfold extend_from_legs.
  eapply safe_bind; [apply safe_request|]. intros upper Hupper%iterate_records.
  eapply safe_bind; [apply safe_request|]. intros lower Hlower%iterate_records.
  cbv zeta.
  set (combined := if truthy lower then _ else _).
  assert (Forall is_record combined) as Hcombined.
  { unfold combined. destruct (truthy upper), (truthy lower);
      rewrite ?Forall_app; auto. }
  clearbody combined. destruct (truthy_list combined); [|by apply safe_mret].
  eapply safe_bind.
  - apply safe_lift. destruct (specific equipment).
    + by apply equipment_filter_returns.
    + by exists combined.
  - intros kept Hkept. apply safe_mret. apply Forall_app. split; [done|].
    by apply slice_to_Forall.
Qed.

Lemma safe_unique {A} (m : M (list item)) bound (f : list exercise → M A) :
  returns_some m (Forall is_record) →
  (∀ unique_exercises, returns_some (f unique_exercises) (λ _, True)) →
  returns_some ((m ≫= λ exercises, lift (unique_by_id bound exercises)) ≫= f)
               (λ _, True).
Proof.
  intros Hm Hf. eapply (safe_bind _ _ (λ _, True)); [|intros out _; apply Hf].
  eapply safe_bind; [done|]. intros exercises Hex.
  apply safe_lift. destruct (unique_by_id_returns bound exercises Hex) as [out ->].
  by exists out.
Qed.

Lemma safe_equipment_fallback equipment n exercises :
  Forall is_record exercises →
  returns_some (equipment_fallback equipment n exercises) (Forall is_record).
Proof.
  intros Hex. unfold equipment_fallback.
  destruct (negb (truthy_list exercises) && specific equipment);
    [|by apply safe_mret].
  eapply safe_bind; [apply safe_request|].
  intros data [-> | [l ->]]; cbn [truthy]; [by apply safe_mret|].
  destruct (truthy_list l); [|by apply safe_mret].
  eapply safe_bind.
  - apply safe_lift. eexists. split; [done|]. apply Forall_is_record. by eexists.
  - intros selected Hsel. apply safe_mret. by apply Forall_app.
Qed.

Lemma safe_listing endpoint unable heading limit :
  returns_some (listing endpoint unable heading limit) (λ _, True).
Proof.
  unfold listing. eapply safe_bind; [apply safe_request|].
  intros data [-> | [l ->]]; cbn [truthy negb]; [by apply safe_mret|].
  destruct (negb (truthy_list l)); [by apply safe_mret|]. cbv zeta.
  eapply (safe_bind _ _ (λ _, True)); [apply safe_lift; by eexists|].
  intros rendered _. by apply safe_mret.
Qed.

End lists.


(** ** Tools by identifier, and the loop over the rounds *)

(** X19.  The three tools that look an exercise up by its identifier read
    the payload as one object: given a list that is not empty they raise,
    each at its first [.get]. *)
Theorem identifier_tools_raise_on_a_list exercise_id limit st exercise
    exercises :
  (make_api_request ("/exercises/exercise/" +:+ exercise_id) None true st).1
  = PList (exercise :: exercises) →
  (get_exercise_by_id exercise_id st).1 = Raised AttributeError
  ∧ (get_exercise_alternatives exercise_id limit st).1 = Raised AttributeError
  ∧ (get_exercise_modifications exercise_id st).1 = Raised AttributeError.
Proof.
  intros Hdata.
  unfold get_exercise_by_id, get_exercise_alternatives,
    get_exercise_modifications. cbv zeta.
  rewrite !bind_request, Hdata. cbn [truthy truthy_list negb].
  by rewrite !bind_lift.
Qed.

Lemma concat_empty_cons (x : string) (l : list string) :
  String.concat EmptyString (x :: l) = x +:+ String.concat EmptyString l.
Proof. destruct l; [by rewrite app_empty_r|done]. Qed.

Lemma foldl_blocks {A B} (block : A → B → string) (l : list (A * B))
    (acc : string) :
  foldl (λ acc '(i, x), acc +:+ block i x) acc l
  = acc +:+ String.concat EmptyString ((λ '(i, x), block i x) <$> l).
Proof.
  revert acc. induction l as [|[i x] l IH]; intros acc.
  - by rewrite app_empty_r.
  - cbn [foldl]. rewrite IH, fmap_cons, concat_empty_cons.
    by rewrite app_assoc_str.
Qed.

Lemma concat_empty_app (l l' : list string) :
  String.concat EmptyString (l ++ l')
  = String.concat EmptyString l +:+ String.concat EmptyString l'.
Proof.
  induction l as [|x l IH]; [done|].
  change ((x :: l) ++ l') with (x :: (l ++ l')).
  by rewrite !concat_empty_cons, IH, app_assoc_str.
Qed.

Lemma concat_snoc (sep : string) (l : list string) (y : string) :
  String.concat sep (l ++ [y])
  = String.concat EmptyString ((λ x, x +:+ sep) <$> l) +:+ y.
Proof.
  induction l as [|x l IH]; [done|].
  rewrite fmap_cons, concat_empty_cons, <-app_assoc_str, <-IH.
  change ((x :: l) ++ [y]) with (x :: (l ++ [y])).
  destruct (l ++ [y]) as [|z l'] eqn:Hl.
  { by destruct l. }
  cbn [String.concat]. by rewrite <-app_assoc_str.
Qed.

(** X20.  The loop over the rounds of the circuit and of the HIIT workout
    joins the rounds with the text of the rest: every round is its heading
    and the block of every exercise in order, the text of the rest stands
    between two rounds and not after the last one, and with no round to do
    the plan is left as it was. *)
Theorem rounds_loop_joins_the_rounds block between rounds unique_exercises plan :
  rounds_loop block between rounds unique_exercises plan
  = plan +:+ Py.join between (round_of block unique_exercises <$> seqZ 1 rounds)
  ∧ length (seqZ 1 rounds) = Z.to_nat rounds
  ∧ (rounds ≤ 0 →
     rounds_loop block between rounds unique_exercises plan = plan).
Proof.
  assert (∀ round_num acc,
            foldl (λ plan '(i, exercise), plan +:+ block i exercise)
                  (acc +:+ "### Round " +:+ Py.str round_num +:+ "

") (Py.enumerate 1 unique_exercises)
            = acc +:+ round_of block unique_exercises round_num) as Hround.
  { intros round_num acc. unfold round_of, Py.join.
    by rewrite foldl_blocks, !app_assoc_str. }
  assert (∀ (k : nat) acc,
            Z.of_nat k < rounds →
            foldl (λ plan round_num,
                     let plan := plan +:+ "### Round " +:+ Py.str round_num +:+ "

" in
                     let plan :=
                       foldl (λ plan '(i, exercise), plan +:+ block i exercise)
                             plan (Py.enumerate 1 unique_exercises) in
                     if decide (round_num < rounds) then plan +:+ between
                     else plan)
                  acc (seqZ 1 (Z.of_nat k))
            = acc +:+ String.concat EmptyString
                        ((λ x, x +:+ between)
                           <$> (round_of block unique_exercises <$> seqZ 1 (Z.of_nat k))))
    as Hbefore.
  { induction k as [|k IH]; intros acc Hk.
    { by rewrite app_empty_r. }
    rewrite seqZ_S, foldl_app, IH by lia.
    rewrite !fmap_app. cbn [foldl fmap list_fmap]. cbv zeta.
    rewrite Hround, decide_True by lia.
    rewrite concat_empty_app, concat_empty_cons. cbn [String.concat].
    by rewrite app_empty_r, !app_assoc_str. }
  assert (length (seqZ 1 rounds) = Z.to_nat rounds) as Hlen.
  { unfold seqZ. by rewrite length_fmap, length_seq. }
  assert (rounds ≤ 0 →
          rounds_loop block between rounds unique_exercises plan = plan)
    as Hnone.
  { intros Hr. unfold rounds_loop. by rewrite seqZ_nil by done. }
  split; [|done].
  destruct (decide (rounds ≤ 0)) as [Hr|Hr].
  { rewrite Hnone by done. rewrite seqZ_nil by done. by rewrite app_empty_r. }
  unfold rounds_loop, Py.join.
  set (k := Z.to_nat (rounds - 1)).
  assert (seqZ 1 rounds = seqZ 1 (Z.of_nat k) ++ [1 + Z.of_nat k]) as ->.
  { rewrite <-seqZ_S. f_equal. lia. }
  rewrite foldl_app, Hbefore by lia.
  cbn [foldl]. cbv zeta. rewrite Hround, decide_False by lia.
  by rewrite fmap_app, list_fmap_singleton, concat_snoc, app_assoc_str.
Qed.

(** ** A listing, then a builder *)

Lemma make_api_request_stored endpoint st data :
  (make_api_request endpoint None true st).1 = data →
  data ≠ PNone →
  _cache (make_api_request endpoint None true st).2
    !! cache_key_of endpoint None = Some data.
Proof.
  intros Hdata Hsome.
  destruct (hit_or_miss endpoint None true st) as [[_ [d Hd]] | Hmiss].
  { rewrite (make_api_request_hit _ _ _ _ Hd) in *. simpl in *. by subst. }
  rewrite (make_api_request_miss _ _ _ _ Hmiss) in *.
  destruct (answered_or_fails endpoint None st) as [[d Hd] | Hf].
  - rewrite (fetch_success _ _ _ _ _ Hd) in *. simpl in *. subst.
    apply lookup_insert_eq.
  - rewrite (fetch_failure _ _ _ _ Hf) in Hdata. simpl in Hdata. by subst.
Qed.

Lemma bind_state {A B} (m : M A) (f : A → M B) st :
  (∀ a st1, (f a st1).2 = st1) → ((m ≫= f) st).2 = (m st).2.
Proof.
  intros Hf. unfold mbind, M_bind. destruct (m st) as [[a|e] st1]; [|done].
  apply Hf.
Qed.

Lemma extend_from_body_part_state body_part equipment n exercises st :
  (extend_from_body_part body_part equipment n exercises st).2
  = (make_api_request ("/exercises/bodyPart/" +:+ body_part) None true st).2.
Proof.
  unfold extend_from_body_part. rewrite bind_request.
  destruct (truthy _); [|done]. rewrite bind_lift.
  by destruct (filter_and_slice _ _ _).
Qed.

(** X21.  A listing by body part that received a list leaves it in the
    cache under the key the builders use: a workout by difficulty for the
    same body part (in any letter case, and not the full body) that
    follows it issues no request and leaves the process as it is. *)
Theorem workout_by_difficulty_reuses_the_listing difficulty body_focus
    equipment duration limit st exercises :
  Py.contains "full body" (Py.lower body_focus) = false →
  (make_api_request ("/exercises/bodyPart/" +:+ Py.lower body_focus)
                    None true st).1 = PList exercises →
  let st1 := (get_exercises_by_body_part body_focus limit st).2 in
  (get_workout_by_difficulty difficulty body_focus equipment duration st1).2
  = st1
  ∧ (requests st1 ≤ S (requests st))%nat.
Proof.
  intros Hfocus Hdata st1.
  assert (st1 = (make_api_request ("/exercises/bodyPart/" +:+ Py.lower body_focus)
                                  None true st).2) as Hst1.
  { unfold st1, get_exercises_by_body_part. cbv zeta. apply listing_state. }
  split.
  - unfold get_workout_by_difficulty, difficulty_unique_exercises. cbv zeta.
    rewrite bind_state by (intros a s; by destruct (negb _)).
    rewrite bind_state by done.
    unfold difficulty_exercises. cbv zeta. rewrite Hfocus.
    rewrite extend_from_body_part_state.
    erewrite make_api_request_hit; [done|].
    rewrite Hst1. by apply make_api_request_stored.
  - rewrite Hst1. apply make_api_request_size.
Qed.

End server.

(** ** Examples

    The theorems above at the sample upstreams. *)



(** C3, counterexample to the claim as first stated: the first call times
    out and returns [None], the second is answered. *)
Lemma second_call_differs_after_failure :
  let first :=
    make_api_request json_dumps_plain flaky "/exercises" None true start in
  let second :=
    make_api_request json_dumps_plain flaky "/exercises" None true first.2 in
  first.1 = PNone ∧ second.1 = PList [push_up] ∧ second.1 ≠ first.1.
Proof. by vm_compute. Qed.

(** C3 at the small catalogue: the chest listing is fetched once and is
    returned again after two other calls, one after the other or
    overlapping. *)
Lemma repeated_call_witness :
  let calls := [("/exercises/bodyPart/back", None, true);
                ("/exercises/bodyPart/chest", None, false)] in
  let events := [Begin "/exercises/bodyPart/back" None true;
                 Begin "/exercises/bodyPart/chest" None false;
                 Resume 1; Resume 0] in
  let first :=
    make_api_request json_dumps_plain catalogue
      "/exercises/bodyPart/chest" None true start in
  let later := run_requests json_dumps_plain catalogue calls first.2 in
  let overlapped :=
    run_events json_dumps_plain catalogue events (Server first.2 []) in
  first.1 = PList [push_up; dumbbell_fly; bench_press]
  ∧ requests later = 3%nat
  ∧ make_api_request json_dumps_plain catalogue
      "/exercises/bodyPart/chest" None true later = (first.1, later)
  ∧ requests (proc overlapped) = 3%nat
  ∧ step json_dumps_plain catalogue
      (Begin "/exercises/bodyPart/chest" None true) overlapped
    = (Some first.1, overlapped).
Proof.
  intros calls events first later overlapped.
  split; [by vm_compute|]. split; [by vm_compute|].
  destruct (repeated_call_returns_first_payload json_dumps_plain catalogue
              "/exercises/bodyPart/chest" None start first.1 first.2 calls
              [] events)
    as (_ & [_ Hlater] & (_ & _ & Hoverlapped) & _).
  - apply surjective_pairing.
  - intros [_ Hfails]. vm_compute in Hfails.
    by destruct Hfails as [? | [e ?]].
  - intros call Hcall. by apply elem_of_nil in Hcall.
  - split; [exact Hlater|]. split; [by vm_compute|exact Hoverlapped].
Defined.

(** Two calls for one key that overlap: both miss, and the entry the first
    stores is replaced when the second resumes. *)
Example overlapping_calls_replace_the_entry :
  let sv1 :=
    run_events json_dumps_plain changing
      [Begin "/exercises" None true; Begin "/exercises" None true; Resume 0]
      (Server start []) in
  let sv2 := (step json_dumps_plain changing (Resume 0) sv1).2 in
  (step json_dumps_plain changing (Begin "/exercises" None true) sv1).1
  = Some (PList [push_up])
  ∧ (step json_dumps_plain changing (Begin "/exercises" None true) sv2).1
    = Some (PList [dumbbell_fly])
  ∧ ¬ settled (cache_key_of json_dumps_plain "/exercises" None) sv1.
Proof.
  split; [by vm_compute|]. split; [by vm_compute|].
  intros Hsettled.
  apply (Hsettled (Suspended (cache_key_of json_dumps_plain "/exercises" None)
                     true (Response 200 (Json (PList [dumbbell_fly]))))).
  - vm_compute. apply list_elem_of_here.
  - done.
  - done.
Qed.

(** C4 at an upstream that refuses the key: [None], two lines printed,
    the cache still empty. *)
Lemma failed_fetch_witness :
  ∃ st',
    make_api_request json_dumps_plain unauthorized "/exercises" None true start
    = (PNone, st')
    ∧ _cache st' = _cache start
    ∧ stdout st'
      = stdout start
        ++ failure_lines (answer unauthorized "/exercises" None start)
    ∧ failure_lines (answer unauthorized "/exercises" None start) ≠ [].
Proof.
  apply (failed_fetch_returns_none json_dumps_plain unauthorized
           "/exercises" None true start).
  - right. by vm_compute.
  - right. eexists _, _. split; by vm_compute.
Defined.

(** C5 at the small catalogue, which answers 404 for an unknown
    identifier. *)
Lemma unknown_identifier_witness :
  (get_exercise_by_id json_dumps_plain catalogue "9999" start).1
  = Returned "❌ Unable to fetch exercise with ID: 9999. Please verify the ID is correct.".
Proof.
  set (fetched := make_api_request json_dumps_plain catalogue
                    ("/exercises/exercise/" +:+ "9999") None true start).
  destruct (get_exercise_by_id_not_found json_dumps_plain catalogue
              "9999" start fetched.1 fetched.2) as [-> _].
  - apply surjective_pairing.
  - by vm_compute.
  - done.
Defined.



(** The listing by equipment is cut to the count before the duplicates go:
    of a listing with three distinct records, the plan for three shows
    two. *)
Example fallback_removes_duplicates_after_the_cut :
  (make_api_request json_dumps_plain repeating
     "/exercises/equipment/dumbbell" None true start).1
  = PList [dumbbell_fly; dumbbell_fly; push_up; bench_press]
  ∧ (personalized_unique_exercises json_dumps_plain repeating
       "chest" "dumbbell" 3 start).1
    = Returned [dumbbell_fly; push_up].
Proof. by vm_compute. Qed.

(** C7 at the three sample records. *)
Lemma rendering_witness :
  format_exercise_list [push_up; dumbbell_fly] 10 true
  = format_exercise_list [push_up; dumbbell_fly] 10 true
  ∧ format_exercise_detail push_up = format_exercise_detail push_up
  ∧ format_workout_plan [push_up; dumbbell_fly] "chest" "any" 30
    = format_workout_plan [push_up; dumbbell_fly] "chest" "any" 30.
Proof.
  destruct (rendering_is_repeatable json_dumps_plain catalogue
              [push_up; dumbbell_fly] [push_up; dumbbell_fly]
              push_up push_up 10 10 30 30 true true
              "chest" "chest" "any" "any")
    as (Hlist & Hdetail & Hplan & _); [reflexivity..|].
  split; [exact Hlist|]. split; [exact Hdetail|exact Hplan].
Defined.

(** C8, counterexample to the claim as first stated: the upstream answers
    200 with the body [null], and [None] is stored in the cache. *)
Lemma null_body_is_cached :
  let first :=
    make_api_request json_dumps_plain null_body "/exercises" None true start in
  first.1 = PNone
  ∧ _cache first.2 !! cache_key_of json_dumps_plain "/exercises" None
    = Some PNone
  ∧ requests
      (make_api_request json_dumps_plain null_body "/exercises" None true
         first.2).2 = 1%nat.
Proof. by vm_compute. Qed.

(** C8 at the upstream whose first answer is a timeout: the second call
    fetches again and caches. *)
Lemma refetch_after_failure_witness :
  let first :=
    make_api_request json_dumps_plain flaky "/exercises" None true start in
  ∃ st2,
    make_api_request json_dumps_plain flaky "/exercises" None true first.2
    = (PList [push_up], st2)
    ∧ _cache st2 !! cache_key_of json_dumps_plain "/exercises" None
      = Some (PList [push_up]).
Proof.
  destruct (cache_holds_fetched_payloads json_dumps_plain flaky)
    as (_ & _ & _ & Hrefetch).
  apply (Hrefetch "/exercises" None start (PList [push_up])).
  - right. by vm_compute.
  - by vm_compute.
  - exists 200. split; by vm_compute.
Defined.

(** C9 at three records and the limit 2: two entries and the sentence. *)
Lemma format_exercise_list_witness :
  let exercises := [push_up; dumbbell_fly; bench_press] in
  length (formatted_exercises exercises 2 true) = 2%nat
  ∧ more_available exercises 2
    = "

... and 1 more exercises available. Use specific filters to narrow down results.".
Proof.
  intros exercises.
  destruct (format_exercise_list_entries exercises 2 true) as [_ Hentries].
  destruct Hentries as (_ & Hlength & _ & _ & Hmore); [done|lia|].
  split; [exact Hlength|]. apply Hmore. by vm_compute.
Defined.

(** C10 at two records without identifier, and at a list with a repeated
    identifier. *)
Lemma idless_witness :
  (length (filter (λ r, ex_id r = None) [stretch_a]) ≤ 1)%nat.
Proof.
  destruct (idless_records_and_truncation json_dumps_plain catalogue)
    as (Hidless & (_ & _ & _ & Hstretch) & _).
  apply (Hidless None [stretch_a; stretch_b] [stretch_a]).
  apply Hstretch.
Defined.

(** The model at work on the sample records. *)

Example remove_duplicates_example :
  unique_by_id (Some 2)
    (IRecord <$> [push_up; push_up; stretch_a; stretch_b; bench_press])
  = Returned [push_up; stretch_a]
  ∧ unique_by_id None
      (IRecord <$> [push_up; push_up; stretch_a; stretch_b; bench_press])
    = Returned [push_up; stretch_a; bench_press]
  ∧ unique_by_id (Some 0) (IRecord <$> [push_up; bench_press])
    = Returned [push_up].
Proof. by vm_compute. Qed.

Example equipment_filter_example :
  filter_and_slice "DUMBBELL" 3 (PList [push_up; dumbbell_fly; bench_press])
  = Returned [IRecord dumbbell_fly]
  ∧ filter_and_slice "Any" 2 (PList [push_up; dumbbell_fly; bench_press])
    = Returned [IRecord push_up; IRecord dumbbell_fly]
  ∧ filter_and_slice "dumbbell" 3 (PDict push_up) = Raised AttributeError
  ∧ filter_and_slice "all" 3 (PDict push_up) = Raised DictSliceError.
Proof. by vm_compute. Qed.

Example format_exercise_list_example :
  format_exercise_list [bench_press; plank] 1 true
  = "**1. barbell bench press**
- **ID:** 0025
- **Body Part:** Chest
- **Target Muscle:** Pectorals
- **Equipment:** Barbell
- **Instructions:** No instructions available

... and 1 more exercises available. Use specific filters to narrow down results.".
Proof. by vm_compute. Qed.

Example error_object_example :
  truthy (PDict error_object) = true
  ∧ truthy (PDict empty_record) = false
  ∧ truthy (PList []) = false
  ∧ iterate (PDict error_object) = [IStr "message"].
Proof. by vm_compute. Qed.

Example cache_key_example :
  cache_key_of json_dumps_plain "/exercises" None = "/exercises_{}"
  ∧ cache_key_of json_dumps_plain "/exercises"
      (Some (<["offset" := "0"]> (<["limit" := "10"]> ∅)))
    = "/exercises_{" +:+ String double_quote "limit" +:+
      String double_quote ": " +:+ String double_quote "10" +:+
      String double_quote ", " +:+ String double_quote "offset" +:+
      String double_quote ": " +:+ String double_quote "0" +:+
      String double_quote "}".
Proof. by vm_compute. Qed.

(** An instruction of exactly 100 characters, one of them written on two
    bytes, is shown whole. *)
Example instruction_of_100_characters :
  let first := String.concat EmptyString (replicate 99 "a") +:+ "é" in
  String.length first = 101%nat
  ∧ Py.str_len first = 100%nat
  ∧ instructions_cell
      (Exercise None None None None None None (Some [first]) None None None [])
    = first.
Proof. by vm_compute. Qed.


(** X6 at the small catalogue: the beginner plan for the upper body has
    the two first chest records, and shows both. *)
Lemma beginner_plan_witness :
  (length [push_up; dumbbell_fly] ≤ 8)%nat
  ∧ beginner_shown [push_up; dumbbell_fly] = [push_up; dumbbell_fly].
Proof.
  set (run := beginner_unique_exercises json_dumps_plain catalogue
                "upper body" "any" start).
  apply (beginner_plan_shows_all json_dumps_plain catalogue
           "upper body" "any" start [push_up; dumbbell_fly] run.2).
  by vm_compute.
Defined.

(** X8 at the small catalogue: two of the three chest records. *)
Lemma listing_witness :
  (get_exercises_by_body_part json_dumps_plain catalogue "Chest" 2 start).1
  = Returned ("**🎯 Chest Exercises (Showing 2 of 3 exercises):**

" +:+ format_exercise_list [push_up; dumbbell_fly; bench_press] 2 true).
Proof.
  unfold get_exercises_by_body_part. cbv zeta.
  rewrite (listing_announces_what_it_shows json_dumps_plain catalogue
             ("/exercises/bodyPart/" +:+ Py.lower "Chest")
             ("❌ Unable to fetch exercises for body part: " +:+ "Chest" +:+
              ". Please check the body part name.")
             ("**🎯 " +:+ Py.title "Chest" +:+ " Exercises (Showing ")
             2 start [push_up; dumbbell_fly; bench_press]).
  - by vm_compute.
  - by vm_compute.
  - done.
  - lia.
Defined.

(** X9 at the small catalogue: [Chest] and [CHEST] give the same text and
    the same state. *)
Lemma letter_case_witness :
  get_exercises_by_body_part json_dumps_plain catalogue "Chest" 5 start
  = get_exercises_by_body_part json_dumps_plain catalogue "CHEST" 5 start.
Proof.
  destruct (listings_ignore_letter_case json_dumps_plain catalogue
              "Chest" "CHEST" 5 start) as [[_ Hsame] _]; [done..|].
  apply Hsame. by vm_compute.
Defined.

(** X11 at an upstream that lists one record: the term [PUSH] finds
    [push-up]. *)
Lemma search_witness :
  (search_exercises_by_name json_dumps_plain flaky "PUSH" 10 (issued start)).1
  = Returned ("**🔍 Search Results for 'PUSH' (1 found):**

" +:+ format_exercise_list [push_up] 10 true).
Proof.
  destruct (search_finds_names_holding_the_term json_dumps_plain flaky
              "PUSH" 10 (issued start) [push_up])
    as (found & Hfound & _ & _ & _ & Htext); [by vm_compute|done|].
  rewrite Htext. vm_compute in Hfound. injection Hfound as <-.
  by vm_compute.
Defined.

(** X12 at the small catalogue: no listing by target, so the alternatives
    to [push-up] are the two other chest records. *)
Lemma alternatives_witness :
  (alternatives_of json_dumps_plain catalogue "0662" push_up start).1
  = Returned [dumbbell_fly; bench_press].
Proof.
  destruct (alternatives_leave_the_original_out json_dumps_plain catalogue
              "0662" push_up start) as (_ & Hpart & _).
  rewrite (Hpart [push_up; dumbbell_fly; bench_press]).
  - by vm_compute.
  - right. left. by vm_compute.
  - done.
  - by vm_compute.
Defined.

(** X16 at an upstream that refuses the key. *)
Lemma upstream_down_witness :
  (get_all_exercises json_dumps_plain unauthorized 10 start).1
  = Returned "❌ Unable to fetch exercises data. Please check your API connection.".
Proof.
  destruct (tools_report_an_upstream_that_is_down json_dumps_plain unauthorized)
    as (_ & _ & _ & _ & _ & _ & _ & _ & _ & Hall & _).
  - intros endpoint params st. by left.
  - destruct (Hall 10 start eq_refl) as (st' & -> & _). done.
Defined.


(** X19 at an upstream that answers every path with a list. *)
Lemma list_for_an_identifier_witness :
  (get_exercise_by_id json_dumps_plain flaky "0662" (issued start)).1
  = Raised AttributeError.
Proof.
  destruct (identifier_tools_raise_on_a_list json_dumps_plain flaky
              "0662" 5 (issued start) push_up [])
    as [Hraised _]; [by vm_compute|exact Hraised].
Defined.

(** X21 at the small catalogue: the chest listing, then a beginner workout
    for the chest. *)
Lemma listing_then_workout_witness :
  let st1 :=
    (get_exercises_by_body_part json_dumps_plain catalogue "Chest" 10 start).2 in
  (get_workout_by_difficulty json_dumps_plain catalogue
     "beginner" "Chest" "any" 30 st1).2 = st1.
Proof.
  intros st1.
  destruct (workout_by_difficulty_reuses_the_listing json_dumps_plain catalogue
              "beginner" "Chest" "any" 30 10 start
              [push_up; dumbbell_fly; bench_press])
    as [Hsame _]; [by vm_compute..|exact Hsame].
Defined.

